(** * Aod-Shop: order placement, payment verification, order and cart stores

    A shallow embedding of

    - [supabase/migrations/001_initial_schema.sql]: the tables [store_settings],
      [profiles], [products], [orders], [order_items], [activity_logs] and
      their declared constraints;
    - [supabase/migrations/002_rpc_functions.sql]: the PL/pgSQL functions
      [place_order_complete], [verify_payment_slip],
      [calculate_shipping_distance] and [get_order_statistics];
    - [src/store/orderStore.ts]: [updateOrderStatus], [cancelOrder] and
      [createOrder];
    - [src/lib/thunderClient.ts]: [verifyPayment];
    - [src/components/customer/PaymentSlipUploader.tsx]:
      [handleVerifyPayment];
    - [src/pages/CheckoutPage.tsx]: the items [onSubmit] hands to
      [createOrder];
    - [src/utils/validation.ts]: [validateThunderResponse] and
      [sanitizeInput];
    - the cart store ([useCartStore]): [addItem], [removeItem],
      [updateQuantity], [clearCart], [getTotalItems], [getTotalPrice],
      [getItemQuantity]; the cart hook ([useCart]): [validateCartItems];
    - the user store ([useUserStore]): [login].

    Conventions of the embedding.

    - A table is the list of its rows; every column is an SQL value, that is
      an [option] ([None] is NULL).  NOT NULL, CHECK, UNIQUE, PRIMARY KEY and
      FOREIGN KEY are checked by the write primitives of each table, which
      raise the matching error when a row is refused.
    - [INTEGER] columns are carried as [Z]; [DECIMAL(10,2)] columns as [Z]
      counting hundredths, with the ten-digit precision checked on write;
      [VARCHAR(n)] columns as strings coerced on write.  The 32-bit range of
      [INTEGER] and the rounding of amounts finer than a hundredth are not
      modelled.
    - A [UUID] is carried as its text.
    - A [GEOGRAPHY] value is carried as what the type of a column looks at
      (the type of the geometry, its dimensions, its SRID) and the text of
      its coordinates.
    - What the engine chooses ([NOW()], [RANDOM()], [uuid_generate_v4()]) is
      read from an explicit environment [env].
    - A PL/pgSQL function maps a database to a [result]: either the value it
      returns with the database it leaves, or the error it raises, in which
      case the calling statement is rolled back.
    - Where the client computes with JavaScript numbers, the numbers and
      the operations applied to them are variables of a section, as is what
      the data API makes of a number; a JavaScript string that is cut or
      trimmed is the list of its UTF-16 code units. *)

From Stdlib Require Import ZArith NArith List String Ascii Bool Lia DecimalString.
Import ListNotations.

Local Open Scope string_scope.
Local Open Scope Z_scope.

(* ================================================================== *)
(** * SQL values and three-valued logic *)

Abbreviation uuid := string (only parsing).
Abbreviation timestamp := Z (only parsing).
Abbreviation decimal := Z (only parsing).

(** A condition is taken (in WHERE, in IF) only when it is TRUE. *)
Definition is_true (b : option bool) : bool :=
  match b with Some true => true | _ => false end.

(** A CHECK constraint refuses a row only when its condition is FALSE. *)
Definition check_passes (b : option bool) : bool :=
  match b with Some false => false | _ => true end.

Definition sql_not (b : option bool) : option bool :=
  option_map negb b.

Definition sql_lt (a b : option Z) : option bool :=
  match a, b with Some x, Some y => Some (x <? y) | _, _ => None end.

Definition sql_ge (a b : option Z) : option bool :=
  match a, b with Some x, Some y => Some (y <=? x) | _, _ => None end.

Definition sql_gt (a b : option Z) : option bool :=
  match a, b with Some x, Some y => Some (y <? x) | _, _ => None end.

Definition sql_sub (a b : option Z) : option Z :=
  match a, b with Some x, Some y => Some (x - y) | _, _ => None end.

Definition sql_add (a b : option Z) : option Z :=
  match a, b with Some x, Some y => Some (x + y) | _, _ => None end.

Definition sql_mul (a b : option Z) : option Z :=
  match a, b with Some x, Some y => Some (x * y) | _, _ => None end.

Definition sql_eq_text (a b : option string) : option bool :=
  match a, b with Some x, Some y => Some (String.eqb x y) | _, _ => None end.

Definition sql_eq_bool (a b : option bool) : option bool :=
  match a, b with Some x, Some y => Some (Bool.eqb x y) | _, _ => None end.

Definition sql_in_text (a : option string) (l : list string) : option bool :=
  match a with
  | Some x => Some (existsb (String.eqb x) l)
  | None => None
  end.

Definition is_null {A} (a : option A) : bool :=
  match a with None => true | Some _ => false end.

(* ================================================================== *)
(** * Errors *)

Inductive exn : Type :=
| raise_exception (message : string)
| not_null_violation (relation column : string)
| check_violation (relation constraint : string)
| unique_violation (constraint : string)
| foreign_key_violation (relation constraint : string)
| string_data_right_truncation (n : nat)
| numeric_value_out_of_range
| invalid_parameter_value (message : string)
| undefined_function (signature : string).

Definition dquote : string := String (ascii_of_nat 34) EmptyString.

Definition quoted (s : string) : string := dquote ++ s ++ dquote.

Definition text_of_nat (n : nat) : string :=
  NilEmpty.string_of_uint (Nat.to_uint n).

Definition text_of_int (z : Z) : string :=
  NilEmpty.string_of_int (Z.to_int z).

Definition text_of_value (z : option Z) : string :=
  match z with Some v => text_of_int v | None => "<NULL>" end.

(** SQLERRM: the message of the error being handled. *)
Definition SQLERRM (e : exn) : string :=
  match e with
  | raise_exception m => m
  | not_null_violation r c =>
      "null value in column " ++ quoted c ++ " of relation " ++ quoted r
      ++ " violates not-null constraint"
  | check_violation r c =>
      "new row for relation " ++ quoted r ++ " violates check constraint "
      ++ quoted c
  | unique_violation c =>
      "duplicate key value violates unique constraint " ++ quoted c
  | foreign_key_violation r c =>
      "insert or update on table " ++ quoted r
      ++ " violates foreign key constraint " ++ quoted c
  | string_data_right_truncation n =>
      "value too long for type character varying(" ++ text_of_nat n ++ ")"
  | numeric_value_out_of_range => "numeric field overflow"
  | invalid_parameter_value m => m
  | undefined_function f =>
      "Could not find the function " ++ f ++ " in the schema cache"
  end.

Inductive result (A : Type) : Type :=
| Ok (a : A)
| Raise (e : exn).

Arguments Ok {A} a.
Arguments Raise {A} e.

Definition bind {A B} (c : result A) (k : A -> result B) : result B :=
  match c with
  | Ok a => k a
  | Raise e => Raise e
  end.

Notation "x <- c ;; k" := (bind c (fun x => k))
  (at level 61, c at next level, right associativity).
Notation "c ;;; k" := (bind c (fun _ => k))
  (at level 61, right associativity).

Definition assert (b : bool) (e : exn) : result unit :=
  if b then Ok tt else Raise e.

(* ================================================================== *)
(** * Column types *)

Fixpoint all_spaces (s : string) : bool :=
  match s with
  | EmptyString => true
  | String c rest => Ascii.eqb c " "%char && all_spaces rest
  end.

(** Assignment to a [VARCHAR(n)] column: a longer value is refused, unless
    the excess is made of spaces only, which are dropped. *)
Definition varchar (n : nat) (v : option string) : result (option string) :=
  match v with
  | None => Ok None
  | Some s =>
      if (String.length s <=? n)%nat then Ok (Some s)
      else if all_spaces (substring n (String.length s - n) s)
           then Ok (Some (substring 0 n s))
           else Raise (string_data_right_truncation n)
  end.

(** Assignment to a [DECIMAL(10,2)] column, in hundredths. *)
Definition decimal_10_2 (v : option decimal) : result (option decimal) :=
  match v with
  | None => Ok None
  | Some z =>
      if Z.abs z <? 10 ^ 10 then Ok (Some z)
      else Raise numeric_value_out_of_range
  end.

(** A GEOGRAPHY value, as far as the type of a column looks at it: the type
    of the geometry, whether it has Z or M coordinates, whether it is empty,
    and its SRID, which is 4326 unless the value names another. *)
Module Geography.

Inductive geometry_type : Type :=
| Point
| LineString
| Polygon
| MultiPoint
| MultiLineString
| MultiPolygon
| GeometryCollection.

Definition type_name (t : geometry_type) : string :=
  match t with
  | Point => "Point"
  | LineString => "LineString"
  | Polygon => "Polygon"
  | MultiPoint => "MultiPoint"
  | MultiLineString => "MultiLineString"
  | MultiPolygon => "MultiPolygon"
  | GeometryCollection => "GeometryCollection"
  end.

Definition is_point (t : geometry_type) : bool :=
  match t with Point => true | _ => false end.

Definition is_multipoint (t : geometry_type) : bool :=
  match t with MultiPoint => true | _ => false end.

Record t := {
  type : geometry_type;
  has_z : bool;
  has_m : bool;
  is_empty : bool;
  srid : Z;
  coordinates : string
}.

Definition as_point (g : t) : t :=
  {| type := Point; has_z := has_z g; has_m := has_m g;
     is_empty := is_empty g; srid := srid g; coordinates := coordinates g |}.

End Geography.

(** Assignment to a [GEOGRAPHY(POINT, 4326)] column: a value of another
    SRID, of another type of geometry, or with a Z or an M coordinate is
    refused; an empty MULTIPOINT is taken for the empty point. *)
Definition geography_point_4326 (v : option Geography.t)
    : result (option Geography.t) :=
  match v with
  | None => Ok None
  | Some g =>
      let g :=
        if Geography.is_multipoint (Geography.type g) && Geography.is_empty g
        then Geography.as_point g else g in
      if negb (Geography.srid g =? 4326) then
        Raise (invalid_parameter_value
                 ("Geometry SRID (" ++ text_of_int (Geography.srid g)
                  ++ ") does not match column SRID (4326)"))
      else if negb (Geography.is_point (Geography.type g)) then
        Raise (invalid_parameter_value
                 ("Geometry type (" ++ Geography.type_name (Geography.type g)
                  ++ ") does not match column type (Point)"))
      else if Geography.has_z g then
        Raise (invalid_parameter_value
                 "Geometry has Z dimension but column does not")
      else if Geography.has_m g then
        Raise (invalid_parameter_value
                 "Geometry has M dimension but column does not")
      else Ok (Some g)
  end.

(** Keys of a UNIQUE column: NULLs never collide. *)
Fixpoint non_null {A} (l : list (option A)) : list A :=
  match l with
  | [] => []
  | Some a :: rest => a :: non_null rest
  | None :: rest => non_null rest
  end.

Fixpoint distinct (l : list string) : bool :=
  match l with
  | [] => true
  | a :: rest => negb (existsb (String.eqb a) rest) && distinct rest
  end.

Definition unique (keys : list (option string)) : bool :=
  distinct (non_null keys).

Definition references (key : option uuid) (ids : list (option uuid)) : bool :=
  match key with
  | None => true
  | Some k => existsb (String.eqb k) (non_null ids)
  end.

Definition not_null {A} (relation column : string) (v : option A) : result unit :=
  assert (negb (is_null v)) (not_null_violation relation column).

Definition check (relation constraint : string) (c : option bool) : result unit :=
  assert (check_passes c) (check_violation relation constraint).

(** UPDATE ... SET ... WHERE: every row the condition selects is replaced by
    what [accept] makes of the assigned row; one refused row fails the
    statement. *)
Fixpoint update_rows {R} (accept : R -> result R) (where_ : R -> bool)
    (set : R -> R) (tbl : list R) : result (list R) :=
  match tbl with
  | [] => Ok []
  | r :: rest =>
      r' <- (if where_ r then accept (set r) else Ok r) ;;
      rest' <- update_rows accept where_ set rest ;;
      Ok (r' :: rest')
  end.

(** JSONB: the functions only build flat objects of scalars. *)
Inductive jvalue : Type :=
| JNull
| JBool (b : bool)
| JNumber (z : Z)
| JString (s : string).

Definition json := list (string * jvalue).

(** [j -> 'k'] *)
Fixpoint json_get (j : json) (k : string) : option jvalue :=
  match j with
  | [] => None
  | (k', v) :: rest => if String.eqb k k' then Some v else json_get rest k
  end.

Definition json_text (v : option string) : jvalue :=
  match v with Some s => JString s | None => JNull end.

Definition json_number (v : option Z) : jvalue :=
  match v with Some z => JNumber z | None => JNull end.

(* ================================================================== *)
(** * The schema (001_initial_schema.sql) *)

Module StoreSettings.
Record row := {
  id : option uuid;
  is_store_open : option bool;
  flat_shipping_fee : option decimal
}.
End StoreSettings.

Module Profiles.
Record row := {
  id : option uuid;
  is_admin : option bool
}.
End Profiles.

Module Products.
Record row := {
  id : option uuid;
  price : option decimal;
  stock : option Z;
  is_available : option bool;
  updated_at : option timestamp
}.

Definition set_stock (v : option Z) (r : row) : row :=
  {| id := id r; price := price r; stock := v;
     is_available := is_available r; updated_at := updated_at r |}.

Definition set_updated_at (v : option timestamp) (r : row) : row :=
  {| id := id r; price := price r; stock := stock r;
     is_available := is_available r; updated_at := v |}.

(** The column types and the row constraints of [products]. *)
Definition accept (r : row) : result row :=
  not_null "products" "id" (id r) ;;;
  p <- decimal_10_2 (price r) ;;
  not_null "products" "price" p ;;;
  not_null "products" "stock" (stock r) ;;;
  check "products" "products_price_check" (sql_ge p (Some 0)) ;;;
  check "products" "products_stock_check" (sql_ge (stock r) (Some 0)) ;;;
  Ok {| id := id r; price := p; stock := stock r;
        is_available := is_available r; updated_at := updated_at r |}.

Definition keys (tbl : list row) : result unit :=
  assert (unique (map id tbl)) (unique_violation "products_pkey").

Definition insert (r : row) (tbl : list row) : result (list row) :=
  r' <- accept r ;;
  keys (tbl ++ [r'])%list ;;;
  Ok (tbl ++ [r'])%list.

(** The trigger [update_products_updated_at] stamps every updated row. *)
Definition update (now : timestamp) (where_ : row -> bool) (set : row -> row)
    (tbl : list row) : result (list row) :=
  tbl' <- update_rows accept where_
            (fun r => set_updated_at (Some now) (set r)) tbl ;;
  keys tbl' ;;;
  Ok tbl'.
End Products.

Module Orders.
Record row := {
  id : option uuid;
  user_id : option uuid;
  order_number : option string;
  total_price : option decimal;
  shipping_fee : option decimal;
  shipping_address : option string;
  shipping_coordinates : option Geography.t;
  status : option string;
  payment_slip_url : option string;
  trans_ref : option string;
  thunder_verified : option bool;
  verified_at : option timestamp;
  created_at : option timestamp;
  updated_at : option timestamp
}.

Definition statuses : list string :=
  ["pending"; "paid"; "processing"; "shipping"; "delivered"; "cancelled";
   "problem"].

Definition set_status (v : option string) (r : row) : row :=
  {| id := id r; user_id := user_id r; order_number := order_number r;
     total_price := total_price r; shipping_fee := shipping_fee r;
     shipping_address := shipping_address r;
     shipping_coordinates := shipping_coordinates r;
     status := v;
     payment_slip_url := payment_slip_url r; trans_ref := trans_ref r;
     thunder_verified := thunder_verified r; verified_at := verified_at r;
     created_at := created_at r; updated_at := updated_at r |}.

Definition set_updated_at (v : option timestamp) (r : row) : row :=
  {| id := id r; user_id := user_id r; order_number := order_number r;
     total_price := total_price r; shipping_fee := shipping_fee r;
     shipping_address := shipping_address r;
     shipping_coordinates := shipping_coordinates r;
     status := status r;
     payment_slip_url := payment_slip_url r; trans_ref := trans_ref r;
     thunder_verified := thunder_verified r; verified_at := verified_at r;
     created_at := created_at r; updated_at := v |}.

(** SET status = 'paid', trans_ref = .., thunder_verified = true,
    verified_at = .., payment_slip_url = .., updated_at = .. *)
Definition set_verified (ref : option string) (slip : option string)
    (now : timestamp) (r : row) : row :=
  {| id := id r; user_id := user_id r; order_number := order_number r;
     total_price := total_price r; shipping_fee := shipping_fee r;
     shipping_address := shipping_address r;
     shipping_coordinates := shipping_coordinates r;
     status := Some "paid";
     payment_slip_url := slip; trans_ref := ref;
     thunder_verified := Some true; verified_at := Some now;
     created_at := created_at r; updated_at := Some now |}.

(** The column types and the row constraints of [orders]. *)
Definition accept (r : row) : result row :=
  number <- varchar 20 (order_number r) ;;
  total <- decimal_10_2 (total_price r) ;;
  fee <- decimal_10_2 (shipping_fee r) ;;
  coordinates <- geography_point_4326 (shipping_coordinates r) ;;
  st <- varchar 20 (status r) ;;
  ref <- varchar 100 (trans_ref r) ;;
  not_null "orders" "id" (id r) ;;;
  not_null "orders" "order_number" number ;;;
  not_null "orders" "total_price" total ;;;
  not_null "orders" "shipping_fee" fee ;;;
  not_null "orders" "shipping_address" (shipping_address r) ;;;
  check "orders" "orders_total_price_check" (sql_ge total (Some 0)) ;;;
  check "orders" "orders_status_check" (sql_in_text st statuses) ;;;
  Ok {| id := id r; user_id := user_id r; order_number := number;
        total_price := total; shipping_fee := fee;
        shipping_address := shipping_address r;
        shipping_coordinates := coordinates;
        status := st;
        payment_slip_url := payment_slip_url r; trans_ref := ref;
        thunder_verified := thunder_verified r;
        verified_at := verified_at r;
        created_at := created_at r; updated_at := updated_at r |}.

(** PRIMARY KEY, the two UNIQUE columns and the reference to [profiles]. *)
Definition keys (profiles : list Profiles.row) (tbl : list row) : result unit :=
  assert (unique (map id tbl)) (unique_violation "orders_pkey") ;;;
  assert (unique (map order_number tbl))
    (unique_violation "orders_order_number_key") ;;;
  assert (unique (map trans_ref tbl)) (unique_violation "orders_trans_ref_key") ;;;
  assert (forallb (fun r => references (user_id r) (map Profiles.id profiles)) tbl)
    (foreign_key_violation "orders" "orders_user_id_fkey").

Definition insert (profiles : list Profiles.row) (r : row) (tbl : list row)
    : result (list row) :=
  r' <- accept r ;;
  keys profiles (tbl ++ [r'])%list ;;;
  Ok (tbl ++ [r'])%list.

(** The trigger [update_orders_updated_at] stamps every updated row. *)
Definition update (profiles : list Profiles.row) (now : timestamp)
    (where_ : row -> bool) (set : row -> row) (tbl : list row)
    : result (list row) :=
  tbl' <- update_rows accept where_
            (fun r => set_updated_at (Some now) (set r)) tbl ;;
  keys profiles tbl' ;;;
  Ok tbl'.
End Orders.

Module OrderItems.
Record row := {
  order_id : option uuid;
  product_id : option uuid;
  quantity : option Z;
  unit_price : option decimal;
  subtotal : option decimal
}.

(** The column types and the row constraints of [order_items];
    [subtotal] is GENERATED ALWAYS AS (quantity * unit_price). *)
Definition accept (r : row) : result row :=
  price <- decimal_10_2 (unit_price r) ;;
  sub <- decimal_10_2 (sql_mul (quantity r) price) ;;
  not_null "order_items" "quantity" (quantity r) ;;;
  not_null "order_items" "unit_price" price ;;;
  check "order_items" "order_items_quantity_check"
    (sql_gt (quantity r) (Some 0)) ;;;
  check "order_items" "order_items_unit_price_check"
    (sql_ge price (Some 0)) ;;;
  Ok {| order_id := order_id r; product_id := product_id r;
        quantity := quantity r; unit_price := price; subtotal := sub |}.

Definition keys (orders : list Orders.row) (products : list Products.row)
    (rows : list row) : result unit :=
  assert (forallb (fun r => references (order_id r) (map Orders.id orders)) rows)
    (foreign_key_violation "order_items" "order_items_order_id_fkey") ;;;
  assert (forallb (fun r => references (product_id r) (map Products.id products)) rows)
    (foreign_key_violation "order_items" "order_items_product_id_fkey").

(** INSERT INTO order_items ... SELECT ...: all the rows or none. *)
Definition insert (orders : list Orders.row) (products : list Products.row)
    (rows : list row) (tbl : list row) : result (list row) :=
  rows' <- update_rows accept (fun _ => true) (fun r => r) rows ;;
  keys orders products rows' ;;;
  Ok (tbl ++ rows')%list.
End OrderItems.

Module ActivityLogs.
Record row := {
  user_id : option uuid;
  action_type : option string;
  table_name : option string;
  record_id : option uuid;
  new_data : option json;
  error_message : option string;
  created_at : option timestamp
}.

Definition accept (r : row) : result row :=
  action <- varchar 50 (action_type r) ;;
  table <- varchar 50 (table_name r) ;;
  not_null "activity_logs" "action_type" action ;;;
  Ok {| user_id := user_id r; action_type := action; table_name := table;
        record_id := record_id r; new_data := new_data r;
        error_message := error_message r; created_at := created_at r |}.

Definition keys (profiles : list Profiles.row) (r : row) : result unit :=
  assert (references (user_id r) (map Profiles.id profiles))
    (foreign_key_violation "activity_logs" "activity_logs_user_id_fkey").

Definition insert (profiles : list Profiles.row) (r : row) (tbl : list row)
    : result (list row) :=
  r' <- accept r ;;
  keys profiles r' ;;;
  Ok (tbl ++ [r'])%list.
End ActivityLogs.

(** The database: one list of rows per table.  The [id] columns of
    [order_items] and [activity_logs], and the columns no modelled routine
    reads or writes, are left out. *)
Record db := {
  store_settings : list StoreSettings.row;
  profiles : list Profiles.row;
  products : list Products.row;
  orders : list Orders.row;
  order_items : list OrderItems.row;
  activity_logs : list ActivityLogs.row
}.

Definition with_products (v : list Products.row) (d : db) : db :=
  {| store_settings := store_settings d; profiles := profiles d;
     products := v; orders := orders d; order_items := order_items d;
     activity_logs := activity_logs d |}.

Definition with_orders (v : list Orders.row) (d : db) : db :=
  {| store_settings := store_settings d; profiles := profiles d;
     products := products d; orders := v; order_items := order_items d;
     activity_logs := activity_logs d |}.

Definition with_order_items (v : list OrderItems.row) (d : db) : db :=
  {| store_settings := store_settings d; profiles := profiles d;
     products := products d; orders := orders d; order_items := v;
     activity_logs := activity_logs d |}.

Definition with_activity_logs (v : list ActivityLogs.row) (d : db) : db :=
  {| store_settings := store_settings d; profiles := profiles d;
     products := products d; orders := orders d;
     order_items := order_items d; activity_logs := v |}.

(** What the engine supplies to one call. *)
Record env := {
  NOW : timestamp;
  (** TO_CHAR(NOW(), 'YYMMDD') *)
  YYMMDD : string;
  (** FLOOR(RANDOM() * 100000) *)
  RANDOM_100000 : nat;
  uuid_generate_v4 : uuid
}.

Fixpoint repeat_char (c : ascii) (n : nat) : string :=
  match n with
  | O => EmptyString
  | S n' => String c (repeat_char c n')
  end.

Definition LPAD (s : string) (n : nat) (fill : ascii) : string :=
  if (n <=? String.length s)%nat then substring 0 n s
  else repeat_char fill (n - String.length s) ++ s.

(* ================================================================== *)
(** * The stored procedures (002_rpc_functions.sql) *)

(** One element of [p_order_items], as [createOrder] sends it:
    { product_id: string, quantity: number, unit_price: number }, with the
    casts ::UUID, ::INTEGER and ::DECIMAL of its fields done. *)
Module Item.
Record t := {
  product_id : uuid;
  quantity : Z;
  unit_price : decimal
}.
End Item.

Definition select_available_product (v_product_id : uuid)
    (tbl : list Products.row) : option Products.row :=
  find (fun p => is_true (sql_eq_text (Products.id p) (Some v_product_id))
                 && is_true (sql_eq_bool (Products.is_available p) (Some true)))
       tbl.

(** The FOR loop of [place_order_complete]: validate and update the stock
    for each item, in order. *)
Fixpoint validate_and_update_stock (now : timestamp) (items : list Item.t)
    (tbl : list Products.row) : result (list Products.row) :=
  match items with
  | [] => Ok tbl
  | v_item :: rest =>
      let v_product_id := Item.product_id v_item in
      let v_quantity := Item.quantity v_item in
      match select_available_product v_product_id tbl with
      | None =>
          Raise (raise_exception
                   ("PRODUCT_UNAVAILABLE: Product " ++ v_product_id
                    ++ " is not available"))
      | Some p =>
          let v_current_stock := Products.stock p in
          if is_true (sql_lt v_current_stock (Some v_quantity)) then
            Raise (raise_exception
                     ("INSUFFICIENT_STOCK: Product " ++ v_product_id
                      ++ " has only " ++ text_of_value v_current_stock
                      ++ " items in stock"))
          else
            tbl' <- Products.update now
                      (fun r => is_true (sql_eq_text (Products.id r)
                                           (Some v_product_id)))
                      (fun r => Products.set_stock
                                  (sql_sub (Products.stock r) (Some v_quantity)) r)
                      tbl ;;
            validate_and_update_stock now rest tbl'
      end
  end.

Definition order_item_row (v_order_id : option uuid) (item : Item.t)
    : OrderItems.row :=
  {| OrderItems.order_id := v_order_id;
     OrderItems.product_id := Some (Item.product_id item);
     OrderItems.quantity := Some (Item.quantity item);
     OrderItems.unit_price := Some (Item.unit_price item);
     OrderItems.subtotal := None |}.

(** SELECT is_store_open INTO v_store_open FROM store_settings LIMIT 1 *)
Definition select_is_store_open (d : db) : option bool :=
  match store_settings d with
  | [] => None
  | s :: _ => StoreSettings.is_store_open s
  end.

Definition order_number_of (e : env) : string :=
  YYMMDD e ++ "-" ++ LPAD (text_of_nat (RANDOM_100000 e)) 5 "0"%char.

(** The row of INSERT INTO orders (...) VALUES (...); the columns left out
    of the statement take their defaults. *)
Definition new_order (e : env)
    (p_user_id : option uuid) (p_shipping_address : option string)
    (p_shipping_coordinates : option Geography.t)
    (p_total_price p_shipping_fee : option decimal)
    (p_payment_slip_url p_trans_ref : option string) : Orders.row :=
  {| Orders.id := Some (uuid_generate_v4 e);
     Orders.user_id := p_user_id;
     Orders.order_number := Some (order_number_of e);
     Orders.total_price := p_total_price;
     Orders.shipping_fee := p_shipping_fee;
     Orders.shipping_address := p_shipping_address;
     Orders.shipping_coordinates := p_shipping_coordinates;
     Orders.status := Some "pending";
     Orders.payment_slip_url := p_payment_slip_url;
     Orders.trans_ref := p_trans_ref;
     Orders.thunder_verified := Some false;
     Orders.verified_at := None;
     Orders.created_at := Some (NOW e);
     Orders.updated_at := Some (NOW e) |}.

Definition order_created_log (e : env) (p_user_id : option uuid)
    (p_total_price : option decimal) (p_order_items : list Item.t)
    : ActivityLogs.row :=
  {| ActivityLogs.user_id := p_user_id;
     ActivityLogs.action_type := Some "ORDER_CREATED";
     ActivityLogs.table_name := Some "orders";
     ActivityLogs.record_id := Some (uuid_generate_v4 e);
     ActivityLogs.new_data :=
       Some [("order_number", JString (order_number_of e));
             ("total_price", json_number p_total_price);
             ("items_count", JNumber (Z.of_nat (List.length p_order_items)))];
     ActivityLogs.error_message := None;
     ActivityLogs.created_at := Some (NOW e) |}.

Definition order_error_log (e : env) (p_user_id : option uuid)
    (v_error_message : string) : ActivityLogs.row :=
  {| ActivityLogs.user_id := p_user_id;
     ActivityLogs.action_type := Some "ORDER_ERROR";
     ActivityLogs.table_name := None;
     ActivityLogs.record_id := None;
     ActivityLogs.new_data := None;
     ActivityLogs.error_message := Some v_error_message;
     ActivityLogs.created_at := Some (NOW e) |}.

Definition order_placed (e : env) : json :=
  [("success", JBool true);
   ("order_id", JString (uuid_generate_v4 e));
   ("order_number", JString (order_number_of e));
   ("message", JString "Order placed successfully")].

Definition failure (error : jvalue) : json :=
  [("success", JBool false); ("error", error)].

(** The inner block of [place_order_complete], up to its EXCEPTION clause. *)
Definition place_order_block (e : env)
    (p_user_id : option uuid) (p_shipping_address : option string)
    (p_shipping_coordinates : option Geography.t)
    (p_total_price p_shipping_fee : option decimal)
    (p_order_items : list Item.t)
    (p_payment_slip_url p_trans_ref : option string)
    (d : db) : result (json * db) :=
  let v_store_open := select_is_store_open d in
  assert (negb (is_true (sql_not v_store_open)))
    (raise_exception "STORE_CLOSED: Store is currently closed") ;;;
  products' <- validate_and_update_stock (NOW e) p_order_items (products d) ;;
  orders' <- Orders.insert (profiles d)
    (new_order e p_user_id p_shipping_address p_shipping_coordinates
       p_total_price p_shipping_fee p_payment_slip_url p_trans_ref)
    (orders d) ;;
  let v_order_id := Some (uuid_generate_v4 e) in
  order_items' <- OrderItems.insert orders' products'
    (map (order_item_row v_order_id) p_order_items) (order_items d) ;;
  activity_logs' <- ActivityLogs.insert (profiles d)
    (order_created_log e p_user_id p_total_price p_order_items)
    (activity_logs d) ;;
  Ok (order_placed e,
      {| store_settings := store_settings d; profiles := profiles d;
         products := products'; orders := orders';
         order_items := order_items'; activity_logs := activity_logs' |}).

(** [place_order_complete]: the block, and its EXCEPTION WHEN OTHERS
    handler, which runs on the database as it was when the block was
    entered. *)
Definition place_order_complete (e : env)
    (p_user_id : option uuid) (p_shipping_address : option string)
    (p_shipping_coordinates : option Geography.t)
    (p_total_price p_shipping_fee : option decimal)
    (p_order_items : list Item.t)
    (p_payment_slip_url p_trans_ref : option string)
    (d : db) : result (json * db) :=
  match place_order_block e p_user_id p_shipping_address
          p_shipping_coordinates p_total_price p_shipping_fee p_order_items
          p_payment_slip_url p_trans_ref d with
  | Ok r => Ok r
  | Raise err =>
      let v_error_message := SQLERRM err in
      activity_logs' <- ActivityLogs.insert (profiles d)
        (order_error_log e p_user_id v_error_message) (activity_logs d) ;;
      Ok (failure (JString v_error_message),
          with_activity_logs activity_logs' d)
  end.

Definition payment_verified_log (e : env) (p_order_id : option uuid)
    (p_trans_ref : option string) (p_expected_amount : option decimal)
    : ActivityLogs.row :=
  {| ActivityLogs.user_id := None;
     ActivityLogs.action_type := Some "PAYMENT_VERIFIED";
     ActivityLogs.table_name := Some "orders";
     ActivityLogs.record_id := p_order_id;
     ActivityLogs.new_data :=
       Some [("trans_ref", json_text p_trans_ref);
             ("amount", json_number p_expected_amount)];
     ActivityLogs.error_message := None;
     ActivityLogs.created_at := Some (NOW e) |}.

Definition payment_failed_log (e : env) (p_order_id : option uuid)
    (message : option string) : ActivityLogs.row :=
  {| ActivityLogs.user_id := None;
     ActivityLogs.action_type := Some "PAYMENT_FAILED";
     ActivityLogs.table_name := Some "orders";
     ActivityLogs.record_id := p_order_id;
     ActivityLogs.new_data := None;
     ActivityLogs.error_message := message;
     ActivityLogs.created_at := Some (NOW e) |}.

Definition payment_verified (p_order_id : option uuid) : json :=
  [("success", JBool true);
   ("message", JString "Payment verified successfully");
   ("order_id", json_text p_order_id)].

(** [v ->> 'k'] *)
Definition json_get_text (j : json) (k : string) : option string :=
  match json_get j k with
  | Some (JString s) => Some s
  | _ => None
  end.

(** IF p_trans_ref IS NULL OR p_trans_ref = '' *)
Definition invalid_trans_ref (p_trans_ref : option string) : bool :=
  is_null p_trans_ref || is_true (sql_eq_text p_trans_ref (Some "")).

(** The simulated answer of the Thunder API. *)
Definition thunder_response (e : env) (p_trans_ref : option string)
    (p_expected_amount : option decimal) : json :=
  if invalid_trans_ref p_trans_ref
  then [("status", JString "error");
        ("message", JString "Invalid transaction reference")]
  else [("status", JString "success");
        ("amount", json_number p_expected_amount);
        ("verified", JBool true);
        ("timestamp", JNumber (NOW e))].

(** EXISTS(SELECT 1 FROM orders WHERE id = p_order_id AND trans_ref IS NULL) *)
Definition order_exists_unverified (p_order_id : option uuid) (d : db) : bool :=
  existsb (fun o => is_true (sql_eq_text (Orders.id o) p_order_id)
                    && is_null (Orders.trans_ref o)) (orders d).

(** EXISTS(SELECT 1 FROM orders WHERE trans_ref = p_trans_ref) *)
Definition trans_ref_exists (p_trans_ref : option string) (d : db) : bool :=
  existsb (fun o => is_true (sql_eq_text (Orders.trans_ref o) p_trans_ref))
          (orders d).

(** [verify_payment_slip]; it has no EXCEPTION clause. *)
Definition verify_payment_slip (e : env)
    (p_order_id : option uuid) (p_trans_ref : option string)
    (p_expected_amount : option decimal) (p_slip_url : option string)
    (d : db) : result (json * db) :=
  let v_order_exists := order_exists_unverified p_order_id d in
  if negb v_order_exists then
    Ok (failure (JString "ORDER_NOT_FOUND_OR_ALREADY_VERIFIED"), d)
  else
  let v_already_verified := trans_ref_exists p_trans_ref d in
  if v_already_verified then
    Ok (failure (JString "DUPLICATE_TRANSACTION_REFERENCE"), d)
  else
  let v_thunder_response := thunder_response e p_trans_ref p_expected_amount in
  if is_true (sql_eq_text (json_get_text v_thunder_response "status")
                (Some "success"))
  then
    orders' <- Orders.update (profiles d) (NOW e)
      (fun o => is_true (sql_eq_text (Orders.id o) p_order_id))
      (Orders.set_verified p_trans_ref p_slip_url (NOW e))
      (orders d) ;;
    activity_logs' <- ActivityLogs.insert (profiles d)
      (payment_verified_log e p_order_id p_trans_ref p_expected_amount)
      (activity_logs d) ;;
    Ok (payment_verified p_order_id,
        with_activity_logs activity_logs' (with_orders orders' d))
  else
    let message := json_get_text v_thunder_response "message" in
    activity_logs' <- ActivityLogs.insert (profiles d)
      (payment_failed_log e p_order_id message) (activity_logs d) ;;
    Ok (failure (json_text message), with_activity_logs activity_logs' d).

(* ================================================================== *)
(** * The order store (src/store/orderStore.ts) *)

(** [OrderStatus], the seven keys of the status tables in the admin order
    table, and the text each one is on the wire. *)
Inductive OrderStatus : Type :=
| pending | paid | processing | shipping | delivered | cancelled | problem.

Definition status_text (s : OrderStatus) : string :=
  match s with
  | pending => "pending"
  | paid => "paid"
  | processing => "processing"
  | shipping => "shipping"
  | delivered => "delivered"
  | cancelled => "cancelled"
  | problem => "problem"
  end.

(** What a rejected promise carries: an [Error] made by the code, or the
    error object the data client hands back for a refused statement. *)
Inductive thrown : Type :=
| Error (message : string)
| PostgrestError (message : string).

Definition instanceof_Error (t : thrown) : bool :=
  match t with Error _ => true | PostgrestError _ => false end.

Definition message_of (t : thrown) : string :=
  match t with
  | Error m => m
  | PostgrestError m => m
  end.

(** error instanceof Error ? error.message : fallback *)
Definition error_message_or (t : thrown) (fallback : string) : string :=
  if instanceof_Error t then message_of t else fallback.

Inductive promise (A : Type) : Type :=
| Resolved (a : A)
| Rejected (t : thrown).

Arguments Resolved {A} a.
Arguments Rejected {A} t.

(** The part of the store's state the two actions touch. *)
Record OrderState := {
  state_orders : list Orders.row;
  currentOrder : option Orders.row;
  isLoading : bool;
  error : option string
}.

Definition set_loading (s : OrderState) : OrderState :=
  {| state_orders := state_orders s; currentOrder := currentOrder s;
     isLoading := true; error := None |}.

Definition set_error (m : string) (s : OrderState) : OrderState :=
  {| state_orders := state_orders s; currentOrder := currentOrder s;
     isLoading := isLoading s; error := Some m |}.

Definition set_loaded (s : OrderState) : OrderState :=
  {| state_orders := state_orders s; currentOrder := currentOrder s;
     isLoading := false; error := error s |}.

Definition has_id (orderId : uuid) (o : Orders.row) : bool :=
  is_true (sql_eq_text (Orders.id o) (Some orderId)).

(** supabase.from('orders').update({ status, updated_at }).eq('id', orderId) *)
Definition update_order_status (e : env) (orderId : uuid) (status : string)
    (d : db) : result db :=
  orders' <- Orders.update (profiles d) (NOW e) (has_id orderId)
               (Orders.set_status (Some status)) (orders d) ;;
  Ok (with_orders orders' d).

Definition updateOrderStatus (e : env) (orderId : uuid) (status : OrderStatus)
    (s : OrderState) (d : db) : promise unit * OrderState * db :=
  let s := set_loading s in
  match update_order_status e orderId (status_text status) d with
  | Raise err =>
      let t := PostgrestError (SQLERRM err) in
      (Rejected t,
       set_loaded (set_error (error_message_or t "Failed to update order status") s),
       d)
  | Ok d' =>
      let with_status := Orders.set_status (Some (status_text status)) in
      let s :=
        {| state_orders :=
             map (fun order => if has_id orderId order then with_status order
                               else order) (state_orders s);
           currentOrder :=
             match currentOrder s with
             | Some order =>
                 if has_id orderId order then Some (with_status order)
                 else Some order
             | None => None
             end;
           isLoading := isLoading s; error := error s |} in
      (Resolved tt, set_loaded s, d')
  end.

(** supabase.rpc('increment_product_stock', { product_id, increment }):
    neither migration defines a function of that name, and the migrations
    define every other function the client calls.  The data API finds
    nothing to call: it answers with an error and runs no statement. *)
Definition increment_product_stock (e : env) (product_id : option uuid)
    (increment : option Z) (d : db) : result db :=
  Raise (undefined_function
           "public.increment_product_stock(increment, product_id)").

(** for (const item of items) { await supabase.rpc(...) }: the answer of
    each call, its error included, is dropped. *)
Fixpoint restore_stock (e : env) (items : list OrderItems.row) (d : db) : db :=
  match items with
  | [] => d
  | item :: rest =>
      let d' :=
        match increment_product_stock e (OrderItems.product_id item)
                (OrderItems.quantity item) d with
        | Ok d' => d'
        | Raise _ => d
        end in
      restore_stock e rest d'
  end.

Definition cancelOrder (e : env) (orderId : uuid) (s : OrderState) (d : db)
    : promise unit * OrderState * db :=
  let s := set_loading s in
  let fail (t : thrown) (d' : db) :=
    (Rejected t,
     set_loaded (set_error (error_message_or t "Failed to cancel order") s),
     d') in
  (* .select('*').eq('id', orderId).single() *)
  match filter (has_id orderId) (orders d) with
  | [order] =>
      if negb (match Orders.status order with
               | Some st => String.eqb st "pending"
               | None => false
               end)
      then fail (Error "Cannot cancel order in current status") d
      else
        let items :=
          filter (fun i => is_true (sql_eq_text (OrderItems.order_id i)
                                      (Some orderId)))
                 (order_items d) in
        let d1 := restore_stock e items d in
        match update_order_status e orderId "cancelled" d1 with
        | Raise err => fail (PostgrestError (SQLERRM err)) d1
        | Ok d2 =>
            (Resolved tt,
             set_loaded
               {| state_orders :=
                    filter (fun order => negb (has_id orderId order))
                           (state_orders s);
                  currentOrder := None;
                  isLoading := isLoading s; error := error s |},
             d2)
        end
  | _ =>
      fail (PostgrestError
              "JSON object requested, multiple (or no) rows returned") d
  end.

(* ================================================================== *)
(** * The payment client (src/lib/thunderClient.ts) *)

Module ThunderClient.

Module Request.
Record t := {
  order_id : string;
  trans_ref : string;
  amount : Z;
  slip_url : string;
  slip_image_base64 : option string
}.
End Request.

Module Response.
Record t := {
  success : bool;
  verified : bool;
  amount : option Z;
  trans_ref : option string;
  timestamp : string;
  message : option string;
  error : option string
}.
End Response.

(** The services [verifyPayment] names: the verification service of its
    [try] block and the RPC of its [catch] block.  A call is traced by the
    list of those it has asked for a verdict, in order. *)
Inductive service : Type :=
| ThunderSolution
| SupabaseRpc.

(** A string is falsy exactly when it is empty. *)
Definition falsy (s : string) : bool :=
  match s with EmptyString => true | _ => false end.

Definition falsy_opt (s : option string) : bool :=
  match s with None => true | Some s => falsy s end.

(** Array.prototype.join *)
Fixpoint join (sep : string) (l : list string) : string :=
  match l with
  | [] => ""
  | [a] => a
  | a :: rest => a ++ sep ++ join sep rest
  end.

Definition validation_errors (data : Request.t) : list string :=
  ((if falsy (Request.trans_ref data)
       || (String.length (Request.trans_ref data) <? 5)%nat
    then ["Invalid transaction reference"] else [])
   ++ (if Request.amount data <=? 0 then ["Invalid amount"] else [])
   ++ (if falsy (Request.slip_url data)
          && falsy_opt (Request.slip_image_base64 data)
       then ["No payment slip provided"] else []))%list.

(** The [try] block: the simulated answer of the verification service.
    [iso] is new Date().toISOString(). *)
Definition verifyPayment_try (iso : string) (data : Request.t)
    : promise Response.t :=
  let validationErrors := validation_errors data in
  if (0 <? List.length validationErrors)%nat then
    Resolved {| Response.success := false; Response.verified := false;
                Response.amount := Some (Request.amount data);
                Response.trans_ref := Some (Request.trans_ref data);
                Response.timestamp := iso;
                Response.message := None;
                Response.error := Some (join ", " validationErrors) |}
  else
    Resolved {| Response.success := true; Response.verified := true;
                Response.amount := Some (Request.amount data);
                Response.trans_ref := Some (Request.trans_ref data);
                Response.timestamp := iso;
                Response.message := Some "Payment verified successfully";
                Response.error := None |}.

(** The [catch] block, written as a fallback through the RPC
    [verify_payment_slip].  Its [const { data, error: rpcError }] takes the
    place of the request in the whole block, so the [data.order_id] among
    the arguments of the call reads the constant before it has a value: a
    ReferenceError is thrown while the arguments are built, and the RPC is
    not called: the block asks no service and leaves the database as it
    is. *)
Definition verifyPayment_catch (e : env) (iso : string) (data : Request.t)
    (d : db) : promise Response.t * list service * db :=
  (Rejected (Error "Cannot access 'data' before initialization"), [], d).

Definition verifyPayment (e : env) (iso : string) (data : Request.t)
    (d : db) : promise Response.t * list service * db :=
  match verifyPayment_try iso data with
  | Resolved r => (Resolved r, [ThunderSolution], d)
  | Rejected _ =>
      let '(r, called, d') := verifyPayment_catch e iso data d in
      (r, (ThunderSolution :: called)%list, d')
  end.

End ThunderClient.

(* ================================================================== *)
(** * The cart store ([useCartStore]) *)

Module CartStore.

Set Implicit Arguments.

Section Cart.

(** JavaScript numbers and the three operations the store applies to
  them; the store never inspects a number otherwise. *)
Variable number : Type.
Variable one : number.
Variable plus : number -> number -> number.
Variable le_zero : number -> bool.
Variable Math_min : number -> number -> number.

Record Product := {
id : string;
name : string;
image_url : option string;
price : number;
stock : number
}.

Record CartItem := {
product_id : string;
product_name : string;
product_image : option string;
unit_price : number;
quantity : number;
max_quantity : number
}.

Definition with_quantity (q : number) (item : CartItem) : CartItem :=
{| product_id := product_id item; product_name := product_name item;
   product_image := product_image item; unit_price := unit_price item;
   quantity := q; max_quantity := max_quantity item |}.

(** addItem(product, quantity = 1) *)
Definition addItem (product : Product) (quantity_arg : option number)
  (items : list CartItem) : list CartItem :=
let quantity' := match quantity_arg with Some q => q | None => one end in
match find (fun item => String.eqb (product_id item) (id product)) items with
| Some _ =>
    map (fun item =>
           if String.eqb (product_id item) (id product)
           then with_quantity (plus (quantity item) quantity') item
           else item) items
| None =>
    (items ++ [ {| product_id := id product;
                   product_name := name product;
                   product_image := image_url product;
                   unit_price := price product;
                   quantity := quantity';
                   max_quantity := stock product |} ])%list
end.

Definition removeItem (productId : string) (items : list CartItem)
  : list CartItem :=
filter (fun item => negb (String.eqb (product_id item) productId)) items.

Definition updateQuantity (productId : string) (quantity' : number)
  (items : list CartItem) : list CartItem :=
if le_zero quantity' then removeItem productId items
else
  map (fun item =>
         if String.eqb (product_id item) productId
         then with_quantity (Math_min quantity' (max_quantity item)) item
         else item) items.

Definition clearCart (items : list CartItem) : list CartItem := [].

(** One call on the store. *)
Inductive action : Type :=
| AddItem (product : Product) (quantity_arg : option number)
| RemoveItem (productId : string)
| UpdateQuantity (productId : string) (quantity' : number)
| ClearCart.

Definition perform (items : list CartItem) (a : action) : list CartItem :=
match a with
| AddItem product q => addItem product q items
| RemoveItem productId => removeItem productId items
| UpdateQuantity productId q => updateQuantity productId q items
| ClearCart => clearCart items
end.

(** The cart after a sequence of calls, starting from [items: []]. *)
Definition cart_after (actions : list action) : list CartItem :=
fold_left perform actions [].

End Cart.

Unset Implicit Arguments.

End CartStore.

(* ================================================================== *)
(** * Database states *)

Definition with_profiles (v : list Profiles.row) (d : db) : db :=
  {| store_settings := store_settings d; profiles := v;
     products := products d; orders := orders d;
     order_items := order_items d; activity_logs := activity_logs d |}.

Definition with_store_settings (v : list StoreSettings.row) (d : db) : db :=
  {| store_settings := v; profiles := profiles d;
     products := products d; orders := orders d;
     order_items := order_items d; activity_logs := activity_logs d |}.

(** The database as 001_initial_schema.sql leaves it: the default row of
    [store_settings], and no other row. *)
Definition initial : db :=
  {| store_settings :=
       [ {| StoreSettings.id := Some "00000000-0000-0000-0000-000000000001";
            StoreSettings.is_store_open := Some true;
            StoreSettings.flat_shipping_fee := Some 0 |} ];
     profiles := []; products := []; orders := []; order_items := [];
     activity_logs := [] |}.

(** One statement on the database: a call of one of the routines above, or
    a write through the data API, which the table accepts or refuses.
    (Deletions are not part of the model.) *)
Inductive step : db -> db -> Prop :=
| step_place_order_complete e user address coordinates total fee items slip
    ref d j d' :
    place_order_complete e user address coordinates total fee items slip ref d
    = Ok (j, d') ->
    step d d'
| step_verify_payment_slip e order ref amount slip d j d' :
    verify_payment_slip e order ref amount slip d = Ok (j, d') ->
    step d d'
| step_increment_product_stock e product increment d d' :
    increment_product_stock e product increment d = Ok d' ->
    step d d'
| step_updateOrderStatus e orderId status s d p s' d' :
    updateOrderStatus e orderId status s d = (p, s', d') ->
    step d d'
| step_cancelOrder e orderId s d p s' d' :
    cancelOrder e orderId s d = (p, s', d') ->
    step d d'
| step_verifyPayment e iso data d p called d' :
    ThunderClient.verifyPayment e iso data d = (p, called, d') ->
    step d d'
| step_store_settings s d :
    StoreSettings.id s = Some "00000000-0000-0000-0000-000000000001" ->
    step d (with_store_settings [s] d)
| step_insert_profile r d :
    is_null (Profiles.id r) = false ->
    unique (map Profiles.id (profiles d ++ [r])) = true ->
    step d (with_profiles (profiles d ++ [r]) d)
| step_insert_product r d tbl :
    Products.insert r (products d) = Ok tbl ->
    step d (with_products tbl d)
| step_update_products now where_ set d tbl :
    Products.update now where_ set (products d) = Ok tbl ->
    step d (with_products tbl d)
| step_insert_order r d tbl :
    Orders.insert (profiles d) r (orders d) = Ok tbl ->
    step d (with_orders tbl d)
| step_update_orders now where_ set d tbl :
    Orders.update (profiles d) now where_ set (orders d) = Ok tbl ->
    step d (with_orders tbl d)
| step_insert_order_items rows d tbl :
    OrderItems.insert (orders d) (products d) rows (order_items d) = Ok tbl ->
    step d (with_order_items tbl d).

Inductive reachable : db -> Prop :=
| reachable_initial : reachable initial
| reachable_step d d' : reachable d -> step d d' -> reachable d'.

(** A row is stored when its table accepts it as it is. *)
Definition stored {R} (accept : R -> result R) (r : R) : Prop :=
  accept r = Ok r.

(** The state satisfies the schema. *)
Record schema_ok (d : db) : Prop := {
  products_stored : Forall (stored Products.accept) (products d);
  products_keys : Products.keys (products d) = Ok tt;
  orders_stored : Forall (stored Orders.accept) (orders d);
  orders_keys : Orders.keys (profiles d) (orders d) = Ok tt;
  order_items_stored : Forall (stored OrderItems.accept) (order_items d)
}.

Definition stock_nonneg (d : db) : Prop :=
  forall p, In p (products d) ->
    exists s, Products.stock p = Some s /\ 0 <= s.

Definition trans_refs (d : db) : list string :=
  non_null (map Orders.trans_ref (orders d)).




Definition items_of (orderId : uuid) (d : db) : list OrderItems.row :=
  filter (fun i => is_true (sql_eq_text (OrderItems.order_id i) (Some orderId)))
         (order_items d).

(** Every row of [tbl'] was in [tbl] or has been accepted by the table. *)
Definition rows_from {R} (accept : R -> result R) (tbl tbl' : list R) : Prop :=
  forall r', In r' tbl' -> In r' tbl \/ exists r, accept r = Ok r'.

(** The [orders] table once the order [orderId] has been given a status. *)
Definition orders_with_status (now : timestamp) (orderId : uuid)
    (status : string) (tbl : list Orders.row) : list Orders.row :=
  map (fun r => if has_id orderId r
                then Orders.set_updated_at (Some now)
                       (Orders.set_status (Some status) r)
                else r) tbl.

(** The row of a verified order, and the [orders] table once the order
    [orderId] has been verified. *)
Definition verified_order (now : timestamp) (ref : string)
    (slip : option string) (r : Orders.row) : Orders.row :=
  Orders.set_updated_at (Some now) (Orders.set_verified (Some ref) slip now r).

Definition orders_verified (now : timestamp) (orderId : uuid) (ref : string)
    (slip : option string) (tbl : list Orders.row) : list Orders.row :=
  map (fun r => if has_id orderId r then verified_order now ref slip r else r)
      tbl.

(** What a statement may do to the tables with constraints: every row it
    leaves has been there or has been accepted, and a table it has changed
    has had its keys checked. *)
Record writes (d d' : db) : Prop := {
  writes_products :
    rows_from Products.accept (products d) (products d');
  writes_products_keys :
    products d' = products d \/ Products.keys (products d') = Ok tt;
  writes_orders :
    rows_from Orders.accept (orders d) (orders d');
  writes_orders_keys :
    (orders d' = orders d
     /\ (profiles d' = profiles d \/ exists r, profiles d' = (profiles d ++ [r])%list))
    \/ Orders.keys (profiles d') (orders d') = Ok tt;
  writes_order_items :
    rows_from OrderItems.accept (order_items d) (order_items d')
}.

(** The call has left [orders], [order_items] and [products] as they were. *)
Definition rolled_back (d d' : db) : Prop :=
  orders d' = orders d /\ order_items d' = order_items d
  /\ products d' = products d.

(** The call has appended one row to [activity_logs], with this action and
    this error message. *)
Definition logged (action message : string) (d d' : db) : Prop :=
  exists row,
    activity_logs d' = (activity_logs d ++ [row])%list
    /\ ActivityLogs.action_type row = Some action
    /\ ActivityLogs.error_message row = Some message.








(** The database once the order has been refused with this message. *)
Definition order_refused (e : env) (user : option uuid) (message : string)
    (d : db) : db :=
  with_activity_logs
    (activity_logs d ++ [order_error_log e user message])%list d.

(* ================================================================== *)
(** * The shipping fee and the statistics (002_rpc_functions.sql) *)

(** [a OR b] and [a AND b] on three-valued conditions. *)
Definition sql_or (a b : option bool) : option bool :=
  match a, b with
  | Some true, _ | _, Some true => Some true
  | Some false, Some false => Some false
  | _, _ => None
  end.

Definition sql_and (a b : option bool) : option bool :=
  match a, b with
  | Some false, _ | _, Some false => Some false
  | Some true, Some true => Some true
  | _, _ => None
  end.

Definition sql_le (a b : option Z) : option bool :=
  match a, b with Some x, Some y => Some (x <=? y) | _, _ => None end.

Section ShippingDistance.

(** GEOGRAPHY values, the column [store_coordinates] of [store_settings],
    which the record of the table leaves out, and the expression
    [ST_Distance(a, b) / 1000] as it is assigned to the DECIMAL variable
    [v_distance_km], with its comparison to 0. *)
Variable geography : Type.
Variable store_coordinates : StoreSettings.row -> option geography.
Variable numeric : Type.
Variable ST_Distance_km : geography -> geography -> option numeric.
Variable numeric_zero : numeric.
Variable numeric_le_zero : numeric -> bool.

Definition calculate_shipping_distance
    (customer_coordinates : option geography)
    (shipping_method : option string) (d : db) : option decimal :=
  (* SELECT store_coordinates, flat_shipping_fee INTO ... LIMIT 1 *)
  let v_store_coordinates :=
    match store_settings d with
    | [] => None
    | s :: _ => store_coordinates s
    end in
  let v_flat_fee :=
    match store_settings d with
    | [] => None
    | s :: _ => StoreSettings.flat_shipping_fee s
    end in
  if is_true (sql_or (sql_eq_text shipping_method (Some "pickup"))
                     (Some (is_null customer_coordinates)))
  then Some 0
  else
    let v_distance_km :=
      match v_store_coordinates, customer_coordinates with
      | Some store, Some customer => ST_Distance_km store customer
      | _, _ => Some numeric_zero
      end in
    if is_true (sql_or (Some (is_null v_distance_km))
                       (option_map numeric_le_zero v_distance_km))
    then v_flat_fee
    else v_flat_fee.

End ShippingDistance.

Module Statistics.
(** The row [get_order_statistics] returns. *)
Record row (numeric : Type) := {
  total_orders : Z;
  total_revenue : decimal;
  avg_order_value : numeric;
  pending_orders : Z;
  paid_orders : Z;
  shipping_orders : Z
}.
Arguments total_orders {numeric} r.
Arguments total_revenue {numeric} r.
Arguments avg_order_value {numeric} r.
Arguments pending_orders {numeric} r.
Arguments paid_orders {numeric} r.
Arguments shipping_orders {numeric} r.
End Statistics.

(** WHERE created_at BETWEEN p_start_date AND p_end_date
    AND status NOT IN ('cancelled') *)
Definition in_statistics (p_start_date p_end_date : option timestamp)
    (o : Orders.row) : bool :=
  is_true
    (sql_and
       (sql_and (sql_ge (Orders.created_at o) p_start_date)
                (sql_le (Orders.created_at o) p_end_date))
       (sql_not (sql_in_text (Orders.status o) ["cancelled"]))).

(** COUNT( * ) FILTER (WHERE status = ..) *)
Definition count_status (status : string) (rows : list Orders.row) : Z :=
  Z.of_nat
    (List.length
       (filter (fun o => is_true (sql_eq_text (Orders.status o) (Some status)))
               rows)).

(** The values [total_price + shipping_fee] the aggregates SUM and AVG
    take in: those that are not NULL. *)
Definition order_values (rows : list Orders.row) : list decimal :=
  non_null
    (map (fun o => sql_add (Orders.total_price o) (Orders.shipping_fee o))
         rows).

(** SUM over NUMERIC values: NULL when there is none. *)
Definition SUM (values : list decimal) : option decimal :=
  match values with
  | [] => None
  | _ => Some (fold_right Z.add 0 values)
  end.

Definition COALESCE {A} (v : option A) (default : A) : A :=
  match v with Some a => a | None => default end.

Section OrderStatistics.

(** AVG over NUMERIC values divides their sum by their number and rounds the
    quotient to the scale the engine selects: the division is left to the
    engine, as is the NUMERIC it makes of an integer literal. *)
Variable numeric : Type.
Variable numeric_div : decimal -> Z -> numeric.
Variable numeric_of_integer : Z -> numeric.

Definition AVG (values : list decimal) : option numeric :=
  match values with
  | [] => None
  | _ => Some (numeric_div (fold_right Z.add 0 values)
                 (Z.of_nat (List.length values)))
  end.

(** [get_order_statistics], called with its two bounds: the one row it
    returns.  The bounds are the instants the TIMESTAMP arguments denote in
    the time zone of the session. *)
Definition get_order_statistics (p_start_date p_end_date : option timestamp)
    (d : db) : Statistics.row numeric :=
  let rows := filter (in_statistics p_start_date p_end_date) (orders d) in
  {| Statistics.total_orders := Z.of_nat (List.length rows);
     Statistics.total_revenue := COALESCE (SUM (order_values rows)) 0;
     Statistics.avg_order_value :=
       COALESCE (AVG (order_values rows)) (numeric_of_integer 0);
     Statistics.pending_orders := count_status "pending" rows;
     Statistics.paid_orders := count_status "paid" rows;
     Statistics.shipping_orders := count_status "shipping" rows |}.

End OrderStatistics.

(* ================================================================== *)
(** * JavaScript values *)

(** A JavaScript string is the sequence of its UTF-16 code units. *)
Module JsString.

Definition t := list N.

(** WhiteSpace and LineTerminator, which [trim] removes. *)
Definition is_white_space (c : N) : bool :=
  (existsb (N.eqb c)
     [9; 10; 11; 12; 13; 32; 160; 5760; 8232; 8233; 8239; 8287; 12288; 65279]
   || ((8192 <=? c) && (c <=? 8202)))%N.

Fixpoint trimStart (s : t) : t :=
  match s with
  | [] => []
  | c :: rest => if is_white_space c then trimStart rest else s
  end.

Definition trimEnd (s : t) : t := rev (trimStart (rev s)).

Definition trim (s : t) : t := trimEnd (trimStart s).

(** The code units of a string of this development, and back. *)
Definition units (s : string) : t := map N_of_ascii (list_ascii_of_string s).

Definition text (s : t) : string := string_of_list_ascii (map ascii_of_N s).

End JsString.

(** [s.trim()] on the strings of the requests. *)
Definition trim (s : string) : string :=
  JsString.text (JsString.trim (JsString.units s)).

(** The truth of a JSON value in a condition; [None] is [undefined]. *)
Definition truthy (v : option jvalue) : bool :=
  match v with
  | None | Some JNull => false
  | Some (JBool b) => b
  | Some (JNumber z) => negb (z =? 0)
  | Some (JString s) => negb (ThunderClient.falsy s)
  end.

(** The value of a free identifier of a module when the code runs: the
    object it is bound to, or nothing, in which case reading it throws a
    ReferenceError. *)
Inductive binding (A : Type) : Type :=
| Bound (a : A)
| Unbound.

Arguments Bound {A} a.
Arguments Unbound {A}.

Definition read {A} (name : string) (b : binding A) : promise A :=
  match b with
  | Bound a => Resolved a
  | Unbound => Rejected (Error (name ++ " is not defined"))
  end.

(* ================================================================== *)
(** * The order store: [createOrder] *)

(** The user of the user store: the id of a row of [profiles], and the
    LINE user id. *)
Module User.
Record t := {
  id : option uuid;
  line_user_id : string
}.
End User.

Inductive ShippingMethod : Type :=
| delivery
| pickup.

Module CreateOrder.

(** What [createOrder] resolves with. *)
Record Result := {
  success : bool;
  orderId : option jvalue;
  error : option string
}.

End CreateOrder.

(** The row of
    insert({ action_type: 'ORDER_CREATE_ERROR', error_message, created_at }) *)
Definition order_create_error_log (created_at : timestamp)
    (errorMessage : string) : ActivityLogs.row :=
  {| ActivityLogs.user_id := None;
     ActivityLogs.action_type := Some "ORDER_CREATE_ERROR";
     ActivityLogs.table_name := None;
     ActivityLogs.record_id := None;
     ActivityLogs.new_data := None;
     ActivityLogs.error_message := Some errorMessage;
     ActivityLogs.created_at := Some created_at |}.

(** await supabase.from('activity_logs').insert(row): the outcome of the
    statement is dropped. *)
Definition insert_log (row : ActivityLogs.row) (d : db) : db :=
  match ActivityLogs.insert (profiles d) row (activity_logs d) with
  | Ok logs => with_activity_logs logs d
  | Raise _ => d
  end.

Section Client.

(** JavaScript numbers, with the operations [createOrder] applies to them
    and the text of a number in a template literal, and what the data API
    makes of them: the DECIMAL argument a number is received as (NULL for
    the numbers JSON has no text for), the number a DECIMAL column is sent
    as, and the text [String] gives of a number of an answer. *)
Variable number : Type.
Variable zero : number.
Variable plus : number -> number -> number.
Variable times : number -> number -> number.
Variable falsy : number -> bool.
Variable toString : number -> string.
Variable decimal_of : number -> option decimal.
Variable number_of : decimal -> number.
Variable text_of_json_number : Z -> string.

Record OrderItem := {
  item_product_id : string;
  item_quantity : number;
  item_unit_price : number
}.

Record Coordinates := {
  lat : number;
  lng : number
}.

Record OrderData := {
  shipping_address : string;
  shipping_coordinates : option Coordinates;
  shipping_method : ShippingMethod;
  items : list OrderItem;
  payment_slip_url : option string;
  trans_ref : option string
}.

(** orderData.items.reduce(
      (sum, item) => sum + (item.unit_price * item.quantity), 0) *)
Definition total_price_of (items : list OrderItem) : number :=
  fold_left (fun sum item =>
               plus sum (times (item_unit_price item) (item_quantity item)))
            items zero.

(** .from('store_settings').select('flat_shipping_fee').single(): the row,
    when the table has exactly one. *)
Definition single_store_settings (d : db) : option StoreSettings.row :=
  match store_settings d with
  | [s] => Some s
  | _ => None
  end.

(** orderData.shipping_method === 'delivery'
      ? (storeSettings?.flat_shipping_fee || 0) : 0 *)
Definition shipping_fee_of (method : ShippingMethod)
    (storeSettings : option StoreSettings.row) : number :=
  match method with
  | delivery =>
      match storeSettings with
      | Some s =>
          match StoreSettings.flat_shipping_fee s with
          | Some fee => if falsy (number_of fee) then zero else number_of fee
          | None => zero
          end
      | None => zero
      end
  | pickup => zero
  end.

(** `POINT(${lng} ${lat})`, as the GEOGRAPHY argument of the procedure it
    is the text of: a point of two coordinates, with no SRID of its own. *)
Definition point_of (c : Coordinates) : Geography.t :=
  {| Geography.type := Geography.Point;
     Geography.has_z := false; Geography.has_m := false;
     Geography.is_empty := false; Geography.srid := 4326;
     Geography.coordinates := toString (lng c) ++ " " ++ toString (lat c) |}.

(** The element of [p_order_items] the procedure reads from an item, with
    the casts ::UUID, ::INTEGER and ::DECIMAL of its fields done. *)
Variable order_item_of : OrderItem -> Item.t.

(** String(v), for a value of the answer of the procedure. *)
Definition String_of (v : jvalue) : string :=
  match v with
  | JNull => "null"
  | JBool true => "true"
  | JBool false => "false"
  | JNumber z => text_of_json_number z
  | JString s => s
  end.

(** The [try] block of [createOrder]: the order id it returns or what it
    throws, with the cart and the database it leaves.  [useUserStore] and
    [useCartStore] are free identifiers of orderStore.ts, which imports
    neither: they are read when the block reaches them. *)
Definition createOrder_try (e : env)
    (useUserStore : binding (option User.t))
    (useCartStore : binding (list (CartStore.CartItem number)))
    (orderData : OrderData) (d : db)
    : promise (option jvalue)
      * binding (list (CartStore.CartItem number)) * db :=
  match read "useUserStore" useUserStore with
  | Rejected t => (Rejected t, useCartStore, d)
  | Resolved None =>
      (Rejected (Error "User not authenticated"), useCartStore, d)
  | Resolved (Some user) =>
      let totalPrice := total_price_of (items orderData) in
      let storeSettings := single_store_settings d in
      let shippingFee :=
        shipping_fee_of (shipping_method orderData) storeSettings in
      match place_order_complete e
              (User.id user)
              (Some (shipping_address orderData))
              (option_map point_of (shipping_coordinates orderData))
              (decimal_of totalPrice)
              (decimal_of shippingFee)
              (map order_item_of (items orderData))
              (payment_slip_url orderData)
              (trans_ref orderData) d with
      | Raise err => (Rejected (PostgrestError (SQLERRM err)), useCartStore, d)
      | Ok (data, d') =>
          if negb (truthy (json_get data "success")) then
            (Rejected
               (Error (match json_get data "error" with
                       | Some v =>
                           if truthy (Some v) then String_of v
                           else "Failed to create order"
                       | None => "Failed to create order"
                       end)),
             useCartStore, d')
          else
            match read "useCartStore" useCartStore with
            | Rejected t => (Rejected t, useCartStore, d')
            | Resolved cart =>
                (Resolved (json_get data "order_id"),
                 Bound (CartStore.clearCart cart), d')
            end
      end
  end.

(** [createOrder]; [created_at] is the instant of new Date() in the
    [catch] block. *)
Definition createOrder (e : env) (created_at : timestamp)
    (useUserStore : binding (option User.t))
    (useCartStore : binding (list (CartStore.CartItem number)))
    (orderData : OrderData) (s : OrderState) (d : db)
    : CreateOrder.Result * OrderState
      * binding (list (CartStore.CartItem number)) * db :=
  let s := set_loading s in
  match createOrder_try e useUserStore useCartStore orderData d with
  | (Resolved order_id, cart, d') =>
      ({| CreateOrder.success := true;
          CreateOrder.orderId := order_id;
          CreateOrder.error := None |},
       set_loaded s, cart, d')
  | (Rejected t, cart, d') =>
      let errorMessage := error_message_or t "Failed to create order" in
      ({| CreateOrder.success := false;
          CreateOrder.orderId := None;
          CreateOrder.error := Some errorMessage |},
       set_loaded (set_error errorMessage s), cart,
       insert_log (order_create_error_log created_at errorMessage) d')
  end.

End Client.

(* ================================================================== *)
(** * The payment slip form (components/customer/PaymentSlipUploader.tsx) *)

Module PaymentSlipUploader.

Inductive toast : Type :=
| toast_error (message : string)
| toast_success (message : string).

Record VerificationResult := {
  success : bool;
  message : string
}.

(** The state of the form [handleVerifyPayment] writes, what it has passed
    to [onVerificationComplete], and the toasts it has shown. *)
Record State := {
  verificationResult : option VerificationResult;
  isUploading : bool;
  isVerifying : bool;
  completed : option bool;
  toasts : list toast
}.

Definition show (t : toast) (st : State) : State :=
  {| verificationResult := verificationResult st;
     isUploading := isUploading st; isVerifying := isVerifying st;
     completed := completed st; toasts := (toasts st ++ [t])%list |}.

Definition setBusy (b : bool) (st : State) : State :=
  {| verificationResult := verificationResult st;
     isUploading := b; isVerifying := b;
     completed := completed st; toasts := toasts st |}.

Definition setVerificationResult (r : VerificationResult) (st : State)
    : State :=
  {| verificationResult := Some r;
     isUploading := isUploading st; isVerifying := isVerifying st;
     completed := completed st; toasts := toasts st |}.

Definition onVerificationComplete (b : bool) (st : State) : State :=
  {| verificationResult := verificationResult st;
     isUploading := isUploading st; isVerifying := isVerifying st;
     completed := Some b; toasts := toasts st |}.

Section Form.

(** The file the customer has selected, and what [uploadSlipImage]
    resolves or rejects with for it. *)
Variable File : Type.
Variable uploadSlipImage : File -> promise string.

Definition handleVerifyPayment (e : env) (iso : string)
    (orderId : string) (totalAmount : Z)
    (file : option File) (transRef : string)
    (st : State) (s : OrderState) (d : db) : State * OrderState * db :=
  match file with
  | None => (show (toast_error "Please select a payment slip") st, s, d)
  | Some file =>
      if ThunderClient.falsy (trim transRef) then
        (show (toast_error "Please enter transaction reference") st, s, d)
      else
        let st := setBusy true st in
        let caught (t : thrown) (st : State) (s : OrderState) (d : db) :=
          let errorMessage := error_message_or t "Verification failed" in
          (setBusy false
             (show (toast_error "Verification failed. Please try again.")
                (onVerificationComplete false
                   (setVerificationResult
                      {| success := false; message := errorMessage |} st))),
           s, d) in
        match uploadSlipImage file with
        | Rejected t => caught t st s d
        | Resolved slipUrl =>
            match ThunderClient.verifyPayment e iso
                    {| ThunderClient.Request.order_id := orderId;
                       ThunderClient.Request.trans_ref := trim transRef;
                       ThunderClient.Request.amount := totalAmount;
                       ThunderClient.Request.slip_url := slipUrl;
                       ThunderClient.Request.slip_image_base64 := None |}
                    d with
            | (Rejected t, _, d1) => caught t st s d1
            | (Resolved verification, _, d1) =>
                if ThunderClient.Response.success verification
                   && ThunderClient.Response.verified verification
                then
                  let st :=
                    setVerificationResult
                      {| success := true;
                         message := "Payment verified successfully!" |} st in
                  match updateOrderStatus e orderId paid s d1 with
                  | (Rejected t, s2, d2) => caught t st s2 d2
                  | (Resolved _, s2, d2) =>
                      (setBusy false
                         (show (toast_success
                                  "Payment verified! Your order is now being processed.")
                            (onVerificationComplete true st)),
                       s2, d2)
                  end
                else
                  (setBusy false
                     (show (toast_error
                              "Verification failed. Please check the slip details.")
                        (onVerificationComplete false
                           (setVerificationResult
                              {| success := false;
                                 message :=
                                   match ThunderClient.Response.error
                                           verification with
                                   | Some m =>
                                       if ThunderClient.falsy m
                                       then "Payment verification failed"
                                       else m
                                   | None => "Payment verification failed"
                                   end |} st))),
                   s, d1)
            end
        end
  end.

End Form.

End PaymentSlipUploader.

(* ================================================================== *)
(** * Validation (src/utils/validation.ts) *)

(** [validateThunderResponse], on the answers of [verifyPayment]: an
    object whose [success] and [verified] are booleans. *)
Definition validateThunderResponse (response : ThunderClient.Response.t)
    : bool :=
  (negb (ThunderClient.Response.success response)
   || ThunderClient.Response.verified response)
  && negb (ThunderClient.falsy_opt (ThunderClient.Response.trans_ref response))
  && match ThunderClient.Response.amount response with
     | Some amount => 0 <? amount
     | None => false
     end.

(** input.replace(/[<>]/g, '') *)
Definition remove_angle_brackets (s : JsString.t) : JsString.t :=
  filter (fun c => negb ((c =? 60) || (c =? 62))%N) s.

(** [sanitizeInput]: .replace(/[<>]/g, '').trim().slice(0, 1000) *)
Definition sanitizeInput (input : JsString.t) : JsString.t :=
  firstn 1000 (JsString.trim (remove_angle_brackets input)).

(* ================================================================== *)
(** * The cart store: what it computes *)

Module CartTotals.

Section Totals.

Variable number : Type.
Variable zero : number.
Variable plus : number -> number -> number.
Variable times : number -> number -> number.

(** get().items.reduce((total, item) => total + item.quantity, 0) *)
Definition getTotalItems (items : list (CartStore.CartItem number)) : number :=
  fold_left (fun total item => plus total (CartStore.quantity item)) items zero.

(** get().items.reduce(
      (total, item) => total + (item.unit_price * item.quantity), 0) *)
Definition getTotalPrice (items : list (CartStore.CartItem number)) : number :=
  fold_left (fun total item =>
               plus total (times (CartStore.unit_price item)
                             (CartStore.quantity item)))
            items zero.

Definition getItemQuantity (productId : string)
    (items : list (CartStore.CartItem number)) : number :=
  match find (fun item => String.eqb (CartStore.product_id item) productId)
             items with
  | Some item => CartStore.quantity item
  | None => zero
  end.

End Totals.

End CartTotals.

(* ================================================================== *)
(** * The cart hook ([useCart]) *)

Section UseCart.

Variable number : Type.

(** .from('products').select('id, stock, is_available').in('id', productIds) *)
Definition select_products_in (productIds : list string) (d : db)
    : list Products.row :=
  filter (fun p => match Products.id p with
                   | Some i => existsb (String.eqb i) productIds
                   | None => false
                   end) (products d).

(** p.is_available && p.stock > 0 *)
Definition available_with_stock (p : Products.row) : bool :=
  match Products.is_available p with
  | Some true =>
      match Products.stock p with
      | Some stock => 0 <? stock
      | None => false
      end
  | _ => false
  end.

(** [validateCartItems]; the cart of the store is the [items] the hook
    has read from it. *)
Definition validateCartItems (items : list (CartStore.CartItem number))
    (d : db) : list (CartStore.CartItem number) :=
  let productIds := map (@CartStore.product_id number) items in
  match productIds with
  | [] => items
  | _ =>
      let products := select_products_in productIds d in
      let availableProducts :=
        non_null (map Products.id (filter available_with_stock products)) in
      fold_left
        (fun cart item =>
           if negb (existsb (String.eqb (CartStore.product_id item))
                      availableProducts)
           then CartStore.removeItem (CartStore.product_id item) cart
           else cart)
        items items
  end.

End UseCart.

(** The product is on sale with stock left. *)
Definition on_sale (d : db) (productId : string) : bool :=
  existsb (fun p => is_true (sql_eq_text (Products.id p) (Some productId))
                    && available_with_stock p)
          (products d).

(* ================================================================== *)
(** * The user store ([useUserStore]) *)

(** The table [profiles], with the columns the user store reads and
    writes, and the ids of [auth.users], which [id] references. *)
Module UserProfiles.

Record row := {
  id : option uuid;
  line_user_id : option string;
  display_name : option string;
  is_admin : option bool;
  created_at : option timestamp;
  updated_at : option timestamp
}.

Definition set_updated_at (v : option timestamp) (r : row) : row :=
  {| id := id r; line_user_id := line_user_id r;
     display_name := display_name r; is_admin := is_admin r;
     created_at := created_at r; updated_at := v |}.

(** The column types and the row constraints of [profiles]. *)
Definition accept (r : row) : result row :=
  line <- varchar 50 (line_user_id r) ;;
  name <- varchar 100 (display_name r) ;;
  not_null "profiles" "id" (id r) ;;;
  Ok {| id := id r; line_user_id := line; display_name := name;
        is_admin := is_admin r; created_at := created_at r;
        updated_at := updated_at r |}.

Definition keys (users : list (option uuid)) (tbl : list row) : result unit :=
  assert (unique (map id tbl)) (unique_violation "profiles_pkey") ;;;
  assert (unique (map line_user_id tbl))
    (unique_violation "profiles_line_user_id_key") ;;;
  assert (forallb (fun r => references (id r) users) tbl)
    (foreign_key_violation "profiles" "profiles_id_fkey").

Definition insert (users : list (option uuid)) (r : row) (tbl : list row)
    : result (row * list row) :=
  r' <- accept r ;;
  keys users (tbl ++ [r'])%list ;;;
  Ok (r', (tbl ++ [r'])%list).

(** The trigger [update_profiles_updated_at] stamps every updated row. *)
Definition update (users : list (option uuid)) (now : timestamp)
    (where_ : row -> bool) (set : row -> row) (tbl : list row)
    : result (list row) :=
  tbl' <- update_rows accept where_
            (fun r => set_updated_at (Some now) (set r)) tbl ;;
  keys users tbl' ;;;
  Ok tbl'.

End UserProfiles.

Record UserState := {
  user : option User.t;
  profile : option UserProfiles.row;
  user_isLoading : bool;
  user_error : option string
}.

(** const newProfile = { line_user_id, display_name, created_at,
    updated_at }; the columns left out take their defaults, and [id] has
    none. *)
Definition newProfile (lineUserId displayName : string) (date : timestamp)
    : UserProfiles.row :=
  {| UserProfiles.id := None;
     UserProfiles.line_user_id := Some lineUserId;
     UserProfiles.display_name := Some displayName;
     UserProfiles.is_admin := Some false;
     UserProfiles.created_at := Some date;
     UserProfiles.updated_at := Some date |}.

(** [login]; [date] is the instant of new Date() on the client, [users]
    the ids of [auth.users]. *)
Definition login (e : env) (date : timestamp) (users : list (option uuid))
    (lineUserId displayName : string) (s : UserState)
    (tbl : list UserProfiles.row)
    : promise unit * UserState * list UserProfiles.row :=
  let fail (t : thrown) (tbl' : list UserProfiles.row) :=
    (Rejected t,
     {| user := user s; profile := profile s; user_isLoading := false;
        user_error := Some (error_message_or t "Login failed") |},
     tbl') in
  (* .select('*').eq('line_user_id', lineUserId).single(): with no row or
     several, the error has the code PGRST116 and [data] is null *)
  match filter (fun p => is_true (sql_eq_text (UserProfiles.line_user_id p)
                                    (Some lineUserId))) tbl with
  | [existingProfile] =>
      let tbl' :=
        match UserProfiles.update users (NOW e)
                (fun p => is_true (sql_eq_text (UserProfiles.id p)
                                     (UserProfiles.id existingProfile)))
                (UserProfiles.set_updated_at (Some date)) tbl with
        | Ok tbl' => tbl'
        | Raise _ => tbl
        end in
      (Resolved tt,
       {| user := Some {| User.id := UserProfiles.id existingProfile;
                          User.line_user_id := lineUserId |};
          profile := Some existingProfile;
          user_isLoading := false;
          user_error := None |},
       tbl')
  | _ =>
      match UserProfiles.insert users (newProfile lineUserId displayName date)
              tbl with
      | Raise createError => fail (PostgrestError (SQLERRM createError)) tbl
      | Ok (createdProfile, tbl') =>
          (Resolved tt,
           {| user := Some {| User.id := UserProfiles.id createdProfile;
                              User.line_user_id := lineUserId |};
              profile := Some createdProfile;
              user_isLoading := false;
              user_error := None |},
           tbl')
      end
  end.

(* ================================================================== *)
(** * The checkout page (src/pages/CheckoutPage.tsx) *)

Module CheckoutPage.

Section Page.

(** JavaScript numbers. *)
Variable number : Type.

(** The [items] of the order [onSubmit] hands to [createOrder]:
    items.map(item => ({ product_id: item.product_id,
      quantity: item.quantity, unit_price: item.unit_price })) *)
Definition order_items_of (items : list (CartStore.CartItem number))
    : list (OrderItem number) :=
  map (fun item =>
         {| item_product_id := CartStore.product_id item;
            item_quantity := CartStore.quantity item;
            item_unit_price := CartStore.unit_price item |}) items.

End Page.

End CheckoutPage.

(* ================================================================== *)
(** * A small shop, for the concrete runs *)

Definition engine (n : nat) (id : uuid) : env :=
  {| NOW := Z.of_nat n; YYMMDD := "261102"; RANDOM_100000 := n;
     uuid_generate_v4 := id |}.

Definition customer : Profiles.row :=
  {| Profiles.id := Some "customer-1"; Profiles.is_admin := Some false |}.

Definition tea : Products.row :=
  {| Products.id := Some "tea"; Products.price := Some 12000;
     Products.stock := Some 5; Products.is_available := Some true;
     Products.updated_at := Some 0 |}.

(** The store is open, with one customer and five boxes of tea at 120.00. *)
Definition shop : db := with_products [tea] (with_profiles [customer] initial).

Definition two_teas : list Item.t :=
  [ {| Item.product_id := "tea"; Item.quantity := 2;
       Item.unit_price := 12000 |} ].

Definition database_after (r : result (json * db)) (d : db) : db :=
  match r with
  | Ok (_, d') => d'
  | Raise _ => d
  end.

(** The customer has ordered two boxes, to be delivered for 30.00. *)
Definition shop_with_order : db :=
  database_after
    (place_order_complete (engine 1 "order-1") (Some "customer-1")
       (Some "12 Main Road") None (Some 24000) (Some 3000) two_teas None None
       shop)
    shop.

Definition six_teas : list Item.t :=
  [ {| Item.product_id := "tea"; Item.quantity := 6;
       Item.unit_price := 12000 |} ].

(** Three boxes of tea, asked twice in one order. *)
Definition three_teas_twice : list Item.t :=
  [ {| Item.product_id := "tea"; Item.quantity := 3;
       Item.unit_price := 12000 |};
    {| Item.product_id := "tea"; Item.quantity := 3;
       Item.unit_price := 12000 |} ].


Definition street : Geography.t :=
  {| Geography.type := Geography.LineString;
     Geography.has_z := false; Geography.has_m := false;
     Geography.is_empty := false; Geography.srid := 4326;
     Geography.coordinates := "100.5018 13.7563, 100.5118 13.7663" |}.

(** The shop after it has refused an order for six boxes. *)
Definition shop_refusing : db :=
  database_after
    (place_order_complete (engine 3 "order-2") (Some "customer-1")
       (Some "12 Main Road") None (Some 72000) (Some 3000) six_teas None None
       shop)
    shop.

(** The order has been paid with the slip of transaction TX-0001. *)
Definition shop_with_paid_order : db :=
  database_after
    (verify_payment_slip (engine 2 "") (Some "order-1") (Some "TX-0001")
       (Some 27000) (Some "slip-1.png") shop_with_order)
    shop_with_order.

(** The shop after an order placed with a shipping fee of -30.00. *)
Definition shop_undercharged : db :=
  database_after
    (place_order_complete (engine 4 "order-3") (Some "customer-1")
       (Some "12 Main Road") None (Some 24000) (Some (-3000)) two_teas None
       None shop)
    shop.

(** The row of the customer's order, as [place_order_complete] stored it. *)
Definition first_order : Orders.row :=
  new_order (engine 1 "order-1") (Some "customer-1") (Some "12 Main Road")
    None (Some 24000) (Some 3000) None None.

(** The order store as the application creates it. *)
Definition empty_store : OrderState :=
  {| state_orders := []; currentOrder := None; isLoading := false;
     error := None |}.

(** The row of the customer's order once it has been paid. *)
Definition paid_order : Orders.row :=
  verified_order 2 "TX-0001" (Some "slip-1.png") first_order.

(** A transaction reference of 101 characters. *)
Definition long_reference : string := repeat_char "7"%char 101.

(** The client of the small shop. *)

(** The customer, signed in. *)
Definition signed_in : User.t :=
  {| User.id := Some "customer-1"; User.line_user_id := "U-0001" |}.

(** Numbers for the concrete runs: amounts in hundredths and whole
    quantities. *)
Definition item_of_whole_numbers (item : OrderItem Z) : Item.t :=
  {| Item.product_id := item_product_id Z item;
     Item.quantity := item_quantity Z item;
     Item.unit_price := item_unit_price Z item |}.

Definition createOrder_of_whole_numbers :=
  createOrder Z 0 Z.add Z.mul (Z.eqb 0) text_of_int (@Some Z) (fun z => z)
    text_of_int item_of_whole_numbers.

Definition order_of_teas (n : Z) : OrderData Z :=
  {| shipping_address := "12 Main Road";
     shipping_coordinates := None;
     shipping_method := delivery;
     items := [ {| item_product_id := "tea"; item_quantity := n;
                   item_unit_price := 12000 |} ];
     payment_slip_url := None;
     trans_ref := None |}.

(** The form before any verification. *)
Definition empty_form : PaymentSlipUploader.State :=
  {| PaymentSlipUploader.verificationResult := None;
     PaymentSlipUploader.isUploading := false;
     PaymentSlipUploader.isVerifying := false;
     PaymentSlipUploader.completed := None;
     PaymentSlipUploader.toasts := [] |}.

(** The row of the customer in [profiles], and the user store before any
    sign-in. *)
Definition customer_profile : UserProfiles.row :=
  {| UserProfiles.id := Some "customer-1";
     UserProfiles.line_user_id := Some "U-0001";
     UserProfiles.display_name := Some "Customer";
     UserProfiles.is_admin := Some false;
     UserProfiles.created_at := Some 0;
     UserProfiles.updated_at := Some 0 |}.

Definition signed_out : UserState :=
  {| user := None; profile := None; user_isLoading := false;
     user_error := None |}.

(** Case analysis on a statement that [H] says has succeeded. *)
Ltac case_ok H c :=
  let x := fresh "x" in
  let E := fresh "E" in
  destruct c as [x|] eqn:E; [simpl in H | discriminate H].

(* ================================================================== *)
(** * Properties *)

(** ** The cart store *)

Section CartProperties.

Variable number : Type.
Variable one : number.
Variable plus : number -> number -> number.
Variable le_zero : number -> bool.
Variable Math_min : number -> number -> number.

Local Abbreviation CartItem := (CartStore.CartItem number).
Local Abbreviation ids := (map (@CartStore.product_id number)).

Lemma ids_map_same (f : CartItem -> CartItem) (items : list CartItem) :
  (forall item, CartStore.product_id (f item) = CartStore.product_id item) ->
  ids (map f items) = ids items.
Proof.
  intros Hf. rewrite map_map. apply map_ext. exact Hf.
Qed.

Lemma ids_filter_NoDup (keep : CartItem -> bool) (items : list CartItem) :
  NoDup (ids items) -> NoDup (ids (filter keep items)).
Proof.
  induction items as [|item items IH]; simpl; intros Hnd; [constructor|].
  inversion Hnd as [|? ? Hnotin Hrest]; subst.
  destruct (keep item); simpl; auto.
  constructor; auto.
  intros Hin. apply Hnotin.
  apply in_map_iff in Hin. destruct Hin as [x [Hx Hin]].
  apply filter_In in Hin. destruct Hin as [Hin _].
  apply in_map_iff. exists x. split; assumption.
Qed.

Lemma find_none_not_in (product : string) (items : list CartItem) :
  find (fun item => String.eqb (CartStore.product_id item) product) items = None ->
  ~ In product (ids items).
Proof.
  intros Hfind Hin. apply in_map_iff in Hin. destruct Hin as [x [Hx Hin]].
  pose proof (find_none _ _ Hfind x Hin) as Hneq. simpl in Hneq.
  rewrite Hx, String.eqb_refl in Hneq. discriminate.
Qed.

Lemma addItem_distinct product q (items : list CartItem) :
  NoDup (ids items) ->
  NoDup (ids (CartStore.addItem one plus product q items)).
Proof.
  intros Hnd. unfold CartStore.addItem.
  destruct (find _ items) eqn:Hfind.
  - rewrite ids_map_same; [assumption|].
    intros item. destruct (String.eqb _ _); reflexivity.
  - rewrite map_app. simpl.
    apply NoDup_app; [assumption | repeat constructor; intros [] | ].
    intros a Ha [Hb|[]]. subst a.
    exact (find_none_not_in _ _ Hfind Ha).
Qed.

Lemma removeItem_distinct productId (items : list CartItem) :
  NoDup (ids items) -> NoDup (ids (CartStore.removeItem productId items)).
Proof. apply ids_filter_NoDup. Qed.

Lemma updateQuantity_distinct productId q (items : list CartItem) :
  NoDup (ids items) ->
  NoDup (ids (CartStore.updateQuantity le_zero Math_min productId q items)).
Proof.
  intros Hnd. unfold CartStore.updateQuantity.
  destruct (le_zero q).
  - now apply removeItem_distinct.
  - rewrite ids_map_same; [assumption|].
    intros item. destruct (String.eqb _ _); reflexivity.
Qed.

Lemma perform_distinct a (items : list CartItem) :
  NoDup (ids items) ->
  NoDup (ids (CartStore.perform one plus le_zero Math_min items a)).
Proof.
  destruct a; simpl; intros Hnd.
  - now apply addItem_distinct.
  - now apply removeItem_distinct.
  - now apply updateQuantity_distinct.
  - constructor.
Qed.

Lemma fold_perform_distinct actions (items : list CartItem) :
  NoDup (ids items) ->
  NoDup (ids (fold_left (CartStore.perform one plus le_zero Math_min)
                actions items)).
Proof.
  revert items. induction actions as [|a actions IH]; simpl; intros items Hnd.
  - assumption.
  - apply IH. now apply perform_distinct.
Qed.

(** C10. Starting from the empty cart, after any sequence of [addItem],
    [removeItem], [updateQuantity] and [clearCart] no two items of the cart
    have the same [product_id]; and [addItem] on a product that is in the
    cart leaves the list of product ids as it is, adding the given amount
    to the quantity of that product's item. *)
Theorem cart_product_ids_distinct :
  (forall actions,
      NoDup (ids (CartStore.cart_after one plus le_zero Math_min actions)))
  /\ (forall product quantity_arg (items : list CartItem),
         In (CartStore.id product) (ids items) ->
         let q := match quantity_arg with Some q => q | None => one end in
         let items' := CartStore.addItem one plus product quantity_arg items in
         ids items' = ids items
         /\ forall item', In item' items' ->
              CartStore.product_id item' = CartStore.id product ->
              exists item, In item items
                /\ CartStore.product_id item = CartStore.id product
                /\ CartStore.quantity item'
                   = plus (CartStore.quantity item) q).
Proof.
  split.
  - intros actions. unfold CartStore.cart_after.
    apply fold_perform_distinct. constructor.
  - intros product quantity_arg items Hin. simpl. unfold CartStore.addItem.
    destruct (find _ items) eqn:Hfind.
    + split.
      * apply ids_map_same. intros item.
        destruct (String.eqb _ _); reflexivity.
      * intros item' Hin' Hid. apply in_map_iff in Hin'.
        destruct Hin' as [item [Heq Hitem]]. exists item.
        destruct (String.eqb (CartStore.product_id item) (CartStore.id product))
          eqn:Hcmp; subst item'.
        -- repeat split; auto.
        -- simpl in Hid. rewrite Hid, String.eqb_refl in Hcmp. discriminate.
    + exfalso. exact (find_none_not_in _ _ Hfind Hin).
Qed.

End CartProperties.

(** ** Values of the column types *)

Lemma substring_prefix_length n s :
  (n <= String.length s)%nat -> String.length (substring 0 n s) = n.
Proof.
  revert s. induction n as [|n IH]; intros [|c s]; simpl; intros H.
  - reflexivity.
  - reflexivity.
  - lia.
  - rewrite IH; lia.
Qed.

Lemma varchar_Ok_length n v s :
  varchar n v = Ok (Some s) -> (String.length s <= n)%nat.
Proof.
  destruct v as [s0|]; simpl; [|discriminate].
  destruct (String.length s0 <=? n)%nat eqn:Hlen.
  - intros H; inversion H; subst. now apply Nat.leb_le.
  - destruct (all_spaces _); [|discriminate].
    intros H; inversion H; subst.
    apply Nat.leb_gt in Hlen.
    rewrite substring_prefix_length; lia.
Qed.

Lemma varchar_fits n s :
  (String.length s <= n)%nat -> varchar n (Some s) = Ok (Some s).
Proof.
  intros H. simpl. apply Nat.leb_le in H. now rewrite H.
Qed.

Lemma varchar_idempotent n v v' :
  varchar n v = Ok v' -> varchar n v' = Ok v'.
Proof.
  destruct v' as [s|].
  - intros H. apply varchar_fits. exact (varchar_Ok_length _ _ _ H).
  - reflexivity.
Qed.

Lemma decimal_10_2_Ok v v' : decimal_10_2 v = Ok v' -> v' = v.
Proof.
  destruct v as [z|]; unfold decimal_10_2.
  - destruct (Z.abs z <? 10 ^ 10); [|discriminate]. now intros H; inversion H.
  - now intros H; inversion H.
Qed.

Lemma decimal_10_2_fits z :
  Z.abs z < 10 ^ 10 -> decimal_10_2 (Some z) = Ok (Some z).
Proof.
  intros H. unfold decimal_10_2. apply Z.ltb_lt in H. now rewrite H.
Qed.

(** ** Keys *)

Lemma existsb_eqb_In (a : string) (l : list string) :
  existsb (String.eqb a) l = true <-> In a l.
Proof.
  rewrite existsb_exists. split.
  - intros [x [Hin Heq]]. apply String.eqb_eq in Heq. now subst.
  - intros Hin. exists a. split; [assumption | apply String.eqb_refl].
Qed.

Lemma distinct_NoDup (l : list string) : distinct l = true <-> NoDup l.
Proof.
  induction l as [|a l IH]; simpl.
  - split; [constructor | reflexivity].
  - rewrite andb_true_iff, negb_true_iff, IH. split.
    + intros [Hnot Hnd]. constructor; [|assumption].
      intros Hin. apply existsb_eqb_In in Hin. congruence.
    + intros Hnd. inversion Hnd as [|? ? Hnotin Hrest]; subst. split; [|assumption].
      destruct (existsb (String.eqb a) l) eqn:E; [|reflexivity].
      apply existsb_eqb_In in E. contradiction.
Qed.

Lemma non_null_app {A} (l1 l2 : list (option A)) :
  non_null (l1 ++ l2) = (non_null l1 ++ non_null l2)%list.
Proof.
  induction l1 as [|[a|] l1 IH]; simpl; [reflexivity | now rewrite IH | exact IH].
Qed.

Lemma In_non_null {A} (a : A) (l : list (option A)) :
  In a (non_null l) <-> In (Some a) l.
Proof.
  induction l as [|[b|] l IH]; simpl.
  - tauto.
  - rewrite IH. split; intros [H|H]; auto; left; congruence.
  - rewrite IH. split; [auto | intros [H|H]; [discriminate | assumption]].
Qed.


(** ** Rows a table accepts *)

Lemma update_rows_Ok {R} (accept : R -> result R) where_ set tbl tbl' :
  update_rows accept where_ set tbl = Ok tbl' ->
  Forall2 (fun r r' => if where_ r then accept (set r) = Ok r' else r' = r)
          tbl tbl'.
Proof.
  revert tbl'. induction tbl as [|r tbl IH]; simpl; intros tbl' H.
  - inversion H. constructor.
  - destruct (if where_ r then accept (set r) else Ok r) as [r'|] eqn:Hr;
      [cbn [bind] in H | discriminate].
    destruct (update_rows accept where_ set tbl) as [rest|];
      [cbn [bind] in H | discriminate].
    inversion H; subst. constructor; [|now apply IH].
    destruct (where_ r); [assumption | now inversion Hr].
Qed.

Lemma update_rows_intro {R} (accept : R -> result R) where_ set tbl :
  (forall r, In r tbl -> where_ r = true -> accept (set r) = Ok (set r)) ->
  update_rows accept where_ set tbl
  = Ok (map (fun r => if where_ r then set r else r) tbl).
Proof.
  induction tbl as [|r tbl IH]; simpl; intros H; [reflexivity|].
  rewrite IH by (intros; apply H; auto).
  destruct (where_ r) eqn:E; simpl; [|reflexivity].
  rewrite (H r) by auto. reflexivity.
Qed.

Lemma rows_from_refl {R} (accept : R -> result R) tbl : rows_from accept tbl tbl.
Proof. intros r' H. now left. Qed.

Lemma rows_from_trans {R} (accept : R -> result R) t1 t2 t3 :
  rows_from accept t1 t2 -> rows_from accept t2 t3 -> rows_from accept t1 t3.
Proof.
  intros H12 H23 r' H. destruct (H23 r' H) as [H2|H2]; [now apply H12 | now right].
Qed.

Lemma update_rows_from {R} (accept : R -> result R) where_ set tbl tbl' :
  update_rows accept where_ set tbl = Ok tbl' -> rows_from accept tbl tbl'.
Proof.
  intros H. apply update_rows_Ok in H.
  induction H as [|r r' tbl tbl' Hr Hrest IH]; intros x Hx; [contradiction|].
  destruct Hx as [<-|Hx].
  - destruct (where_ r); [right; eauto | left; left; now subst].
  - destruct (IH x Hx) as [Hin|Hacc]; [left; now right | now right].
Qed.

Lemma rows_from_Forall {R} (accept : R -> result R) (P : R -> Prop) tbl tbl' :
  (forall r r', accept r = Ok r' -> P r') ->
  rows_from accept tbl tbl' -> Forall P tbl -> Forall P tbl'.
Proof.
  intros Hacc Hfrom Htbl. apply Forall_forall. intros r' Hin.
  destruct (Hfrom r' Hin) as [Hold|[r Hr]].
  - revert Hold. now apply Forall_forall.
  - exact (Hacc _ _ Hr).
Qed.

Arguments decimal_10_2 : simpl never.
Arguments varchar : simpl never.
Arguments sql_in_text : simpl never.
Arguments Products.insert : simpl never.
Arguments Products.update : simpl never.
Arguments Orders.insert : simpl never.
Arguments Orders.update : simpl never.
Arguments OrderItems.insert : simpl never.
Arguments ActivityLogs.insert : simpl never.

Lemma decimal_10_2_bound z v' :
  decimal_10_2 (Some z) = Ok v' -> Z.abs z < 10 ^ 10.
Proof.
  unfold decimal_10_2. destruct (Z.ltb_spec (Z.abs z) (10 ^ 10)); [auto | discriminate].
Qed.

Lemma Products_accept_Ok r r' :
  Products.accept r = Ok r' ->
  r' = r
  /\ (exists i, Products.id r = Some i)
  /\ (exists p, Products.price r = Some p /\ 0 <= p /\ Z.abs p < 10 ^ 10)
  /\ (exists s, Products.stock r = Some s /\ 0 <= s).
Proof.
  destruct r as [i p s av up]. unfold Products.accept; simpl. intros H.
  destruct i as [i|]; [|discriminate]. simpl in H.
  destruct (decimal_10_2 p) as [p'|] eqn:Hdec; [|discriminate]. simpl in H.
  pose proof (decimal_10_2_Ok _ _ Hdec); subst p'.
  destruct p as [p|]; [|discriminate]. simpl in H.
  destruct s as [s|]; [|discriminate]. simpl in H.
  unfold check, sql_ge in H; simpl in H.
  destruct (Z.leb_spec 0 p); [|discriminate].
  destruct (Z.leb_spec 0 s); [|discriminate].
  simpl in H. inversion H; subst.
  assert (Z.abs p < 10 ^ 10) by (eapply decimal_10_2_bound; eauto).
  repeat split; eauto.
Qed.


Lemma Products_accept_stored r r' :
  Products.accept r = Ok r' -> stored Products.accept r'.
Proof.
  intros H. destruct (Products_accept_Ok _ _ H) as [-> _]. exact H.
Qed.

Lemma OrderItems_accept_Ok r r' :
  OrderItems.accept r = Ok r' ->
  OrderItems.order_id r' = OrderItems.order_id r
  /\ OrderItems.product_id r' = OrderItems.product_id r
  /\ OrderItems.quantity r' = OrderItems.quantity r
  /\ OrderItems.unit_price r' = OrderItems.unit_price r
  /\ OrderItems.subtotal r'
     = sql_mul (OrderItems.quantity r) (OrderItems.unit_price r)
  /\ (exists q, OrderItems.quantity r = Some q /\ 0 < q)
  /\ (exists p, OrderItems.unit_price r = Some p /\ 0 <= p).
Proof.
  destruct r as [o pr q u sub]. unfold OrderItems.accept; simpl. intros H.
  destruct (decimal_10_2 u) as [u'|] eqn:Hu; [|discriminate]. simpl in H.
  pose proof (decimal_10_2_Ok _ _ Hu); subst u'.
  destruct (decimal_10_2 (sql_mul q u)) as [sub'|] eqn:Hsub; [|discriminate].
  simpl in H. pose proof (decimal_10_2_Ok _ _ Hsub); subst sub'.
  destruct q as [q|]; [|discriminate]. simpl in H.
  destruct u as [u|]; [|discriminate]. simpl in H.
  unfold check, sql_gt, sql_ge in H; simpl in H.
  destruct (Z.ltb_spec 0 q); [|discriminate].
  destruct (Z.leb_spec 0 u); [|discriminate].
  simpl in H. inversion H; subst. simpl.
  repeat split; eauto.
Qed.

Lemma OrderItems_accept_intro o pr q u sub :
  0 < q -> 0 <= u -> Z.abs u < 10 ^ 10 -> Z.abs (q * u) < 10 ^ 10 ->
  OrderItems.accept
    {| OrderItems.order_id := o; OrderItems.product_id := pr;
       OrderItems.quantity := Some q; OrderItems.unit_price := Some u;
       OrderItems.subtotal := sub |}
  = Ok {| OrderItems.order_id := o; OrderItems.product_id := pr;
          OrderItems.quantity := Some q; OrderItems.unit_price := Some u;
          OrderItems.subtotal := Some (q * u) |}.
Proof.
  intros Hq Hu Hu' Hsub. unfold OrderItems.accept; simpl.
  rewrite decimal_10_2_fits by assumption. simpl.
  rewrite decimal_10_2_fits by assumption. simpl.
  unfold check, sql_gt, sql_ge; simpl.
  apply Z.ltb_lt in Hq. apply Z.leb_le in Hu. rewrite Hq, Hu. reflexivity.
Qed.

Lemma OrderItems_accept_stored r r' :
  OrderItems.accept r = Ok r' -> stored OrderItems.accept r'.
Proof.
  intros H. unfold stored.
  destruct r as [o pr q u sub]. unfold OrderItems.accept in H; simpl in H.
  destruct (decimal_10_2 u) as [u'|] eqn:Hu; [|discriminate]. simpl in H.
  pose proof (decimal_10_2_Ok _ _ Hu); subst u'.
  destruct (decimal_10_2 (sql_mul q u)) as [sub'|] eqn:Hsub; [|discriminate].
  simpl in H. pose proof (decimal_10_2_Ok _ _ Hsub); subst sub'.
  destruct q as [q|]; [|discriminate]. simpl in H.
  destruct u as [u|]; [|discriminate]. simpl in H.
  unfold check, sql_gt, sql_ge in H; simpl in H.
  destruct (Z.ltb_spec 0 q); [|discriminate].
  destruct (Z.leb_spec 0 u); [|discriminate].
  simpl in H. inversion H; subst.
  apply OrderItems_accept_intro; auto.
  - eapply decimal_10_2_bound; eauto.
  - eapply decimal_10_2_bound; eauto.
Qed.

Lemma geography_point_4326_fits g :
  Geography.type g = Geography.Point ->
  Geography.has_z g = false -> Geography.has_m g = false ->
  Geography.srid g = 4326 ->
  geography_point_4326 (Some g) = Ok (Some g).
Proof.
  intros Ht Hz Hm Hs. unfold geography_point_4326.
  rewrite Ht. cbn [Geography.is_multipoint andb].
  rewrite Ht, Hz, Hm, Hs. reflexivity.
Qed.

Lemma geography_point_4326_Ok c c' :
  geography_point_4326 c = Ok c' ->
  forall g, c' = Some g ->
    Geography.type g = Geography.Point
    /\ Geography.has_z g = false /\ Geography.has_m g = false
    /\ Geography.srid g = 4326.
Proof.
  unfold geography_point_4326. destruct c as [g0|]; [|intros H g Hg; congruence].
  cbv zeta.
  generalize (if Geography.is_multipoint (Geography.type g0)
                 && Geography.is_empty g0
              then Geography.as_point g0 else g0).
  intros g1.
  destruct (Z.eqb_spec (Geography.srid g1) 4326) as [Hs|]; [|discriminate].
  cbn [negb].
  destruct (Geography.type g1) eqn:Ht; try discriminate. cbn [Geography.is_point negb].
  destruct (Geography.has_z g1) eqn:Hz; [discriminate|].
  destruct (Geography.has_m g1) eqn:Hm; [discriminate|].
  intros H g Hg. assert (g = g1) by congruence. subst g. auto.
Qed.

Lemma geography_point_4326_idempotent c c' :
  geography_point_4326 c = Ok c' -> geography_point_4326 c' = Ok c'.
Proof.
  intros H. destruct c' as [g|]; [|reflexivity].
  destruct (geography_point_4326_Ok _ _ H g eq_refl) as (Ht & Hz & Hm & Hs).
  now apply geography_point_4326_fits.
Qed.

Lemma Orders_accept_Ok r r' :
  Orders.accept r = Ok r' ->
  Orders.id r' = Orders.id r
  /\ Orders.user_id r' = Orders.user_id r
  /\ varchar 20 (Orders.order_number r) = Ok (Orders.order_number r')
  /\ Orders.total_price r' = Orders.total_price r
  /\ Orders.shipping_fee r' = Orders.shipping_fee r
  /\ Orders.shipping_address r' = Orders.shipping_address r
  /\ geography_point_4326 (Orders.shipping_coordinates r)
     = Ok (Orders.shipping_coordinates r')
  /\ varchar 20 (Orders.status r) = Ok (Orders.status r')
  /\ Orders.payment_slip_url r' = Orders.payment_slip_url r
  /\ varchar 100 (Orders.trans_ref r) = Ok (Orders.trans_ref r')
  /\ Orders.thunder_verified r' = Orders.thunder_verified r
  /\ Orders.verified_at r' = Orders.verified_at r
  /\ Orders.created_at r' = Orders.created_at r
  /\ Orders.updated_at r' = Orders.updated_at r
  /\ (exists t, Orders.total_price r' = Some t /\ 0 <= t /\ Z.abs t < 10 ^ 10)
  /\ (exists f, Orders.shipping_fee r' = Some f /\ Z.abs f < 10 ^ 10)
  /\ check_passes (sql_in_text (Orders.status r') Orders.statuses) = true
  /\ (exists i, Orders.id r' = Some i)
  /\ (exists n, Orders.order_number r' = Some n)
  /\ (exists a, Orders.shipping_address r' = Some a).
Proof.
  destruct r as [i u n t f a c st slip ref tv va ca ua].
  unfold Orders.accept; simpl. intros H.
  destruct (varchar 20 n) as [n1|] eqn:En; [cbn [bind] in H | discriminate].
  destruct (decimal_10_2 t) as [t1|] eqn:Et; [cbn [bind] in H | discriminate].
  destruct (decimal_10_2 f) as [f1|] eqn:Ef; [cbn [bind] in H | discriminate].
  destruct (geography_point_4326 c) as [c1|] eqn:Ec;
    [cbn [bind] in H | discriminate].
  destruct (varchar 20 st) as [st1|] eqn:Est; [cbn [bind] in H | discriminate].
  destruct (varchar 100 ref) as [ref1|] eqn:Eref;
    [cbn [bind] in H | discriminate].
  pose proof (decimal_10_2_Ok _ _ Et); subst.
  pose proof (decimal_10_2_Ok _ _ Ef); subst.
  destruct i as [i|]; [simpl in H | discriminate].
  destruct n1 as [n'|]; [simpl in H | discriminate].
  destruct t as [t|]; [simpl in H | discriminate].
  destruct f as [f|]; [simpl in H | discriminate].
  destruct a as [a|]; [simpl in H | discriminate].
  unfold check, sql_ge in H; simpl in H.
  destruct (Z.leb_spec 0 t); [simpl in H | discriminate].
  destruct (check_passes (sql_in_text st1 Orders.statuses)) eqn:Hst;
    [simpl in H | discriminate].
  inversion H; subst; simpl.
  assert (Z.abs t < 10 ^ 10) by (eapply decimal_10_2_bound; eauto).
  assert (Z.abs f < 10 ^ 10) by (eapply decimal_10_2_bound; eauto).
  repeat split; eauto.
Qed.

Lemma Orders_accept_intro i u n t f a c st slip ref tv va ca ua :
  (String.length n <= 20)%nat ->
  0 <= t -> Z.abs t < 10 ^ 10 -> Z.abs f < 10 ^ 10 ->
  geography_point_4326 c = Ok c ->
  In st Orders.statuses ->
  (forall s, ref = Some s -> (String.length s <= 100)%nat) ->
  let r :=
    {| Orders.id := Some i; Orders.user_id := u;
       Orders.order_number := Some n;
       Orders.total_price := Some t; Orders.shipping_fee := Some f;
       Orders.shipping_address := Some a; Orders.shipping_coordinates := c;
       Orders.status := Some st; Orders.payment_slip_url := slip;
       Orders.trans_ref := ref; Orders.thunder_verified := tv;
       Orders.verified_at := va; Orders.created_at := ca;
       Orders.updated_at := ua |} in
  Orders.accept r = Ok r.
Proof.
  intros Hn Ht Ht' Hf Hc Hst Href r. unfold r, Orders.accept; simpl.
  rewrite (varchar_fits _ _ Hn). simpl.
  rewrite (decimal_10_2_fits _ Ht'). simpl.
  rewrite (decimal_10_2_fits _ Hf). simpl.
  rewrite Hc. cbn [bind].
  assert (Hlen : (String.length st <= 20)%nat).
  { unfold Orders.statuses in Hst. simpl in Hst.
    repeat (destruct Hst as [<-|Hst]; [simpl; lia|]). contradiction. }
  rewrite (varchar_fits _ _ Hlen). simpl.
  assert (Hr : varchar 100 ref = Ok ref).
  { destruct ref as [s|]; [apply varchar_fits; auto | reflexivity]. }
  rewrite Hr. simpl.
  unfold check, sql_ge. simpl.
  apply Z.leb_le in Ht. rewrite Ht. simpl.
  apply existsb_eqb_In in Hst. simpl in Hst. rewrite Hst.
  reflexivity.
Qed.

Lemma Orders_accept_stored r r' :
  Orders.accept r = Ok r' -> stored Orders.accept r'.
Proof.
  intros H. pose proof (Orders_accept_Ok _ _ H) as
    (_ & _ & Hn & _ & _ & _ & Hc & Hst & _ & Href & _ & _ & _ & _
     & (t & Ht & Ht0 & Ht1) & (f & Hf & Hf1) & Hck & (i & Hi) & (n & Hnum)
     & (a & Ha)).
  destruct r' as [i' u' n' t' f' a' c' st' slip' ref' tv' va' ca' ua'].
  simpl in *. subst. unfold stored, Orders.accept; simpl.
  rewrite (varchar_idempotent _ _ _ Hn). simpl.
  rewrite (decimal_10_2_fits _ Ht1). simpl.
  rewrite (decimal_10_2_fits _ Hf1). simpl.
  rewrite (geography_point_4326_idempotent _ _ Hc). cbn [bind].
  rewrite (varchar_idempotent _ _ _ Hst). simpl.
  rewrite (varchar_idempotent _ _ _ Href). simpl.
  unfold check, sql_ge. simpl.
  apply Z.leb_le in Ht0. rewrite Ht0. simpl.
  rewrite Hck. reflexivity.
Qed.

Lemma Orders_keys_Ok profiles tbl :
  Orders.keys profiles tbl = Ok tt ->
  unique (map Orders.id tbl) = true
  /\ unique (map Orders.order_number tbl) = true
  /\ unique (map Orders.trans_ref tbl) = true
  /\ forallb (fun r => references (Orders.user_id r)
                         (map Profiles.id profiles)) tbl = true.
Proof.
  unfold Orders.keys, assert. intros H.
  destruct (unique (map Orders.id tbl)); [|discriminate].
  destruct (unique (map Orders.order_number tbl)); [|discriminate].
  destruct (unique (map Orders.trans_ref tbl)); [|discriminate].
  destruct (forallb _ tbl); [|discriminate].
  auto.
Qed.

Lemma Orders_keys_intro profiles tbl :
  unique (map Orders.id tbl) = true ->
  unique (map Orders.order_number tbl) = true ->
  unique (map Orders.trans_ref tbl) = true ->
  forallb (fun r => references (Orders.user_id r)
                      (map Profiles.id profiles)) tbl = true ->
  Orders.keys profiles tbl = Ok tt.
Proof.
  unfold Orders.keys, assert. intros -> -> -> ->. reflexivity.
Qed.


(** ** What the statements write *)

Lemma rows_from_snoc {R} (accept : R -> result R) tbl r r' :
  accept r = Ok r' -> rows_from accept tbl (tbl ++ [r']).
Proof.
  intros H x Hx. apply in_app_or in Hx. destruct Hx as [Hx|[<-|[]]]; eauto.
Qed.

Lemma Products_update_writes now where_ set tbl tbl' :
  Products.update now where_ set tbl = Ok tbl' ->
  rows_from Products.accept tbl tbl' /\ Products.keys tbl' = Ok tt.
Proof.
  unfold Products.update. intros H.
  destruct (update_rows _ _ _ tbl) as [t|] eqn:Hu; [simpl in H | discriminate].
  destruct (Products.keys t) as [[]|] eqn:Hk; [simpl in H | discriminate].
  inversion H; subst. split; [|assumption].
  exact (update_rows_from _ _ _ _ _ Hu).
Qed.

Lemma Products_insert_writes r tbl tbl' :
  Products.insert r tbl = Ok tbl' ->
  rows_from Products.accept tbl tbl' /\ Products.keys tbl' = Ok tt.
Proof.
  unfold Products.insert. intros H.
  destruct (Products.accept r) as [r'|] eqn:Ha; [simpl in H | discriminate].
  destruct (Products.keys _) as [[]|] eqn:Hk; [simpl in H | discriminate].
  inversion H; subst. split; [|assumption].
  exact (rows_from_snoc _ _ _ _ Ha).
Qed.

Lemma validate_and_update_stock_writes now items tbl tbl' :
  validate_and_update_stock now items tbl = Ok tbl' ->
  rows_from Products.accept tbl tbl'
  /\ (tbl' = tbl \/ Products.keys tbl' = Ok tt).
Proof.
  revert tbl. induction items as [|item items IH]; simpl; intros tbl H.
  - inversion H; subst. split; [apply rows_from_refl | now left].
  - destruct (select_available_product _ tbl) as [p|]; [|discriminate].
    destruct (is_true _); [discriminate|].
    destruct (Products.update _ _ _ tbl) as [t|] eqn:Hu; [simpl in H | discriminate].
    destruct (Products_update_writes _ _ _ _ _ Hu) as [Hfrom Hkeys].
    destruct (IH _ H) as [Hfrom' Hkeys'].
    split; [exact (rows_from_trans _ _ _ _ Hfrom Hfrom')|].
    right. destruct Hkeys' as [->|Hk]; assumption.
Qed.

Lemma Orders_update_writes profiles now where_ set tbl tbl' :
  Orders.update profiles now where_ set tbl = Ok tbl' ->
  rows_from Orders.accept tbl tbl' /\ Orders.keys profiles tbl' = Ok tt.
Proof.
  unfold Orders.update. intros H.
  destruct (update_rows _ _ _ tbl) as [t|] eqn:Hu; [simpl in H | discriminate].
  destruct (Orders.keys profiles t) as [[]|] eqn:Hk; [simpl in H | discriminate].
  inversion H; subst. split; [|assumption].
  exact (update_rows_from _ _ _ _ _ Hu).
Qed.

Lemma Orders_insert_writes profiles r tbl tbl' :
  Orders.insert profiles r tbl = Ok tbl' ->
  rows_from Orders.accept tbl tbl' /\ Orders.keys profiles tbl' = Ok tt.
Proof.
  unfold Orders.insert. intros H.
  destruct (Orders.accept r) as [r'|] eqn:Ha; [simpl in H | discriminate].
  destruct (Orders.keys profiles _) as [[]|] eqn:Hk; [simpl in H | discriminate].
  inversion H; subst. split; [|assumption].
  exact (rows_from_snoc _ _ _ _ Ha).
Qed.

Lemma OrderItems_insert_writes orders products rows tbl tbl' :
  OrderItems.insert orders products rows tbl = Ok tbl' ->
  rows_from OrderItems.accept tbl tbl'.
Proof.
  unfold OrderItems.insert. intros H.
  destruct (update_rows _ _ _ rows) as [rows'|] eqn:Hu; [simpl in H | discriminate].
  destruct (OrderItems.keys _ _ _) as [[]|]; [simpl in H | discriminate].
  inversion H; subst. intros x Hx.
  apply in_app_or in Hx. destruct Hx as [Hx|Hx]; [now left|].
  destruct (update_rows_from _ _ _ _ _ Hu x Hx) as [Hin|Hacc]; [|now right].
  apply update_rows_Ok in Hu. clear -Hu Hx.
  induction Hu as [|r r' l l' Hr Hl IH]; [contradiction|].
  destruct Hx as [<-|Hx]; [right; eauto | auto].
Qed.

Lemma writes_refl d : writes d d.
Proof.
  constructor; try apply rows_from_refl; auto.
Qed.

Lemma writes_products_only d tbl :
  rows_from Products.accept (products d) tbl ->
  tbl = products d \/ Products.keys tbl = Ok tt ->
  writes d (with_products tbl d).
Proof.
  intros Hfrom Hkeys. constructor; simpl; try apply rows_from_refl; auto.
Qed.

Lemma writes_orders_only d tbl :
  rows_from Orders.accept (orders d) tbl ->
  Orders.keys (profiles d) tbl = Ok tt ->
  writes d (with_orders tbl d).
Proof.
  intros Hfrom Hkeys. constructor; simpl; try apply rows_from_refl; auto.
Qed.

Lemma writes_activity_logs_only d tbl : writes d (with_activity_logs tbl d).
Proof.
  constructor; simpl; try apply rows_from_refl; auto.
Qed.

Lemma place_order_block_Ok e user address coordinates total fee items slip ref
    d j d' :
  place_order_block e user address coordinates total fee items slip ref d
  = Ok (j, d') ->
  is_true (sql_not (select_is_store_open d)) = false
  /\ exists products' orders' order_items' activity_logs',
      validate_and_update_stock (NOW e) items (products d) = Ok products'
      /\ Orders.insert (profiles d)
           (new_order e user address coordinates total fee slip ref)
           (orders d) = Ok orders'
      /\ OrderItems.insert orders' products'
           (map (order_item_row (Some (uuid_generate_v4 e))) items)
           (order_items d) = Ok order_items'
      /\ ActivityLogs.insert (profiles d)
           (order_created_log e user total items) (activity_logs d)
         = Ok activity_logs'
      /\ j = order_placed e
      /\ d' = {| store_settings := store_settings d; profiles := profiles d;
                 products := products'; orders := orders';
                 order_items := order_items';
                 activity_logs := activity_logs' |}.
Proof.
  unfold place_order_block. intros H.
  destruct (is_true (sql_not (select_is_store_open d))); [discriminate|].
  simpl in H. split; [reflexivity|].
  destruct (validate_and_update_stock _ _ _) as [products'|] eqn:H1;
    [simpl in H | discriminate].
  destruct (Orders.insert _ _ _) as [orders'|] eqn:H2;
    [simpl in H | discriminate].
  destruct (OrderItems.insert _ _ _ _) as [order_items'|] eqn:H3;
    [simpl in H | discriminate].
  destruct (ActivityLogs.insert _ _ _) as [activity_logs'|] eqn:H4;
    [simpl in H | discriminate].
  inversion H; subst.
  exists products', orders', order_items', activity_logs'.
  repeat split; assumption.
Qed.

Lemma place_order_complete_Ok e user address coordinates total fee items slip
    ref d j d' :
  place_order_complete e user address coordinates total fee items slip ref d
  = Ok (j, d') ->
  place_order_block e user address coordinates total fee items slip ref d
  = Ok (j, d')
  \/ exists err activity_logs',
       place_order_block e user address coordinates total fee items slip ref d
       = Raise err
       /\ ActivityLogs.insert (profiles d)
            (order_error_log e user (SQLERRM err)) (activity_logs d)
          = Ok activity_logs'
       /\ j = failure (JString (SQLERRM err))
       /\ d' = with_activity_logs activity_logs' d.
Proof.
  unfold place_order_complete. intros H.
  destruct (place_order_block _ _ _ _ _ _ _ _ _ _) as [r|err]; [now left|].
  right.
  destruct (ActivityLogs.insert _ _ _) as [activity_logs'|] eqn:H1;
    [simpl in H | discriminate].
  inversion H; subst. exists err, activity_logs'. repeat split; assumption.
Qed.

Lemma place_order_complete_writes e user address coordinates total fee items
    slip ref d j d' :
  place_order_complete e user address coordinates total fee items slip ref d
  = Ok (j, d') ->
  writes d d'.
Proof.
  intros H. apply place_order_complete_Ok in H.
  destruct H as [H|(err & logs & _ & _ & _ & ->)];
    [|apply writes_activity_logs_only].
  apply place_order_block_Ok in H.
  destruct H as (_ & products' & orders' & items' & logs & Hloop & Hord & Hitems
                 & _ & _ & ->).
  destruct (validate_and_update_stock_writes _ _ _ _ Hloop).
  destruct (Orders_insert_writes _ _ _ _ Hord).
  constructor; simpl; auto.
  exact (OrderItems_insert_writes _ _ _ _ _ Hitems).
Qed.

Lemma verify_payment_slip_Ok e order ref amount slip d j d' :
  verify_payment_slip e order ref amount slip d = Ok (j, d') ->
  (order_exists_unverified order d = false
   /\ j = failure (JString "ORDER_NOT_FOUND_OR_ALREADY_VERIFIED") /\ d' = d)
  \/ (order_exists_unverified order d = true
      /\ trans_ref_exists ref d = true
      /\ j = failure (JString "DUPLICATE_TRANSACTION_REFERENCE") /\ d' = d)
  \/ (order_exists_unverified order d = true
      /\ trans_ref_exists ref d = false
      /\ invalid_trans_ref ref = true
      /\ exists activity_logs',
          ActivityLogs.insert (profiles d)
            (payment_failed_log e order (Some "Invalid transaction reference"))
            (activity_logs d) = Ok activity_logs'
          /\ j = failure (JString "Invalid transaction reference")
          /\ d' = with_activity_logs activity_logs' d)
  \/ (order_exists_unverified order d = true
      /\ trans_ref_exists ref d = false
      /\ invalid_trans_ref ref = false
      /\ exists orders' activity_logs',
          Orders.update (profiles d) (NOW e)
            (fun o => is_true (sql_eq_text (Orders.id o) order))
            (Orders.set_verified ref slip (NOW e)) (orders d) = Ok orders'
          /\ ActivityLogs.insert (profiles d)
               (payment_verified_log e order ref amount) (activity_logs d)
             = Ok activity_logs'
          /\ j = payment_verified order
          /\ d' = with_activity_logs activity_logs' (with_orders orders' d)).
Proof.
  unfold verify_payment_slip. cbv zeta. intros H.
  destruct (order_exists_unverified order d); cbn [negb] in H;
    [|inversion H; subst; left; auto].
  right.
  destruct (trans_ref_exists ref d);
    [inversion H; subst; left; auto|].
  right.
  destruct (invalid_trans_ref ref) eqn:Hinv.
  - left.
    assert (Hs : is_true (sql_eq_text
                   (json_get_text (thunder_response e ref amount) "status")
                   (Some "success")) = false)
      by (unfold thunder_response; rewrite Hinv; reflexivity).
    assert (Hm : json_get_text (thunder_response e ref amount) "message"
                 = Some "Invalid transaction reference")
      by (unfold thunder_response; rewrite Hinv; reflexivity).
    rewrite Hs, Hm in H.
    destruct (ActivityLogs.insert _ _ _) as [logs|] eqn:Hlog;
      [cbn [bind] in H | discriminate].
    inversion H; subst. do 3 (split; [reflexivity|]).
    exists logs. repeat split; auto.
  - right.
    assert (Hs : is_true (sql_eq_text
                   (json_get_text (thunder_response e ref amount) "status")
                   (Some "success")) = true)
      by (unfold thunder_response; rewrite Hinv; reflexivity).
    rewrite Hs in H.
    destruct (Orders.update _ _ _ _ _) as [orders'|] eqn:Hupd;
      [cbn [bind] in H | discriminate].
    destruct (ActivityLogs.insert _ _ _) as [logs|] eqn:Hlog;
      [cbn [bind] in H | discriminate].
    inversion H; subst. do 3 (split; [reflexivity|]).
    exists orders', logs. repeat split; auto.
Qed.

Lemma verify_payment_slip_writes e order ref amount slip d j d' :
  verify_payment_slip e order ref amount slip d = Ok (j, d') -> writes d d'.
Proof.
  intros H. apply verify_payment_slip_Ok in H.
  destruct H as [(_ & _ & ->)|[(_ & _ & _ & ->)|[(_ & _ & _ & logs & _ & _ & ->)
                |(_ & _ & _ & orders' & logs & Hupd & _ & _ & ->)]]].
  - apply writes_refl.
  - apply writes_refl.
  - apply writes_activity_logs_only.
  - destruct (Orders_update_writes _ _ _ _ _ _ Hupd).
    constructor; simpl; try apply rows_from_refl; auto.
Qed.

Lemma update_order_status_writes e orderId status d d' :
  update_order_status e orderId status d = Ok d' -> writes d d'.
Proof.
  unfold update_order_status. intros H.
  destruct (Orders.update _ _ _ _ _) as [orders'|] eqn:Hupd;
    [simpl in H | discriminate].
  inversion H; subst.
  destruct (Orders_update_writes _ _ _ _ _ _ Hupd).
  now apply writes_orders_only.
Qed.

Lemma updateOrderStatus_writes e orderId status s d p s' d' :
  updateOrderStatus e orderId status s d = (p, s', d') -> writes d d'.
Proof.
  unfold updateOrderStatus. intros H.
  destruct (update_order_status _ _ _ d) as [d1|] eqn:Hupd;
    inversion H; subst.
  - exact (update_order_status_writes _ _ _ _ _ Hupd).
  - apply writes_refl.
Qed.

Lemma increment_product_stock_fails e product increment d :
  exists err, increment_product_stock e product increment d = Raise err.
Proof. eexists. reflexivity. Qed.

Lemma restore_stock_nothing e items d : restore_stock e items d = d.
Proof.
  induction items as [|item items IH]; simpl; [reflexivity | exact IH].
Qed.

Lemma cancelOrder_writes e orderId s d p s' d' :
  cancelOrder e orderId s d = (p, s', d') -> writes d d'.
Proof.
  unfold cancelOrder. intros H.
  destruct (filter (has_id orderId) (orders d)) as [|order [|]];
    try (inversion H; subst; apply writes_refl).
  destruct (negb _); [inversion H; subst; apply writes_refl|].
  rewrite restore_stock_nothing in H.
  destruct (update_order_status e orderId "cancelled" d) as [d2|] eqn:Hupd;
    inversion H; subst; [|apply writes_refl].
  exact (update_order_status_writes _ _ _ _ _ Hupd).
Qed.

Lemma verifyPayment_try_Resolved iso data :
  exists r, ThunderClient.verifyPayment_try iso data = Resolved r.
Proof.
  unfold ThunderClient.verifyPayment_try.
  destruct (0 <? _)%nat; eauto.
Qed.

Lemma verifyPayment_database e iso data d p called d' :
  ThunderClient.verifyPayment e iso data d = (p, called, d') -> d' = d.
Proof.
  unfold ThunderClient.verifyPayment.
  destruct (verifyPayment_try_Resolved iso data) as [r ->].
  intros H. now inversion H.
Qed.

Lemma step_writes d d' : step d d' -> writes d d'.
Proof.
  intros H. destruct H.
  - eapply place_order_complete_writes; eauto.
  - eapply verify_payment_slip_writes; eauto.
  - match goal with H : increment_product_stock _ _ _ _ = Ok _ |- _ =>
      discriminate H end.
  - eapply updateOrderStatus_writes; eauto.
  - eapply cancelOrder_writes; eauto.
  - match goal with H : ThunderClient.verifyPayment _ _ _ _ = _ |- _ =>
      apply verifyPayment_database in H; subst end.
    apply writes_refl.
  - constructor; simpl; try apply rows_from_refl; auto.
  - constructor; simpl; try apply rows_from_refl; eauto.
  - match goal with H : Products.insert _ _ = Ok _ |- _ =>
      destruct (Products_insert_writes _ _ _ H) end.
    apply writes_products_only; auto.
  - match goal with H : Products.update _ _ _ _ = Ok _ |- _ =>
      destruct (Products_update_writes _ _ _ _ _ H) end.
    apply writes_products_only; auto.
  - match goal with H : Orders.insert _ _ _ = Ok _ |- _ =>
      destruct (Orders_insert_writes _ _ _ _ H) end.
    apply writes_orders_only; auto.
  - match goal with H : Orders.update _ _ _ _ _ = Ok _ |- _ =>
      destruct (Orders_update_writes _ _ _ _ _ _ H) end.
    apply writes_orders_only; auto.
  - match goal with H : OrderItems.insert _ _ _ _ = Ok _ |- _ =>
      pose proof (OrderItems_insert_writes _ _ _ _ _ H) end.
    constructor; simpl; try apply rows_from_refl; auto.
Qed.

(** ** Invariants of the reachable states *)

Lemma references_more key ids more :
  references key ids = true -> references key (ids ++ more) = true.
Proof.
  destruct key as [k|]; simpl; [|auto].
  rewrite !existsb_eqb_In, non_null_app. intros H. apply in_or_app. now left.
Qed.

Lemma Orders_keys_more_profiles profiles r tbl :
  Orders.keys profiles tbl = Ok tt ->
  Orders.keys (profiles ++ [r]) tbl = Ok tt.
Proof.
  intros H. apply Orders_keys_Ok in H. destruct H as (H1 & H2 & H3 & H4).
  apply Orders_keys_intro; auto.
  rewrite forallb_forall in *. intros o Ho. rewrite map_app.
  apply references_more. now apply H4.
Qed.

Lemma initial_schema_ok : schema_ok initial.
Proof.
  constructor; simpl; try constructor.
Qed.

Lemma writes_schema_ok d d' : schema_ok d -> writes d d' -> schema_ok d'.
Proof.
  intros [Hp Hpk Ho Hok Hi] [Wp Wpk Wo Wok Wi]. constructor.
  - exact (rows_from_Forall _ _ _ _ Products_accept_stored Wp Hp).
  - destruct Wpk as [->|Wpk]; assumption.
  - exact (rows_from_Forall _ _ _ _ Orders_accept_stored Wo Ho).
  - destruct Wok as [[-> [->|[r ->]]]|Wok]; auto.
    now apply Orders_keys_more_profiles.
  - exact (rows_from_Forall _ _ _ _ OrderItems_accept_stored Wi Hi).
Qed.

Lemma reachable_schema_ok d : reachable d -> schema_ok d.
Proof.
  induction 1 as [|d d' _ IH Hstep].
  - exact initial_schema_ok.
  - exact (writes_schema_ok _ _ IH (step_writes _ _ Hstep)).
Qed.

Lemma stored_stock_nonneg p :
  stored Products.accept p -> exists s, Products.stock p = Some s /\ 0 <= s.
Proof.
  intros H. destruct (Products_accept_Ok _ _ H) as (_ & _ & _ & Hs). exact Hs.
Qed.

Lemma writes_stock_nonneg d d' :
  stock_nonneg d -> writes d d' -> stock_nonneg d'.
Proof.
  intros Hd [Wp _ _ _ _] p Hp.
  destruct (Wp p Hp) as [Hold|[r Hr]]; [now apply Hd|].
  destruct (Products_accept_Ok _ _ Hr) as (-> & _ & _ & Hs). exact Hs.
Qed.

Lemma unique_NoDup keys : unique keys = true <-> NoDup (non_null keys).
Proof. apply distinct_NoDup. Qed.

Lemma writes_trans_refs d d' :
  NoDup (trans_refs d) -> writes d d' -> NoDup (trans_refs d').
Proof.
  unfold trans_refs. intros Hd [_ _ _ Wok _].
  destruct Wok as [[-> _]|Wok]; [assumption|].
  apply Orders_keys_Ok in Wok. destruct Wok as (_ & _ & H & _).
  now apply unique_NoDup.
Qed.

Lemma stored_order_amounts o :
  stored Orders.accept o ->
  (exists t, Orders.total_price o = Some t /\ 0 <= t)
  /\ (exists s, In s Orders.statuses /\ Orders.status o = Some s
      \/ Orders.status o = None).
Proof.
  intros H. pose proof (Orders_accept_Ok _ _ H) as
    (_ & _ & _ & _ & _ & _ & _ & _ & _ & _ & _ & _ & _ & _
     & (t & Ht & Ht0 & _) & _ & Hck & _).
  split; [eauto|].
  destruct (Orders.status o) as [s|]; [|exists ""; now right].
  exists s. left. split; [|reflexivity].
  unfold sql_in_text, check_passes in Hck.
  apply existsb_eqb_In.
  destruct (existsb (String.eqb s) Orders.statuses); [reflexivity | discriminate].
Qed.

(** ** The small shop *)

Lemma reachable_shop : reachable shop.
Proof.
  apply (reachable_step (with_profiles [customer] initial)).
  - apply (reachable_step initial); [constructor|].
    exact (step_insert_profile customer initial eq_refl eq_refl).
  - exact (step_insert_product tea (with_profiles [customer] initial) [tea]
             eq_refl).
Qed.

Lemma shop_with_order_placed :
  place_order_complete (engine 1 "order-1") (Some "customer-1")
    (Some "12 Main Road") None (Some 24000) (Some 3000) two_teas None None shop
  = Ok (order_placed (engine 1 "order-1"), shop_with_order).
Proof. vm_compute. reflexivity. Qed.

Lemma reachable_shop_with_order : reachable shop_with_order.
Proof.
  apply (reachable_step shop); [exact reachable_shop|].
  eapply step_place_order_complete. exact shop_with_order_placed.
Qed.

Lemma shop_with_paid_order_verified :
  verify_payment_slip (engine 2 "") (Some "order-1") (Some "TX-0001")
    (Some 27000) (Some "slip-1.png") shop_with_order
  = Ok (payment_verified (Some "order-1"), shop_with_paid_order).
Proof. vm_compute. reflexivity. Qed.

Lemma reachable_shop_with_paid_order : reachable shop_with_paid_order.
Proof.
  apply (reachable_step shop_with_order); [exact reachable_shop_with_order|].
  eapply step_verify_payment_slip. exact shop_with_paid_order_verified.
Qed.

(** ** Failures of the stored procedures *)

Lemma ActivityLogs_insert_Ok profiles r tbl tbl' :
  ActivityLogs.insert profiles r tbl = Ok tbl' ->
  exists r',
    tbl' = (tbl ++ [r'])%list
    /\ varchar 50 (ActivityLogs.action_type r) = Ok (ActivityLogs.action_type r')
    /\ ActivityLogs.error_message r' = ActivityLogs.error_message r
    /\ ActivityLogs.user_id r' = ActivityLogs.user_id r
    /\ ActivityLogs.record_id r' = ActivityLogs.record_id r
    /\ ActivityLogs.new_data r' = ActivityLogs.new_data r.
Proof.
  unfold ActivityLogs.insert, ActivityLogs.accept. intros H.
  destruct (varchar 50 (ActivityLogs.action_type r)) as [action|] eqn:Ha;
    [cbn [bind] in H | discriminate].
  destruct (varchar 50 (ActivityLogs.table_name r)) as [table|] eqn:Ht;
    [cbn [bind] in H | discriminate].
  destruct (not_null _ _ action); [cbn [bind] in H | discriminate].
  destruct (ActivityLogs.keys _ _); [cbn [bind] in H | discriminate].
  inversion H; subst. eexists. split; [reflexivity|]. simpl. auto 10.
Qed.

Lemma ActivityLogs_insert_logged profiles r tbl tbl' action message :
  ActivityLogs.insert profiles r tbl = Ok tbl' ->
  ActivityLogs.action_type r = Some action ->
  (String.length action <= 50)%nat ->
  ActivityLogs.error_message r = Some message ->
  exists row,
    tbl' = (tbl ++ [row])%list
    /\ ActivityLogs.action_type row = Some action
    /\ ActivityLogs.error_message row = Some message.
Proof.
  intros H Ha Hlen Hm.
  destruct (ActivityLogs_insert_Ok _ _ _ _ H) as (r' & -> & Hact & Herr & _).
  exists r'. split; [reflexivity|].
  rewrite Ha, varchar_fits in Hact by assumption. inversion Hact.
  rewrite Herr. auto.
Qed.

(** C1 (as amended). Whenever [place_order_complete] or
    [verify_payment_slip] returns an object with success = false, the object
    carries the error text under "error", and [orders], [order_items] and
    [products] are as before the call.  [place_order_complete] has then
    appended one ORDER_ERROR row with that text to [activity_logs];
    [verify_payment_slip] has appended one PAYMENT_FAILED row with it when
    the verification itself failed, and has left the whole database as it
    was when one of its two guards refused the call. *)
Theorem failures_roll_back_and_report :
  (forall e user address coordinates total fee items slip ref d j d',
      place_order_complete e user address coordinates total fee items slip
        ref d = Ok (j, d') ->
      json_get j "success" = Some (JBool false) ->
      exists message,
        json_get j "error" = Some (JString message)
        /\ rolled_back d d'
        /\ logged "ORDER_ERROR" message d d')
  /\ (forall e order ref amount slip d j d',
         verify_payment_slip e order ref amount slip d = Ok (j, d') ->
         json_get j "success" = Some (JBool false) ->
         exists message,
           json_get j "error" = Some (JString message)
           /\ rolled_back d d'
           /\ ((message = "Invalid transaction reference"
                /\ logged "PAYMENT_FAILED" message d d')
               \/ ((message = "ORDER_NOT_FOUND_OR_ALREADY_VERIFIED"
                    \/ message = "DUPLICATE_TRANSACTION_REFERENCE")
                   /\ d' = d))).
Proof.
  split.
  - intros e user address coordinates total fee items slip ref d j d' H Hj.
    apply place_order_complete_Ok in H.
    destruct H as [H|(err & logs & _ & Hlog & -> & ->)].
    + apply place_order_block_Ok in H.
      destruct H as (_ & ? & ? & ? & ? & _ & _ & _ & _ & -> & _).
      discriminate Hj.
    + exists (SQLERRM err). split; [reflexivity|].
      split; [repeat split|].
      destruct (ActivityLogs_insert_logged _ _ _ _ "ORDER_ERROR" (SQLERRM err) Hlog)
        as (row & Hrow); [reflexivity | simpl; lia | reflexivity |].
      exists row. exact Hrow.
  - intros e order ref amount slip d j d' H Hj.
    apply verify_payment_slip_Ok in H.
    destruct H as [(_ & -> & ->)|[(_ & _ & -> & ->)
                  |[(_ & _ & _ & logs & Hlog & -> & ->)
                   |(_ & _ & _ & ? & ? & _ & _ & -> & _)]]].
    + eexists. split; [reflexivity|]. split; [repeat split|]. right. auto.
    + eexists. split; [reflexivity|]. split; [repeat split|]. right. auto.
    + eexists. split; [reflexivity|]. split; [repeat split|]. left.
      split; [reflexivity|].
      destruct (ActivityLogs_insert_logged _ _ _ _ "PAYMENT_FAILED"
                  "Invalid transaction reference" Hlog)
        as (row & Hrow); [reflexivity | simpl; lia | reflexivity |].
      exists row. exact Hrow.
    + discriminate Hj.
Qed.

Lemma six_teas_refused :
  place_order_complete (engine 3 "order-2") (Some "customer-1")
    (Some "12 Main Road") None (Some 72000) (Some 3000) six_teas None None shop
  = Ok (failure
          (JString "INSUFFICIENT_STOCK: Product tea has only 5 items in stock"),
        shop_refusing).
Proof. vm_compute. reflexivity. Qed.

(** C1 at work: an order for more tea than the shop has is refused, rolled
    back and logged. *)
Lemma failures_roll_back_and_report_witness :
  exists message,
    json_get
      (failure
         (JString "INSUFFICIENT_STOCK: Product tea has only 5 items in stock"))
      "error" = Some (JString message)
    /\ rolled_back shop shop_refusing
    /\ logged "ORDER_ERROR" message shop shop_refusing.
Proof.
  exact (proj1 failures_roll_back_and_report _ _ _ _ _ _ _ _ _ _ _ _
           six_teas_refused eq_refl).
Defined.

(** C1 (as stated) fails: [verify_payment_slip] called for an order that
    does not exist returns success = false and appends nothing to
    [activity_logs]. *)
Lemma verify_payment_slip_unknown_order_not_logged :
  verify_payment_slip (engine 3 "") (Some "order-9") (Some "TX-0002")
    (Some 27000) (Some "slip-2.png") shop_with_order
  = Ok (failure (JString "ORDER_NOT_FOUND_OR_ALREADY_VERIFIED"),
        shop_with_order)
  /\ json_get (failure (JString "ORDER_NOT_FOUND_OR_ALREADY_VERIFIED"))
       "success" = Some (JBool false)
  /\ (forall row,
         activity_logs shop_with_order
         <> (activity_logs shop_with_order ++ [row])%list).
Proof.
  split; [vm_compute; reflexivity|]. split; [reflexivity|].
  intros row H. apply (f_equal (@List.length _)) in H.
  rewrite length_app in H. simpl in H. lia.
Qed.

(** ** The payment client *)

(** C8. For every request, [verifyPayment] asks the verification service
    once and resolves with its answer: the fallback through Supabase is not
    taken and the database is not touched.  When that attempt fails, the
    answer has success = false and carries the validation errors. *)
Theorem verifyPayment_single_attempt :
  forall e iso data d,
  exists r,
    ThunderClient.verifyPayment e iso data d
    = (Resolved r, [ThunderClient.ThunderSolution], d)
    /\ (ThunderClient.Response.success r = false ->
        ThunderClient.validation_errors data <> []
        /\ ThunderClient.Response.verified r = false
        /\ ThunderClient.Response.error r
           = Some (ThunderClient.join ", " (ThunderClient.validation_errors data)))
    /\ (ThunderClient.Response.success r = true ->
        ThunderClient.validation_errors data = []).
Proof.
  intros e iso data d.
  unfold ThunderClient.verifyPayment, ThunderClient.verifyPayment_try.
  destruct (ThunderClient.validation_errors data) as [|err errs] eqn:Herrs;
    simpl; eexists; (split; [reflexivity|]); simpl; split; intros H;
    try discriminate; auto.
  repeat split. discriminate.
Qed.

(** ** Order amounts *)

Lemma total_price_never_negative d :
  reachable d ->
  forall o, In o (orders d) ->
    exists t, Orders.total_price o = Some t /\ 0 <= t.
Proof.
  intros Hd o Ho. apply reachable_schema_ok in Hd.
  destruct Hd as [_ _ Hstored _ _].
  rewrite Forall_forall in Hstored.
  exact (proj1 (stored_order_amounts _ (Hstored o Ho))).
Qed.

(** C5, at the failing input: with the shop open and the tea in stock,
    [place_order_complete] called with a shipping fee of -30.00 succeeds and
    leaves, in a reachable state, an order whose [shipping_fee] is
    negative. *)
Theorem negative_shipping_fee_is_stored :
  place_order_complete (engine 4 "order-3") (Some "customer-1")
    (Some "12 Main Road") None (Some 24000) (Some (-3000)) two_teas None None
    shop
  = Ok (order_placed (engine 4 "order-3"), shop_undercharged)
  /\ reachable shop_undercharged
  /\ exists o, In o (orders shop_undercharged)
               /\ Orders.shipping_fee o = Some (-3000).
Proof.
  assert (H : place_order_complete (engine 4 "order-3") (Some "customer-1")
                (Some "12 Main Road") None (Some 24000) (Some (-3000))
                two_teas None None shop
              = Ok (order_placed (engine 4 "order-3"), shop_undercharged))
    by (vm_compute; reflexivity).
  split; [exact H|]. split.
  - apply (reachable_step shop); [exact reachable_shop|].
    eapply step_place_order_complete. exact H.
  - eexists. split; [left; reflexivity | reflexivity].
Qed.

(** ** Transaction references *)

Lemma trans_ref_exists_In t d :
  In (Some t) (map Orders.trans_ref (orders d)) ->
  trans_ref_exists (Some t) d = true.
Proof.
  unfold trans_ref_exists. intros H. apply in_map_iff in H.
  destruct H as [o [Ho Hin]]. apply existsb_exists. exists o.
  split; [assumption|]. rewrite Ho. simpl. now rewrite String.eqb_refl.
Qed.

(** C4 (as amended). In every reachable state no two orders carry the same
    non-null [trans_ref]; the table refuses any insert or update that would
    leave a duplicate.  When some order already has the reference t,
    [verify_payment_slip] called with t returns success = false and leaves
    the database as it was: with the error DUPLICATE_TRANSACTION_REFERENCE
    when [p_order_id] names an order that has no reference yet, and with
    ORDER_NOT_FOUND_OR_ALREADY_VERIFIED otherwise. *)
Theorem trans_ref_carried_by_one_order :
  (forall d, reachable d -> NoDup (trans_refs d))
  /\ (forall e order t amount slip d,
         In (Some t) (map Orders.trans_ref (orders d)) ->
         exists code,
           verify_payment_slip e order (Some t) amount slip d
           = Ok (failure (JString code), d)
           /\ ((order_exists_unverified order d = true
                /\ code = "DUPLICATE_TRANSACTION_REFERENCE")
               \/ (order_exists_unverified order d = false
                   /\ code = "ORDER_NOT_FOUND_OR_ALREADY_VERIFIED")))
  /\ (forall profiles r tbl tbl',
         Orders.insert profiles r tbl = Ok tbl' ->
         NoDup (non_null (map Orders.trans_ref tbl')))
  /\ (forall profiles now where_ set tbl tbl',
         Orders.update profiles now where_ set tbl = Ok tbl' ->
         NoDup (non_null (map Orders.trans_ref tbl'))).
Proof.
  repeat split.
  - induction 1 as [|d d' _ IH Hstep]; [constructor|].
    exact (writes_trans_refs _ _ IH (step_writes _ _ Hstep)).
  - intros e order t amount slip d Hin.
    unfold verify_payment_slip. cbv zeta.
    rewrite (trans_ref_exists_In _ _ Hin).
    destruct (order_exists_unverified order d); cbn [negb];
      eexists; (split; [reflexivity|]); auto.
  - intros profiles r tbl tbl' H.
    destruct (Orders_insert_writes _ _ _ _ H) as [_ Hk].
    apply Orders_keys_Ok in Hk. now apply unique_NoDup.
  - intros profiles now where_ set tbl tbl' H.
    destruct (Orders_update_writes _ _ _ _ _ _ H) as [_ Hk].
    apply Orders_keys_Ok in Hk. now apply unique_NoDup.
Qed.

Lemma paid_order_carries_reference :
  In (Some "TX-0001") (map Orders.trans_ref (orders shop_with_paid_order)).
Proof. vm_compute. left. reflexivity. Qed.

(** C4 at work, on the shop whose order has been paid with TX-0001. *)
Lemma trans_ref_carried_by_one_order_witness :
  NoDup (trans_refs shop_with_paid_order)
  /\ exists code,
       verify_payment_slip (engine 5 "") (Some "order-9") (Some "TX-0001")
         (Some 27000) (Some "slip-1.png") shop_with_paid_order
       = Ok (failure (JString code), shop_with_paid_order)
       /\ ((order_exists_unverified (Some "order-9") shop_with_paid_order = true
            /\ code = "DUPLICATE_TRANSACTION_REFERENCE")
           \/ (order_exists_unverified (Some "order-9") shop_with_paid_order
               = false
               /\ code = "ORDER_NOT_FOUND_OR_ALREADY_VERIFIED")).
Proof.
  exact (conj
           (proj1 trans_ref_carried_by_one_order _
              reachable_shop_with_paid_order)
           (proj1 (proj2 trans_ref_carried_by_one_order) (engine 5 "")
              (Some "order-9") "TX-0001" (Some 27000) (Some "slip-1.png")
              shop_with_paid_order paid_order_carries_reference)).
Defined.

(** C4 (as stated) fails: an order carries TX-0001, and
    [verify_payment_slip] called with TX-0001 for that order answers
    ORDER_NOT_FOUND_OR_ALREADY_VERIFIED, not
    DUPLICATE_TRANSACTION_REFERENCE. *)
Lemma reused_reference_on_verified_order :
  In (Some "TX-0001") (map Orders.trans_ref (orders shop_with_paid_order))
  /\ verify_payment_slip (engine 5 "") (Some "order-1") (Some "TX-0001")
       (Some 27000) (Some "slip-1.png") shop_with_paid_order
     = Ok (failure (JString "ORDER_NOT_FOUND_OR_ALREADY_VERIFIED"),
           shop_with_paid_order)
  /\ JString "ORDER_NOT_FOUND_OR_ALREADY_VERIFIED"
     <> JString "DUPLICATE_TRANSACTION_REFERENCE".
Proof.
  split; [exact paid_order_carries_reference|].
  split; [vm_compute; reflexivity | discriminate].
Qed.

(** ** Updates of one order *)

Lemma stored_order_modified o st slip ref tv va ua :
  stored Orders.accept o ->
  In st Orders.statuses ->
  (forall s, ref = Some s -> (String.length s <= 100)%nat) ->
  stored Orders.accept
    {| Orders.id := Orders.id o; Orders.user_id := Orders.user_id o;
       Orders.order_number := Orders.order_number o;
       Orders.total_price := Orders.total_price o;
       Orders.shipping_fee := Orders.shipping_fee o;
       Orders.shipping_address := Orders.shipping_address o;
       Orders.shipping_coordinates := Orders.shipping_coordinates o;
       Orders.status := Some st;
       Orders.payment_slip_url := slip; Orders.trans_ref := ref;
       Orders.thunder_verified := tv; Orders.verified_at := va;
       Orders.created_at := Orders.created_at o; Orders.updated_at := ua |}.
Proof.
  intros H Hst Href.
  pose proof (Orders_accept_Ok _ _ H) as
    (_ & _ & Hn & _ & _ & _ & Hc & _ & _ & _ & _ & _ & _ & _
     & (t & Ht & Ht0 & Ht1) & (f & Hf & Hf1) & _ & (i & Hi) & (n & Hnum)
     & (a & Ha)).
  rewrite Hnum in Hn. apply varchar_Ok_length in Hn.
  rewrite Hi, Hnum, Ht, Hf, Ha.
  apply Orders_accept_intro; auto.
Qed.

Lemma stored_order_with_status now st o :
  stored Orders.accept o -> In st Orders.statuses ->
  stored Orders.accept
    (Orders.set_updated_at (Some now) (Orders.set_status (Some st) o)).
Proof.
  intros H Hst.
  pose proof (Orders_accept_Ok _ _ H) as
    (_ & _ & _ & _ & _ & _ & _ & _ & _ & Href & _).
  apply (stored_order_modified o st (Orders.payment_slip_url o)
           (Orders.trans_ref o) (Orders.thunder_verified o)
           (Orders.verified_at o) (Some now) H Hst).
  intros s Hs. rewrite Hs in Href. exact (varchar_Ok_length _ _ _ Href).
Qed.

(** An update that every selected row passes, and that leaves the keys
    distinct, rewrites the selected rows in place. *)
Lemma Orders_update_rewrites profiles now where_ set tbl :
  Orders.keys profiles tbl = Ok tt ->
  (forall r, In r tbl -> where_ r = true ->
     stored Orders.accept (Orders.set_updated_at (Some now) (set r))) ->
  (forall r, Orders.id (set r) = Orders.id r
             /\ Orders.order_number (set r) = Orders.order_number r
             /\ Orders.user_id (set r) = Orders.user_id r) ->
  unique (map Orders.trans_ref
            (map (fun r => if where_ r
                           then Orders.set_updated_at (Some now) (set r)
                           else r) tbl)) = true ->
  Orders.update profiles now where_ set tbl
  = Ok (map (fun r => if where_ r
                      then Orders.set_updated_at (Some now) (set r)
                      else r) tbl).
Proof.
  intros Hk Hacc Hset Hrefs. unfold Orders.update.
  rewrite (update_rows_intro Orders.accept where_
             (fun r => Orders.set_updated_at (Some now) (set r)) tbl Hacc).
  cbn [bind].
  set (f := fun r => if where_ r then Orders.set_updated_at (Some now) (set r)
                     else r) in *.
  assert (Hsame : forall r,
             Orders.id (f r) = Orders.id r
             /\ Orders.order_number (f r) = Orders.order_number r
             /\ Orders.user_id (f r) = Orders.user_id r).
  { intros r. unfold f. destruct (where_ r); [|auto]. exact (Hset r). }
  apply Orders_keys_Ok in Hk. destruct Hk as (H1 & H2 & H3 & H4).
  rewrite Orders_keys_intro; [reflexivity | | | assumption |].
  - rewrite map_map. erewrite map_ext; [exact H1|]. intros r. apply Hsame.
  - rewrite map_map. erewrite map_ext; [exact H2|]. intros r. apply Hsame.
  - rewrite forallb_forall in *. intros r' Hr'. apply in_map_iff in Hr'.
    destruct Hr' as [r [<- Hr]].
    destruct (Hsame r) as (_ & _ & ->). now apply H4.
Qed.

Lemma Orders_update_in_place profiles now where_ set tbl :
  Orders.keys profiles tbl = Ok tt ->
  (forall r, In r tbl -> where_ r = true ->
     stored Orders.accept (Orders.set_updated_at (Some now) (set r))) ->
  (forall r, Orders.id (set r) = Orders.id r
             /\ Orders.order_number (set r) = Orders.order_number r
             /\ Orders.trans_ref (set r) = Orders.trans_ref r
             /\ Orders.user_id (set r) = Orders.user_id r) ->
  Orders.update profiles now where_ set tbl
  = Ok (map (fun r => if where_ r
                      then Orders.set_updated_at (Some now) (set r)
                      else r) tbl).
Proof.
  intros Hk Hacc Hset. apply Orders_update_rewrites; auto.
  - intros r. destruct (Hset r) as (? & ? & ? & ?). auto.
  - apply Orders_keys_Ok in Hk. destruct Hk as (_ & _ & H3 & _).
    rewrite map_map. erewrite map_ext; [exact H3|].
    intros r. simpl. destruct (where_ r); [|reflexivity].
    destruct (Hset r) as (_ & _ & Hr & _). destruct (set r); exact Hr.
Qed.

Lemma update_rows_refused {R} (accept : R -> result R) where_ set tbl e :
  (forall r, In r tbl -> where_ r = true -> accept (set r) = Raise e) ->
  existsb where_ tbl = true ->
  update_rows accept where_ set tbl = Raise e.
Proof.
  induction tbl as [|r tbl IH]; simpl; intros Hall Hex; [discriminate|].
  destruct (where_ r) eqn:Hw.
  - rewrite (Hall r) by auto. reflexivity.
  - simpl in Hex. simpl. rewrite IH; auto.
Qed.

Lemma status_outside_refused now text o :
  stored Orders.accept o ->
  ~ In text Orders.statuses -> (String.length text <= 20)%nat ->
  Orders.accept (Orders.set_updated_at (Some now)
                   (Orders.set_status (Some text) o))
  = Raise (check_violation "orders" "orders_status_check").
Proof.
  intros H Hout Hlen.
  pose proof (Orders_accept_Ok _ _ H) as
    (_ & _ & Hn & _ & _ & _ & Hc & _ & _ & Href & _ & _ & _ & _
     & (t & Ht & Ht0 & Ht1) & (f & Hf & Hf1) & _ & (i & Hi) & (n & Hnum)
     & (a & Ha)).
  unfold Orders.accept. simpl.
  rewrite Hn, Ht, Hf, Hi, Hnum, Ha, Href, Hc. cbn [bind].
  rewrite !decimal_10_2_fits by assumption. cbn [bind].
  rewrite (varchar_fits _ _ Hlen). cbn [bind].
  unfold not_null, check, sql_ge, sql_in_text. simpl is_null. cbn [negb assert bind].
  apply Z.leb_le in Ht0. rewrite Ht0. cbn [check_passes assert bind].
  destruct (existsb (String.eqb text) Orders.statuses) eqn:E; [|reflexivity].
  apply existsb_eqb_In in E. contradiction.
Qed.

(** ** The order store *)

Lemma status_text_in_statuses status : In (status_text status) Orders.statuses.
Proof.
  destruct status; simpl; auto 10.
Qed.

Lemma update_order_status_Ok e orderId status d :
  Forall (stored Orders.accept) (orders d) ->
  Orders.keys (profiles d) (orders d) = Ok tt ->
  In status Orders.statuses ->
  update_order_status e orderId status d
  = Ok (with_orders (orders_with_status (NOW e) orderId status (orders d)) d).
Proof.
  intros Hstored Hkeys Hst. unfold update_order_status.
  rewrite Orders_update_in_place; [reflexivity | assumption | | ].
  - intros r Hr _. rewrite Forall_forall in Hstored.
    apply stored_order_with_status; auto.
  - intros r. destruct r; simpl; auto.
Qed.

Lemma orders_with_status_row now orderId status tbl o' :
  In o' (orders_with_status now orderId status tbl) ->
  Orders.id o' = Some orderId ->
  Orders.status o' = Some status.
Proof.
  unfold orders_with_status. intros Hin Hid. apply in_map_iff in Hin.
  destruct Hin as [r [<- Hr]].
  destruct (has_id orderId r) eqn:Hhas; [reflexivity|].
  unfold has_id in Hhas. rewrite Hid in Hhas. simpl in Hhas.
  rewrite String.eqb_refl in Hhas. discriminate.
Qed.

(** C7. In a database that satisfies the schema, for every order and each
    of the seven values of [OrderStatus], [updateOrderStatus] resolves and
    leaves the order with that status, whatever its status was; the other
    orders are untouched.  A status outside the seven is refused by the
    CHECK constraint of [orders.status], the one constraint on that
    column. *)
Theorem updateOrderStatus_sets_any_status :
  forall e orderId status s d o,
    schema_ok d -> In o (orders d) -> Orders.id o = Some orderId ->
    let d' :=
      with_orders
        (orders_with_status (NOW e) orderId (status_text status) (orders d)) d in
    (exists s', updateOrderStatus e orderId status s d = (Resolved tt, s', d'))
    /\ In (Orders.set_updated_at (Some (NOW e))
             (Orders.set_status (Some (status_text status)) o)) (orders d')
    /\ (forall o', In o' (orders d') -> Orders.id o' = Some orderId ->
          Orders.status o' = Some (status_text status))
    /\ (forall r, In r (orders d) -> Orders.id r <> Some orderId ->
          In r (orders d'))
    /\ (forall text, ~ In text Orders.statuses ->
          (String.length text <= 20)%nat ->
          update_order_status e orderId text d
          = Raise (check_violation "orders" "orders_status_check")).
Proof.
  intros e orderId status s d o Hd Ho Hid d'.
  assert (Hhas : has_id orderId o = true).
  { unfold has_id. rewrite Hid. simpl. now rewrite String.eqb_refl. }
  split; [|split; [|split; [|split]]].
  - unfold updateOrderStatus.
    rewrite (update_order_status_Ok e orderId _ d (orders_stored d Hd)
               (orders_keys d Hd) (status_text_in_statuses status)).
    eexists. reflexivity.
  - unfold d'. simpl. unfold orders_with_status. apply in_map_iff.
    exists o. rewrite Hhas. auto.
  - intros o' Ho'. exact (orders_with_status_row _ _ _ _ _ Ho').
  - intros r Hr Hne. unfold d'. simpl. unfold orders_with_status.
    apply in_map_iff. exists r. split; [|assumption].
    destruct (has_id orderId r) eqn:E; [|reflexivity].
    exfalso. apply Hne. unfold has_id in E.
    destruct (Orders.id r) as [i|]; simpl in E; [|discriminate].
    destruct (String.eqb_spec i orderId); [now subst | discriminate].
  - intros text Hout Hlen. unfold update_order_status, Orders.update.
    destruct Hd as [_ _ Hstored _ _]. rewrite Forall_forall in Hstored.
    rewrite (update_rows_refused Orders.accept (has_id orderId)
               (fun r => Orders.set_updated_at (Some (NOW e))
                           (Orders.set_status (Some text) r))
               (orders d) (check_violation "orders" "orders_status_check")).
    + reflexivity.
    + intros r Hr _. apply status_outside_refused; auto.
    + apply existsb_exists. exists o. auto.
Qed.

Lemma first_order_in_shop : In first_order (orders shop_with_order).
Proof. vm_compute. left. reflexivity. Qed.

(** C7 at work: the pending order of the shop is marked delivered. *)
Lemma updateOrderStatus_sets_any_status_witness :
  let d' :=
    with_orders
      (orders_with_status (NOW (engine 6 "")) "order-1" (status_text delivered)
         (orders shop_with_order)) shop_with_order in
  (exists s', updateOrderStatus (engine 6 "") "order-1" delivered empty_store
                shop_with_order = (Resolved tt, s', d'))
  /\ In (Orders.set_updated_at (Some (NOW (engine 6 "")))
           (Orders.set_status (Some (status_text delivered)) first_order))
        (orders d')
  /\ (forall o', In o' (orders d') -> Orders.id o' = Some "order-1" ->
        Orders.status o' = Some (status_text delivered))
  /\ (forall r, In r (orders shop_with_order) ->
        Orders.id r <> Some "order-1" -> In r (orders d'))
  /\ (forall text, ~ In text Orders.statuses ->
        (String.length text <= 20)%nat ->
        update_order_status (engine 6 "") "order-1" text shop_with_order
        = Raise (check_violation "orders" "orders_status_check")).
Proof.
  exact (updateOrderStatus_sets_any_status (engine 6 "") "order-1" delivered
           empty_store shop_with_order first_order
           (reachable_schema_ok _ reachable_shop_with_order)
           first_order_in_shop eq_refl).
Defined.

(** ** Payment verification *)

Lemma has_id_true orderId r :
  has_id orderId r = true <-> Orders.id r = Some orderId.
Proof.
  unfold has_id. destruct (Orders.id r) as [i|]; simpl.
  - destruct (String.eqb_spec i orderId); split; intros H;
      try discriminate; try congruence.
  - split; discriminate.
Qed.

Lemma orders_verified_refs now orderId t slip tbl x :
  In x (non_null (map Orders.trans_ref (orders_verified now orderId t slip tbl))) ->
  x = t \/ In x (non_null (map Orders.trans_ref tbl)).
Proof.
  induction tbl as [|r tbl IH]; simpl; [tauto|].
  destruct (has_id orderId r); simpl.
  - intros [H|H]; [now left|].
    destruct (IH H) as [->|Hin]; [now left|right].
    destruct (Orders.trans_ref r); simpl; auto.
  - destruct (Orders.trans_ref r) as [s|]; simpl.
    + intros [H|H]; [right; now left|].
      destruct (IH H) as [->|Hin]; [now left | right; now right].
    + exact IH.
Qed.

Lemma orders_verified_elsewhere now orderId t slip tbl :
  ~ In orderId (non_null (map Orders.id tbl)) ->
  orders_verified now orderId t slip tbl = tbl.
Proof.
  intros Hnot. unfold orders_verified.
  rewrite <- (map_id tbl) at 2. apply map_ext_in. intros r Hr.
  destruct (has_id orderId r) eqn:E; [|reflexivity].
  exfalso. apply Hnot. apply has_id_true in E.
  apply In_non_null. rewrite <- E. now apply in_map.
Qed.

Lemma orders_verified_distinct now orderId t slip tbl :
  NoDup (non_null (map Orders.id tbl)) ->
  NoDup (non_null (map Orders.trans_ref tbl)) ->
  ~ In t (non_null (map Orders.trans_ref tbl)) ->
  NoDup (non_null (map Orders.trans_ref (orders_verified now orderId t slip tbl))).
Proof.
  induction tbl as [|r tbl IH]; simpl; intros Hids Hrefs Hnew; [constructor|].
  destruct (has_id orderId r) eqn:Hhas.
  - apply has_id_true in Hhas. rewrite Hhas in Hids. simpl in Hids.
    inversion Hids as [|? ? Hnotin Hids']; subst.
    fold (orders_verified now orderId t slip tbl).
    rewrite (orders_verified_elsewhere _ _ _ _ _ Hnotin). simpl.
    destruct (Orders.trans_ref r) as [s|]; simpl in *.
    + inversion Hrefs; subst. constructor; auto.
    + constructor; auto.
  - fold (orders_verified now orderId t slip tbl).
    assert (Hids' : NoDup (non_null (map Orders.id tbl))).
    { destruct (Orders.id r); simpl in Hids; [now inversion Hids | assumption]. }
    destruct (Orders.trans_ref r) as [s|]; simpl in *.
    + inversion Hrefs as [|? ? Hs Hrefs']; subst.
      constructor; [|apply IH; auto].
      intros Hin. apply orders_verified_refs in Hin.
      destruct Hin as [->|Hin]; [apply Hnew; now left | contradiction].
    + apply IH; auto.
Qed.

Lemma payment_verified_logged profiles e order ref amount logs :
  ActivityLogs.insert profiles (payment_verified_log e order ref amount) logs
  = Ok (logs ++ [payment_verified_log e order ref amount])%list.
Proof. reflexivity. Qed.

Lemma order_exists_unverified_intro orderId d o :
  In o (orders d) -> Orders.id o = Some orderId -> Orders.trans_ref o = None ->
  order_exists_unverified (Some orderId) d = true.
Proof.
  intros Ho Hid Href. unfold order_exists_unverified.
  apply existsb_exists. exists o. split; [assumption|].
  rewrite Hid, Href. simpl. now rewrite String.eqb_refl.
Qed.

Lemma trans_ref_exists_false t d :
  ~ In (Some t) (map Orders.trans_ref (orders d)) ->
  trans_ref_exists (Some t) d = false.
Proof.
  intros Hnot. unfold trans_ref_exists.
  destruct (existsb _ (orders d)) eqn:E; [|reflexivity].
  exfalso. apply Hnot. apply existsb_exists in E. destruct E as [o [Ho Heq]].
  apply in_map_iff. exists o. split; [|assumption].
  destruct (Orders.trans_ref o) as [s|]; simpl in Heq; [|discriminate].
  destruct (String.eqb_spec s t); [now subst | discriminate].
Qed.

Lemma verify_payment_slip_verifies e orderId t amount slip d o :
  schema_ok d ->
  In o (orders d) -> Orders.id o = Some orderId -> Orders.trans_ref o = None ->
  t <> "" -> (String.length t <= 100)%nat ->
  ~ In (Some t) (map Orders.trans_ref (orders d)) ->
  verify_payment_slip e (Some orderId) (Some t) amount slip d
  = Ok (payment_verified (Some orderId),
        with_activity_logs
          (activity_logs d
           ++ [payment_verified_log e (Some orderId) (Some t) amount])%list
          (with_orders (orders_verified (NOW e) orderId t slip (orders d)) d)).
Proof.
  intros [_ _ Hstored Hkeys _] Ho Hid Href Ht Hlen Hnew.
  unfold verify_payment_slip. cbv zeta.
  rewrite (order_exists_unverified_intro _ _ _ Ho Hid Href). cbn [negb].
  rewrite (trans_ref_exists_false _ _ Hnew).
  assert (Hinv : invalid_trans_ref (Some t) = false).
  { unfold invalid_trans_ref. simpl.
    destruct (String.eqb_spec t ""); [contradiction | reflexivity]. }
  assert (Hs : is_true (sql_eq_text
                 (json_get_text (thunder_response e (Some t) amount) "status")
                 (Some "success")) = true)
    by (unfold thunder_response; rewrite Hinv; reflexivity).
  rewrite Hs.
  change (fun o0 => is_true (sql_eq_text (Orders.id o0) (Some orderId)))
    with (has_id orderId).
  rewrite Forall_forall in Hstored.
  rewrite (Orders_update_rewrites (profiles d) (NOW e) (has_id orderId)
             (Orders.set_verified (Some t) slip (NOW e)) (orders d) Hkeys).
  - cbn [bind]. rewrite payment_verified_logged. reflexivity.
  - intros r Hr _.
    apply (stored_order_modified r "paid" slip (Some t) (Some true)
             (Some (NOW e)) (Some (NOW e)) (Hstored r Hr)).
    + simpl. auto.
    + intros s Hs'. inversion Hs'; subst. assumption.
  - intros r. destruct r; simpl; auto.
  - apply unique_NoDup. apply Orders_keys_Ok in Hkeys.
    destruct Hkeys as (Hids & _ & Hrefs & _).
    apply (orders_verified_distinct (NOW e) orderId t slip (orders d)).
    + now apply unique_NoDup.
    + now apply unique_NoDup.
    + intros Hin. apply Hnew. now apply In_non_null.
Qed.

Lemma unique_key_row {R} (key : R -> option string) tbl r o i :
  NoDup (non_null (map key tbl)) ->
  In r tbl -> In o tbl -> key r = Some i -> key o = Some i -> r = o.
Proof.
  induction tbl as [|x tbl IH]; simpl; intros Hnd Hr Ho Hri Hoi; [contradiction|].
  assert (Hin : forall y, In y tbl -> key y = Some i ->
                          In i (non_null (map key tbl))).
  { intros y Hy Hyi. apply In_non_null. rewrite <- Hyi. now apply in_map. }
  destruct Hr as [->|Hr], Ho as [->|Ho]; auto.
  - rewrite Hri in Hnd. simpl in Hnd. inversion Hnd; subst. exfalso. eauto.
  - rewrite Hoi in Hnd. simpl in Hnd. inversion Hnd; subst. exfalso. eauto.
  - apply IH; auto.
    destruct (key x); simpl in Hnd; [now inversion Hnd | assumption].
Qed.

Lemma primary_key_row tbl r o i :
  NoDup (non_null (map Orders.id tbl)) ->
  In r tbl -> In o tbl -> Orders.id r = Some i -> Orders.id o = Some i ->
  r = o.
Proof. apply (unique_key_row Orders.id). Qed.

Lemma order_exists_unverified_false orderId d :
  (forall o, In o (orders d) -> Orders.id o = Some orderId ->
             Orders.trans_ref o <> None) ->
  order_exists_unverified (Some orderId) d = false.
Proof.
  intros H. unfold order_exists_unverified.
  destruct (existsb _ (orders d)) eqn:E; [|reflexivity].
  apply existsb_exists in E. destruct E as [o [Ho Hb]].
  apply andb_true_iff in Hb. destruct Hb as [Hid Hnull].
  apply (has_id_true orderId o) in Hid.
  exfalso. apply (H o Ho Hid).
  destruct (Orders.trans_ref o); [discriminate | reflexivity].
Qed.

(** C6 (as amended). In a database that satisfies the schema, for every
    order whose [trans_ref] is NULL and every non-empty [p_trans_ref] of at
    most 100 characters that no order carries, [verify_payment_slip]
    returns success = true and updates exactly that order: its status
    becomes 'paid', its [trans_ref] the given reference, [thunder_verified]
    true, [payment_slip_url] the given URL and [verified_at] the time of the
    call, while every other order row is unchanged.  For an order that does
    not exist or already has a [trans_ref] it returns success = false with
    the error ORDER_NOT_FOUND_OR_ALREADY_VERIFIED and changes nothing. *)
Theorem verify_payment_slip_marks_order_paid :
  (forall e orderId t amount slip d o,
      schema_ok d ->
      In o (orders d) -> Orders.id o = Some orderId ->
      Orders.trans_ref o = None ->
      t <> "" -> (String.length t <= 100)%nat ->
      ~ In (Some t) (map Orders.trans_ref (orders d)) ->
      let paid := verified_order (NOW e) t slip o in
      let orders' := orders_verified (NOW e) orderId t slip (orders d) in
      verify_payment_slip e (Some orderId) (Some t) amount slip d
      = Ok (payment_verified (Some orderId),
            with_activity_logs
              (activity_logs d
               ++ [payment_verified_log e (Some orderId) (Some t) amount])%list
              (with_orders orders' d))
      /\ json_get (payment_verified (Some orderId)) "success"
         = Some (JBool true)
      /\ Orders.status paid = Some "paid"
      /\ Orders.trans_ref paid = Some t
      /\ Orders.thunder_verified paid = Some true
      /\ Orders.payment_slip_url paid = slip
      /\ Orders.verified_at paid = Some (NOW e)
      /\ In paid orders'
      /\ (forall r', In r' orders' ->
            r' = paid \/ (In r' (orders d) /\ Orders.id r' <> Some orderId))
      /\ (forall r, In r (orders d) -> Orders.id r <> Some orderId ->
            In r orders'))
  /\ (forall e orderId ref amount slip d,
         (forall o, In o (orders d) -> Orders.id o = Some orderId ->
                    Orders.trans_ref o <> None) ->
         verify_payment_slip e (Some orderId) ref amount slip d
         = Ok (failure (JString "ORDER_NOT_FOUND_OR_ALREADY_VERIFIED"), d)).
Proof.
  split.
  - intros e orderId t amount slip d o Hd Ho Hid Href Ht Hlen Hnew paid orders'.
    split; [exact (verify_payment_slip_verifies e orderId t amount slip d o
                     Hd Ho Hid Href Ht Hlen Hnew)|].
    do 6 (split; [reflexivity|]).
    assert (Hhas : has_id orderId o = true) by now apply has_id_true.
    split; [|split].
    + unfold orders', orders_verified. apply in_map_iff. exists o.
      rewrite Hhas. auto.
    + intros r' Hr'. unfold orders', orders_verified in Hr'.
      apply in_map_iff in Hr'. destruct Hr' as [r [Hr Hin]].
      destruct (has_id orderId r) eqn:E.
      * left. apply has_id_true in E.
        destruct Hd as [_ _ _ Hkeys _]. apply Orders_keys_Ok in Hkeys.
        destruct Hkeys as (Hids & _). apply unique_NoDup in Hids.
        rewrite (primary_key_row _ _ _ _ Hids Hin Ho E Hid) in Hr.
        now subst.
      * right. subst r'. split; [assumption|].
        intros Hid'. apply has_id_true in Hid'. congruence.
    + intros r Hr Hne. unfold orders', orders_verified. apply in_map_iff.
      exists r. split; [|assumption].
      destruct (has_id orderId r) eqn:E; [|reflexivity].
      apply has_id_true in E. contradiction.
  - intros e orderId ref amount slip d H.
    unfold verify_payment_slip. cbv zeta.
    rewrite (order_exists_unverified_false _ _ H). reflexivity.
Qed.

Lemma reference_not_carried :
  ~ In (Some "TX-0001") (map Orders.trans_ref (orders shop_with_order)).
Proof.
  vm_compute. intros [H|[]]. discriminate H.
Qed.

Lemma reference_not_empty : "TX-0001" <> "".
Proof. discriminate. Qed.

Lemma reference_fits : (String.length "TX-0001" <= 100)%nat.
Proof. simpl. lia. Qed.

(** C6 at work: the pending order of the shop is paid with TX-0001. *)
Lemma verify_payment_slip_marks_order_paid_witness :
  verify_payment_slip (engine 2 "") (Some "order-1") (Some "TX-0001")
    (Some 27000) (Some "slip-1.png") shop_with_order
  = Ok (payment_verified (Some "order-1"),
        with_activity_logs
          (activity_logs shop_with_order
           ++ [payment_verified_log (engine 2 "") (Some "order-1")
                 (Some "TX-0001") (Some 27000)])%list
          (with_orders
             (orders_verified (NOW (engine 2 "")) "order-1" "TX-0001"
                (Some "slip-1.png") (orders shop_with_order))
             shop_with_order)).
Proof.
  exact (proj1
           (proj1 verify_payment_slip_marks_order_paid (engine 2 "") "order-1"
              "TX-0001" (Some 27000) (Some "slip-1.png") shop_with_order
              first_order
              (reachable_schema_ok _ reachable_shop_with_order)
              first_order_in_shop eq_refl eq_refl
              reference_not_empty reference_fits
              reference_not_carried)).
Defined.

(** C6 (as stated) fails: the order exists with no [trans_ref], the
    reference is not empty and no order carries it, and yet
    [verify_payment_slip] returns no object at all: the reference has 101
    characters and the UPDATE is refused for [trans_ref VARCHAR(100)]. *)
Lemma long_reference_refused :
  In first_order (orders shop_with_order)
  /\ Orders.id first_order = Some "order-1"
  /\ Orders.trans_ref first_order = None
  /\ long_reference <> ""
  /\ trans_ref_exists (Some long_reference) shop_with_order = false
  /\ verify_payment_slip (engine 2 "") (Some "order-1") (Some long_reference)
       (Some 27000) (Some "slip-1.png") shop_with_order
     = Raise (string_data_right_truncation 100).
Proof.
  split; [exact first_order_in_shop|].
  split; [reflexivity|]. split; [reflexivity|].
  split; [discriminate|].
  split; vm_compute; reflexivity.
Qed.

(** ** Cancelling an order *)

Lemma sql_eq_text_sym a b : sql_eq_text a b = sql_eq_text b a.
Proof.
  destruct a, b; simpl; auto. now rewrite String.eqb_sym.
Qed.



Lemma filter_no_such_order orderId tbl :
  ~ In orderId (non_null (map Orders.id tbl)) ->
  filter (has_id orderId) tbl = [].
Proof.
  induction tbl as [|x tbl IH]; simpl; intros Hnot; [reflexivity|].
  destruct (has_id orderId x) eqn:E.
  - apply has_id_true in E. rewrite E in Hnot. simpl in Hnot. tauto.
  - apply IH. intros Hin. apply Hnot.
    destruct (Orders.id x); simpl; auto.
Qed.

Lemma filter_primary_key orderId tbl o :
  NoDup (non_null (map Orders.id tbl)) ->
  In o tbl -> Orders.id o = Some orderId ->
  filter (has_id orderId) tbl = [o].
Proof.
  induction tbl as [|x tbl IH]; simpl; intros Hnd Ho Hid; [contradiction|].
  destruct (has_id orderId x) eqn:E.
  - apply has_id_true in E.
    assert (x = o).
    { apply (primary_key_row (x :: tbl) x o orderId); simpl; auto. }
    subst x. rewrite Hid in Hnd. simpl in Hnd. inversion Hnd; subst.
    rewrite filter_no_such_order by assumption. reflexivity.
  - destruct Ho as [->|Ho].
    + apply has_id_true in Hid. congruence.
    + apply IH; auto.
      destruct (Orders.id x); simpl in Hnd; [now inversion Hnd | assumption].
Qed.

(** C9. In a database that satisfies the schema, [cancelOrder] on an order
    whose status is not 'pending' rejects and leaves the database, hence
    the order's status and every stock, as it was.  On a pending order it
    resolves and the order has the status 'cancelled', but the stock is not
    given back: every call of [increment_product_stock] made for an item of
    the order fails, and the table [products] is as it was. *)
Theorem cancelOrder_stock_not_restored :
  forall e orderId s d o,
    schema_ok d -> In o (orders d) -> Orders.id o = Some orderId ->
    (Orders.status o <> Some "pending" ->
     exists s',
       cancelOrder e orderId s d
       = (Rejected (Error "Cannot cancel order in current status"), s', d))
    /\ (Orders.status o = Some "pending" ->
        let d' :=
          with_orders
            (orders_with_status (NOW e) orderId "cancelled" (orders d)) d in
        (exists s', cancelOrder e orderId s d = (Resolved tt, s', d'))
        /\ In (Orders.set_updated_at (Some (NOW e))
                 (Orders.set_status (Some "cancelled") o)) (orders d')
        /\ (forall item, In item (items_of orderId d) ->
              exists err,
                increment_product_stock e (OrderItems.product_id item)
                  (OrderItems.quantity item) d = Raise err)
        /\ products d' = products d).
Proof.
  intros e orderId s d o Hd Ho Hid.
  assert (Hfilter : filter (has_id orderId) (orders d) = [o]).
  { apply filter_primary_key; auto.
    destruct (Orders_keys_Ok _ _ (orders_keys d Hd)) as (Hids & _).
    now apply unique_NoDup. }
  split.
  - intros Hst. unfold cancelOrder. rewrite Hfilter.
    destruct (Orders.status o) as [st|] eqn:E; simpl.
    + destruct (String.eqb_spec st "pending"); [subst; contradiction|].
      simpl. eexists. reflexivity.
    + eexists. reflexivity.
  - intros Hst d'. split; [|split; [|split]].
    + unfold cancelOrder. rewrite Hfilter, Hst. cbn [String.eqb negb].
      replace (String.eqb "pending" "pending") with true by reflexivity.
      cbn [negb]. rewrite restore_stock_nothing.
      rewrite update_order_status_Ok.
      * eexists. reflexivity.
      * exact (orders_stored d Hd).
      * exact (orders_keys d Hd).
      * simpl. auto 10.
    + unfold d'. simpl. unfold orders_with_status. apply in_map_iff.
      exists o. split; [|assumption].
      apply has_id_true in Hid. now rewrite Hid.
    + intros item _. apply increment_product_stock_fails.
    + reflexivity.
Qed.

Lemma paid_order_in_shop : In paid_order (orders shop_with_paid_order).
Proof. vm_compute. left. reflexivity. Qed.

Lemma paid_order_not_pending : Orders.status paid_order <> Some "pending".
Proof. discriminate. Qed.

(** C9 at work: the pending order of the shop is cancelled and the table
    [products] stays as the order left it; once paid, the order cannot be
    cancelled. *)
Lemma cancelOrder_stock_not_restored_witness :
  (let d' :=
     with_orders
       (orders_with_status (NOW (engine 7 "")) "order-1" "cancelled"
          (orders shop_with_order))
       shop_with_order in
   (exists s', cancelOrder (engine 7 "") "order-1" empty_store shop_with_order
               = (Resolved tt, s', d'))
   /\ In (Orders.set_updated_at (Some (NOW (engine 7 "")))
            (Orders.set_status (Some "cancelled") first_order)) (orders d')
   /\ (forall item, In item (items_of "order-1" shop_with_order) ->
         exists err,
           increment_product_stock (engine 7 "") (OrderItems.product_id item)
             (OrderItems.quantity item) shop_with_order = Raise err)
   /\ products d' = products shop_with_order)
  /\ (exists s',
        cancelOrder (engine 7 "") "order-1" empty_store shop_with_paid_order
        = (Rejected (Error "Cannot cancel order in current status"), s',
           shop_with_paid_order)).
Proof.
  exact (conj
           (proj2
              (cancelOrder_stock_not_restored (engine 7 "") "order-1"
                 empty_store shop_with_order first_order
                 (reachable_schema_ok _ reachable_shop_with_order)
                 first_order_in_shop eq_refl)
              eq_refl)
           (proj1
              (cancelOrder_stock_not_restored (engine 7 "") "order-1"
                 empty_store shop_with_paid_order paid_order
                 (reachable_schema_ok _ reachable_shop_with_paid_order)
                 paid_order_in_shop eq_refl)
              paid_order_not_pending)).
Defined.

(** The same run in numbers: the shop had five boxes of tea, the order took
    two, and after the order is cancelled the stock is still three. *)
Lemma cancelled_order_stock :
  map Products.stock (products shop) = [Some 5]
  /\ map OrderItems.quantity (items_of "order-1" shop_with_order) = [Some 2]
  /\ map Products.stock (products shop_with_order) = [Some 3]
  /\ map Orders.status
       (orders (snd (cancelOrder (engine 7 "") "order-1" empty_store
                       shop_with_order)))
     = [Some "cancelled"]
  /\ map Products.stock
       (products (snd (cancelOrder (engine 7 "") "order-1" empty_store
                         shop_with_order)))
     = [Some 3].
Proof. vm_compute. repeat split; reflexivity. Qed.

(** ** The stock *)

Lemma validate_and_update_stock_app now items1 items2 tbl :
  validate_and_update_stock now (items1 ++ items2) tbl
  = (tbl1 <- validate_and_update_stock now items1 tbl ;;
     validate_and_update_stock now items2 tbl1).
Proof.
  revert tbl. induction items1 as [|item items1 IH]; intros tbl; [reflexivity|].
  simpl. destruct (select_available_product _ tbl); [|reflexivity].
  destruct (is_true _); [reflexivity|].
  destruct (Products.update _ _ _ tbl); [|reflexivity].
  simpl. apply IH.
Qed.

Lemma cancelOrder_products e orderId s d :
  products (snd (cancelOrder e orderId s d)) = products d.
Proof.
  unfold cancelOrder.
  destruct (filter (has_id orderId) (orders d)) as [|order [|]];
    try reflexivity.
  destruct (negb _); [reflexivity|].
  rewrite restore_stock_nothing.
  destruct (update_order_status _ _ _ _) as [d2|] eqn:Hupd; [|reflexivity].
  unfold update_order_status in Hupd.
  destruct (Orders.update _ _ _ _ _); [|discriminate].
  simpl in Hupd. inversion Hupd; subst. reflexivity.
Qed.

(** C3. In every reachable state the stock of every product is a number
    that is not negative, and every statement preserves that: a row of
    [products] is only written when CHECK (stock >= 0) accepts it;
    [place_order_complete] takes an item out of the stock only after it has
    found the product's row with a stock that is not below the quantity; and
    [cancelOrder] leaves no stock lower than it was. *)
Theorem product_stock_never_negative :
  (forall d, reachable d -> stock_nonneg d)
  /\ (forall d d', stock_nonneg d -> step d d' -> stock_nonneg d')
  /\ (forall r r', Products.accept r = Ok r' ->
        exists s, Products.stock r' = Some s /\ 0 <= s)
  /\ (forall now items1 item items2 tbl tbl',
        validate_and_update_stock now (items1 ++ item :: items2) tbl = Ok tbl' ->
        exists tbl1 p,
          validate_and_update_stock now items1 tbl = Ok tbl1
          /\ select_available_product (Item.product_id item) tbl1 = Some p
          /\ is_true (sql_lt (Products.stock p) (Some (Item.quantity item)))
             = false)
  /\ (forall e orderId s d,
        schema_ok d ->
        exists f,
          products (snd (cancelOrder e orderId s d)) = map f (products d)
          /\ forall p, In p (products d) ->
               exists st st',
                 Products.stock p = Some st
                 /\ Products.stock (f p) = Some st' /\ st <= st').
Proof.
  split; [|split; [|split; [|split]]].
  - induction 1 as [|d d' _ IH Hstep].
    + intros p [].
    + exact (writes_stock_nonneg _ _ IH (step_writes _ _ Hstep)).
  - intros d d' Hd Hstep.
    exact (writes_stock_nonneg _ _ Hd (step_writes _ _ Hstep)).
  - intros r r' H. destruct (Products_accept_Ok _ _ H) as (-> & _ & _ & Hs).
    exact Hs.
  - intros now items1 item items2 tbl tbl' H.
    rewrite validate_and_update_stock_app in H.
    destruct (validate_and_update_stock now items1 tbl) as [tbl1|];
      [cbn [bind] in H | discriminate].
    exists tbl1. simpl in H.
    destruct (select_available_product _ tbl1) as [p|]; [|discriminate].
    exists p. destruct (is_true _); [discriminate|]. auto.
  - intros e orderId s d Hd.
    exists (fun p => p). rewrite map_id.
    split; [apply cancelOrder_products|].
    intros p Hp. pose proof (products_stored d Hd) as Hst.
    rewrite Forall_forall in Hst.
    destruct (stored_stock_nonneg _ (Hst p Hp)) as (st & Hs & _).
    exists st, st. repeat split; auto. lia.
Qed.

(** C3 at work, on the shop with its order. *)
Lemma product_stock_never_negative_witness : stock_nonneg shop_with_order.
Proof.
  exact (proj1 product_stock_never_negative shop_with_order
           reachable_shop_with_order).
Defined.

(** ** Placing an order *)

























Lemma activity_logged profiles r logs :
  ActivityLogs.accept r = Ok r ->
  references (ActivityLogs.user_id r) (map Profiles.id profiles) = true ->
  ActivityLogs.insert profiles r logs = Ok (logs ++ [r])%list.
Proof.
  intros Hr Huser. unfold ActivityLogs.insert, ActivityLogs.keys.
  rewrite Hr. cbn [bind]. rewrite Huser. reflexivity.
Qed.









Lemma order_error_logged e user message profiles logs :
  references user (map Profiles.id profiles) = true ->
  ActivityLogs.insert profiles (order_error_log e user message) logs
  = Ok (logs ++ [order_error_log e user message])%list.
Proof.
  intros H. apply activity_logged; [reflexivity | exact H].
Qed.

Lemma place_order_complete_refuses e user address coordinates total fee items
    slip ref d err :
  references user (map Profiles.id (profiles d)) = true ->
  place_order_block e user address coordinates total fee items slip ref d
  = Raise err ->
  place_order_complete e user address coordinates total fee items slip ref d
  = Ok (failure (JString (SQLERRM err)), order_refused e user (SQLERRM err) d).
Proof.
  intros Huser H. unfold place_order_complete. rewrite H.
  rewrite order_error_logged by assumption. reflexivity.
Qed.









(** The refusals in full.  Twice three boxes of the five: the second item
    finds the two boxes the first has left.  A line for shipping
    coordinates: the column [shipping_coordinates] takes points only. *)
Lemma three_teas_twice_refused :
  place_order_complete (engine 9 "order-5") (Some "customer-1")
    (Some "12 Main Road") None (Some 72000) (Some 3000) three_teas_twice None
    None shop
  = Ok (failure
          (JString
             "INSUFFICIENT_STOCK: Product tea has only 2 items in stock"),
        order_refused (engine 9 "order-5") (Some "customer-1")
          "INSUFFICIENT_STOCK: Product tea has only 2 items in stock" shop).
Proof. vm_compute. reflexivity. Qed.

Lemma street_refused :
  place_order_complete (engine 9 "order-5") (Some "customer-1")
    (Some "12 Main Road") (Some street) (Some 24000) (Some 3000) two_teas None
    None shop
  = Ok (failure
          (JString
             "Geometry type (LineString) does not match column type (Point)"),
        order_refused (engine 9 "order-5") (Some "customer-1")
          "Geometry type (LineString) does not match column type (Point)"
          shop).
Proof. vm_compute. reflexivity. Qed.


(* ================================================================== *)
(** * Further properties *)

(** ** The shipping fee function *)

(** X1. [calculate_shipping_distance] returns a fee, and the distance has
    no part in it: the result is 0 for a pickup or without coordinates of
    the customer, and otherwise the flat fee of the first row of
    [store_settings] (NULL when there is no row), whatever the coordinates
    of the store and whatever [ST_Distance] gives. *)
Theorem shipping_fee_ignores_distance :
  forall (geography : Type) (store_coordinates : StoreSettings.row -> option geography)
         (numeric : Type) (ST_Distance_km : geography -> geography -> option numeric)
         (numeric_zero : numeric) (numeric_le_zero : numeric -> bool)
         (customer_coordinates : option geography)
         (shipping_method : option string) (d : db),
    calculate_shipping_distance geography store_coordinates numeric
      ST_Distance_km numeric_zero numeric_le_zero customer_coordinates
      shipping_method d
    = if is_true (sql_eq_text shipping_method (Some "pickup"))
         || is_null customer_coordinates
      then Some 0
      else match store_settings d with
           | [] => None
           | s :: _ => StoreSettings.flat_shipping_fee s
           end.
Proof.
  intros geography store_coordinates numeric ST_Distance_km numeric_zero
    numeric_le_zero coordinates method d.
  unfold calculate_shipping_distance.
  assert (same : forall (b : bool) (x : option Z), (if b then x else x) = x)
    by (intros [] ?; reflexivity).
  rewrite same.
  destruct method as [m|]; destruct coordinates as [c|];
    simpl; try reflexivity;
    destruct (String.eqb m "pickup"); reflexivity.
Qed.

(** ** The order statistics *)

Lemma Orders_insert_inv profiles r tbl tbl' :
  Orders.insert profiles r tbl = Ok tbl' ->
  exists r', Orders.accept r = Ok r' /\ tbl' = (tbl ++ [r'])%list.
Proof.
  unfold Orders.insert. intros H.
  destruct (Orders.accept r) as [r'|] eqn:A; [|discriminate].
  cbn [bind] in H.
  destruct (Orders.keys profiles (tbl ++ [r'])); [|discriminate].
  cbn [bind] in H. injection H as <-. exists r'. auto.
Qed.

Lemma Orders_update_inv profiles now where_ set tbl tbl' :
  Orders.update profiles now where_ set tbl = Ok tbl' ->
  Forall2 (fun r r' =>
             if where_ r
             then Orders.accept (Orders.set_updated_at (Some now) (set r)) = Ok r'
             else r' = r) tbl tbl'.
Proof.
  unfold Orders.update. intros H.
  destruct (update_rows Orders.accept where_
              (fun r => Orders.set_updated_at (Some now) (set r)) tbl)
    as [rows|] eqn:U; [|discriminate].
  cbn [bind] in H.
  destruct (Orders.keys profiles rows); [|discriminate].
  cbn [bind] in H. injection H as <-.
  apply update_rows_Ok in U. exact U.
Qed.

Lemma Forall2_unselected {R} (P : R -> R -> Prop) (w : R -> bool) l l' :
  Forall2 (fun r r' => if w r then P r r' else r' = r) l l' ->
  (forall r, In r l -> w r = false) ->
  l' = l.
Proof.
  induction 1 as [|r r' l l' H F IH]; intros W; [reflexivity|].
  rewrite (W r) in H by (left; reflexivity). subst r'.
  f_equal. apply IH. intros x Hx. apply W. right. exact Hx.
Qed.

(** The row carrying a primary key splits its table. *)
Lemma split_at_key tbl o i :
  unique (map Orders.id tbl) = true ->
  In o tbl -> Orders.id o = Some i ->
  exists l1 l2,
    tbl = (l1 ++ o :: l2)%list
    /\ (forall r, In r l1 -> has_id i r = false)
    /\ (forall r, In r l2 -> has_id i r = false).
Proof.
  intros U Hin Hid.
  apply unique_NoDup in U.
  destruct (in_split _ _ Hin) as (l1 & l2 & ->).
  exists l1, l2. split; [reflexivity|].
  assert (other : forall r, In r (l1 ++ o :: l2) -> r <> o -> has_id i r = false).
  { intros r Hr Hne. destruct (has_id i r) eqn:E; [|reflexivity].
    exfalso. apply Hne.
    apply has_id_true in E.
    apply (primary_key_row (l1 ++ o :: l2) r o i); auto. }
  rewrite map_app, non_null_app in U. simpl in U. rewrite Hid in U.
  simpl in U. apply NoDup_remove_2 in U.
  split; intros r Hr.
  - apply other; [apply in_or_app; left; exact Hr|].
    intros ->. apply U. apply in_or_app. left.
    apply In_non_null. apply in_map_iff. exists o. auto.
  - apply other; [apply in_or_app; right; right; exact Hr|].
    intros ->. apply U. apply in_or_app. right.
    apply In_non_null. apply in_map_iff. exists o. auto.
Qed.

Lemma update_one_row profiles now set tbl tbl' o i :
  unique (map Orders.id tbl) = true ->
  In o tbl -> Orders.id o = Some i ->
  Orders.update profiles now (has_id i) set tbl = Ok tbl' ->
  exists l1 l2 o',
    tbl = (l1 ++ o :: l2)%list
    /\ tbl' = (l1 ++ o' :: l2)%list
    /\ Orders.accept (Orders.set_updated_at (Some now) (set o)) = Ok o'.
Proof.
  intros U Hin Hid H.
  destruct (split_at_key tbl o i U Hin Hid) as (l1 & l2 & -> & W1 & W2).
  apply Orders_update_inv in H.
  apply Forall2_app_inv_l in H. destruct H as (l1' & rest & F1 & F2 & ->).
  inversion F2 as [|x o' y l2' Ho F3]; subst.
  assert (Ei : has_id i o = true).
  { unfold has_id. rewrite Hid. simpl. rewrite String.eqb_refl. reflexivity. }
  rewrite Ei in Ho.
  apply Forall2_unselected in F1; [|exact W1].
  apply Forall2_unselected in F3; [|exact W2].
  subst. exists l1, l2, o'. auto.
Qed.

Lemma map_one_row (g : Orders.row -> Orders.row) tbl o i :
  unique (map Orders.id tbl) = true ->
  In o tbl -> Orders.id o = Some i ->
  exists l1 l2,
    tbl = (l1 ++ o :: l2)%list
    /\ map (fun r => if has_id i r then g r else r) tbl
       = (l1 ++ g o :: l2)%list.
Proof.
  intros U Hin Hid.
  destruct (split_at_key tbl o i U Hin Hid) as (l1 & l2 & -> & W1 & W2).
  exists l1, l2. split; [reflexivity|].
  assert (same : forall l, (forall r, In r l -> has_id i r = false) ->
                   map (fun r => if has_id i r then g r else r) l = l).
  { induction l as [|x l IH]; intros W; [reflexivity|]. simpl.
    rewrite (W x) by (left; reflexivity). f_equal. apply IH.
    intros r Hr. apply W. right. exact Hr. }
  rewrite map_app. simpl. rewrite (same l1 W1), (same l2 W2).
  assert (Ei : has_id i o = true).
  { unfold has_id. rewrite Hid. simpl. rewrite String.eqb_refl. reflexivity. }
  rewrite Ei. reflexivity.
Qed.

Lemma count_status_app st l1 l2 :
  count_status st (l1 ++ l2) = count_status st l1 + count_status st l2.
Proof.
  unfold count_status. rewrite filter_app, length_app. lia.
Qed.

Lemma order_values_app l1 l2 :
  order_values (l1 ++ l2) = (order_values l1 ++ order_values l2)%list.
Proof.
  unfold order_values. rewrite map_app. apply non_null_app.
Qed.

Lemma sum_app l1 l2 :
  fold_right Z.add 0 (l1 ++ l2) = fold_right Z.add 0 l1 + fold_right Z.add 0 l2.
Proof.
  induction l1 as [|x l1 IH]; simpl; [reflexivity|]. rewrite IH. lia.
Qed.

Lemma COALESCE_SUM l : COALESCE (SUM l) 0 = fold_right Z.add 0 l.
Proof. destruct l; reflexivity. Qed.

Section StatisticsProperties.

Variable numeric : Type.
Variable numeric_div : decimal -> Z -> numeric.
Variable numeric_of_integer : Z -> numeric.

Local Abbreviation statistics :=
  (get_order_statistics numeric numeric_div numeric_of_integer).

(** The figures are sums over the rows of [orders]. *)
Lemma statistics_app a b d l1 l2 :
  orders d = (l1 ++ l2)%list ->
  let all := statistics a b d in
  let left := statistics a b (with_orders l1 d) in
  let right := statistics a b (with_orders l2 d) in
  Statistics.total_orders all
  = Statistics.total_orders left + Statistics.total_orders right
  /\ Statistics.total_revenue all
     = Statistics.total_revenue left + Statistics.total_revenue right
  /\ Statistics.pending_orders all
     = Statistics.pending_orders left + Statistics.pending_orders right
  /\ Statistics.paid_orders all
     = Statistics.paid_orders left + Statistics.paid_orders right
  /\ Statistics.shipping_orders all
     = Statistics.shipping_orders left + Statistics.shipping_orders right.
Proof.
  intros E. unfold get_order_statistics. cbn -[COALESCE SUM count_status].
  rewrite E, filter_app.
  rewrite !COALESCE_SUM, order_values_app, sum_app, !count_status_app,
    length_app.
  repeat split; lia.
Qed.

(** One row of [orders] replaced by another. *)
Lemma statistics_row_replaced a b d d' l1 l2 x y :
  orders d = (l1 ++ x :: l2)%list ->
  orders d' = (l1 ++ y :: l2)%list ->
  let before := statistics a b d in
  let after := statistics a b d' in
  let old := statistics a b (with_orders [x] d) in
  let new := statistics a b (with_orders [y] d) in
  Statistics.total_orders after
  = Statistics.total_orders before - Statistics.total_orders old
    + Statistics.total_orders new
  /\ Statistics.total_revenue after
     = Statistics.total_revenue before - Statistics.total_revenue old
       + Statistics.total_revenue new
  /\ Statistics.pending_orders after
     = Statistics.pending_orders before - Statistics.pending_orders old
       + Statistics.pending_orders new
  /\ Statistics.paid_orders after
     = Statistics.paid_orders before - Statistics.paid_orders old
       + Statistics.paid_orders new
  /\ Statistics.shipping_orders after
     = Statistics.shipping_orders before - Statistics.shipping_orders old
       + Statistics.shipping_orders new.
Proof.
  intros E E'.
  pose proof (statistics_app a b d l1 (x :: l2) E) as A.
  pose proof (statistics_app a b d' l1 (y :: l2) E') as A'.
  pose proof (statistics_app a b (with_orders (x :: l2) d) [x] l2 eq_refl) as B.
  pose proof (statistics_app a b (with_orders (y :: l2) d) [y] l2 eq_refl) as B'.
  cbv zeta in *.
  change (statistics a b (with_orders l1 d'))
    with (statistics a b (with_orders l1 d)) in A'.
  change (statistics a b (with_orders (y :: l2) d'))
    with (statistics a b (with_orders (y :: l2) d)) in A'.
  change (statistics a b (with_orders [x] (with_orders (x :: l2) d)))
    with (statistics a b (with_orders [x] d)) in B.
  change (statistics a b (with_orders l2 (with_orders (x :: l2) d)))
    with (statistics a b (with_orders l2 d)) in B.
  change (statistics a b (with_orders [y] (with_orders (y :: l2) d)))
    with (statistics a b (with_orders [y] d)) in B'.
  change (statistics a b (with_orders l2 (with_orders (y :: l2) d)))
    with (statistics a b (with_orders l2 d)) in B'.
  repeat split; lia.
Qed.

(** The figures of one counted row. *)
Lemma statistics_one_row a b d o st t f :
  in_statistics a b o = true ->
  Orders.status o = Some st ->
  Orders.total_price o = Some t -> Orders.shipping_fee o = Some f ->
  let one := statistics a b (with_orders [o] d) in
  Statistics.total_orders one = 1
  /\ Statistics.total_revenue one = t + f
  /\ Statistics.pending_orders one = (if String.eqb st "pending" then 1 else 0)
  /\ Statistics.paid_orders one = (if String.eqb st "paid" then 1 else 0)
  /\ Statistics.shipping_orders one
     = (if String.eqb st "shipping" then 1 else 0).
Proof.
  intros I S T F. unfold get_order_statistics.
  cbn -[in_statistics]. rewrite I.
  unfold order_values, count_status. cbn. rewrite S, T, F. cbn.
  repeat split; try lia.
  - destruct (String.eqb st "pending"); reflexivity.
  - destruct (String.eqb st "paid"); reflexivity.
  - destruct (String.eqb st "shipping"); reflexivity.
Qed.

(** The figures of a row that is not counted. *)
Lemma statistics_no_row a b d o :
  in_statistics a b o = false ->
  let one := statistics a b (with_orders [o] d) in
  Statistics.total_orders one = 0
  /\ Statistics.total_revenue one = 0
  /\ Statistics.pending_orders one = 0
  /\ Statistics.paid_orders one = 0
  /\ Statistics.shipping_orders one = 0.
Proof.
  intros I. unfold get_order_statistics. cbn -[in_statistics]. rewrite I.
  cbn. auto.
Qed.


Lemma pending_stored : varchar 20 (Some "pending") = Ok (Some "pending").
Proof. reflexivity. Qed.

Lemma in_statistics_intro a b o now st :
  Orders.created_at o = Some now -> a <= now <= b ->
  Orders.status o = Some st -> st <> "cancelled" ->
  in_statistics (Some a) (Some b) o = true.
Proof.
  intros C R S N. unfold in_statistics, sql_in_text. rewrite C, S.
  unfold sql_ge, sql_le, existsb.
  rewrite (proj2 (Z.leb_le a now)), (proj2 (Z.leb_le now b)) by lia.
  apply String.eqb_neq in N. rewrite N. reflexivity.
Qed.

(** X2. An order that [place_order_complete] has placed at an instant
    within the bounds adds one to [total_orders] and to [pending_orders],
    and its total price and shipping fee to [total_revenue]; it leaves
    [paid_orders] and [shipping_orders] as they were. *)
Theorem statistics_after_order_placed :
  forall e user address coordinates total fee items slip ref d j d' a b,
    place_order_complete e user address coordinates total fee items slip ref d
    = Ok (j, d') ->
    json_get j "success" = Some (JBool true) ->
    a <= NOW e <= b ->
    let before :=
      get_order_statistics numeric numeric_div numeric_of_integer (Some a)
        (Some b) d in
    let after :=
      get_order_statistics numeric numeric_div numeric_of_integer (Some a)
        (Some b) d' in
    exists t f,
      total = Some t /\ fee = Some f
      /\ Statistics.total_orders after = Statistics.total_orders before + 1
      /\ Statistics.total_revenue after
         = Statistics.total_revenue before + (t + f)
      /\ Statistics.pending_orders after
         = Statistics.pending_orders before + 1
      /\ Statistics.paid_orders after = Statistics.paid_orders before
      /\ Statistics.shipping_orders after = Statistics.shipping_orders before.
Proof.
  intros e user address coordinates total fee items slip ref d j d' a b H S R.
  apply place_order_complete_Ok in H.
  destruct H as [H | (err & logs & _ & _ & -> & _)]; [|discriminate S].
  apply place_order_block_Ok in H.
  destruct H as (_ & products' & orders' & items' & logs' & _ & I & _ & _ & _ & ->).
  apply Orders_insert_inv in I. destruct I as (r' & A & ->).
  apply Orders_accept_Ok in A.
  destruct A as (_ & _ & _ & T & F & _ & _ & St & _ & _ & _ & _ & C & _
                 & (t & Ht & _) & (f & Hf & _) & _).
  cbn in T, F, St, C. rewrite pending_stored in St. injection St as St.
  exists t, f.
  split; [congruence|]. split; [congruence|].
  pose proof (in_statistics_intro a b r' (NOW e) "pending" C R (eq_sym St)) as In.
  assert (N : "pending" <> "cancelled") by discriminate. specialize (In N).
  set (d1 := {| store_settings := store_settings d; profiles := profiles d;
                products := products'; orders := (orders d ++ [r'])%list;
                order_items := items'; activity_logs := logs' |}).
  pose proof (statistics_app (Some a) (Some b) d1 (orders d) [r'] eq_refl) as P.
  pose proof (statistics_one_row (Some a) (Some b) d1 r' "pending" t f In
                (eq_sym St) Ht Hf) as O.
  cbv zeta in *.
  change (statistics (Some a) (Some b) (with_orders (orders d) d1))
    with (statistics (Some a) (Some b) d) in P.
  cbn [String.eqb Ascii.eqb Bool.eqb] in O.
  intuition lia.
Qed.

Lemma in_statistics_status a b o o' st' :
  in_statistics a b o = true ->
  Orders.created_at o' = Orders.created_at o ->
  Orders.status o' = Some st' -> st' <> "cancelled" ->
  in_statistics a b o' = true.
Proof.
  unfold in_statistics, sql_in_text. intros I C S N. rewrite C, S.
  destruct (sql_and (sql_ge (Orders.created_at o) a)
              (sql_le (Orders.created_at o) b)) as [[|]|];
    try (destruct (Orders.status o); discriminate I).
  - apply String.eqb_neq in N. unfold existsb. rewrite N. reflexivity.
  - destruct (Orders.status o) as [st|]; [|discriminate I].
    cbn in I. destruct (String.eqb st "cancelled"); discriminate I.
Qed.

Lemma in_statistics_cancelled a b o :
  Orders.status o = Some "cancelled" -> in_statistics a b o = false.
Proof.
  unfold in_statistics, sql_in_text. intros ->.
  destruct (sql_and (sql_ge (Orders.created_at o) a)
              (sql_le (Orders.created_at o) b)) as [[|]|]; reflexivity.
Qed.

Lemma in_statistics_not_cancelled a b o st :
  in_statistics a b o = true -> Orders.status o = Some st ->
  st <> "cancelled".
Proof.
  intros I S ->. rewrite (in_statistics_cancelled a b o S) in I. discriminate.
Qed.

Lemma stored_order_values d o :
  schema_ok d -> In o (orders d) ->
  exists t f, Orders.total_price o = Some t /\ Orders.shipping_fee o = Some f.
Proof.
  intros [_ _ St _ _] Hin.
  rewrite Forall_forall in St. specialize (St o Hin).
  apply Orders_accept_Ok in St.
  destruct St as (_ & _ & _ & _ & _ & _ & _ & _ & _ & _ & _ & _ & _ & _
                  & (t & Ht & _) & (f & Hf & _) & _).
  exists t, f. auto.
Qed.

Lemma schema_ok_unique_ids d :
  schema_ok d -> unique (map Orders.id (orders d)) = true.
Proof.
  intros [_ _ _ K _]. apply Orders_keys_Ok in K. tauto.
Qed.

Lemma paid_stored : varchar 20 (Some "paid") = Ok (Some "paid").
Proof. reflexivity. Qed.

(** X3. When [verify_payment_slip] reports success for a pending order
    that the statistics count, the order moves from [pending_orders] to
    [paid_orders]; [total_orders], [total_revenue] and [shipping_orders]
    are as before. *)
Theorem statistics_after_payment_verified :
  forall e orderId ref amount slip d j d' o a b,
    schema_ok d ->
    In o (orders d) -> Orders.id o = Some orderId ->
    Orders.status o = Some "pending" ->
    in_statistics a b o = true ->
    verify_payment_slip e (Some orderId) ref amount slip d = Ok (j, d') ->
    json_get j "success" = Some (JBool true) ->
    let before :=
      get_order_statistics numeric numeric_div numeric_of_integer a b d in
    let after :=
      get_order_statistics numeric numeric_div numeric_of_integer a b d' in
    Statistics.total_orders after = Statistics.total_orders before
    /\ Statistics.total_revenue after = Statistics.total_revenue before
    /\ Statistics.pending_orders after = Statistics.pending_orders before - 1
    /\ Statistics.paid_orders after = Statistics.paid_orders before + 1
    /\ Statistics.shipping_orders after = Statistics.shipping_orders before.
Proof.
  intros e orderId ref amount slip d j d' o a b Sch Hin Hid Hst I H S.
  apply verify_payment_slip_Ok in H.
  destruct H as [(_ & -> & _) | [(_ & _ & -> & _)
    | [(_ & _ & _ & logs & _ & -> & _)
      | (_ & _ & _ & orders' & logs & U & _ & _ & ->)]]];
    try discriminate S.
  destruct (update_one_row _ _ _ _ _ o orderId (schema_ok_unique_ids d Sch)
              Hin Hid U) as (l1 & l2 & o' & E & -> & A).
  apply Orders_accept_Ok in A.
  destruct A as (_ & _ & _ & T & F & _ & _ & St & _ & _ & _ & _ & C & _).
  cbn in T, F, St, C. rewrite paid_stored in St. injection St as St.
  destruct (stored_order_values d o Sch Hin) as (t & f & Ht & Hf).
  assert (N : "paid" <> "cancelled") by discriminate.
  pose proof (in_statistics_status a b o o' "paid" I C (eq_sym St) N) as I'.
  pose proof (statistics_row_replaced a b d
                (with_activity_logs logs (with_orders (l1 ++ o' :: l2) d))
                l1 l2 o o' E eq_refl) as R.
  pose proof (statistics_one_row a b d o "pending" t f I Hst Ht Hf) as O.
  assert (Ht' : Orders.total_price o' = Some t) by congruence.
  assert (Hf' : Orders.shipping_fee o' = Some f) by congruence.
  pose proof (statistics_one_row a b d o' "paid" t f I' (eq_sym St) Ht' Hf')
    as O'.
  cbv zeta in *.
  cbn [String.eqb Ascii.eqb Bool.eqb] in O, O'.
  intuition lia.
Qed.

Lemma cancelled_in_statuses : In "cancelled" Orders.statuses.
Proof. unfold Orders.statuses. simpl. tauto. Qed.

(** X4. When [updateOrderStatus] sets an order that the statistics count
    to 'cancelled', the order leaves them: [total_orders] loses one,
    [total_revenue] loses the total price and the shipping fee of the
    order, and the figure of the status the order had loses one. *)
Theorem statistics_after_order_cancelled :
  forall e orderId s d p s' d' o st a b,
    schema_ok d ->
    In o (orders d) -> Orders.id o = Some orderId ->
    Orders.status o = Some st ->
    in_statistics a b o = true ->
    updateOrderStatus e orderId cancelled s d = (p, s', d') ->
    let before :=
      get_order_statistics numeric numeric_div numeric_of_integer a b d in
    let after :=
      get_order_statistics numeric numeric_div numeric_of_integer a b d' in
    exists t f,
      Orders.total_price o = Some t /\ Orders.shipping_fee o = Some f
      /\ Statistics.total_orders after = Statistics.total_orders before - 1
      /\ Statistics.total_revenue after
         = Statistics.total_revenue before - (t + f)
      /\ Statistics.pending_orders after
         = Statistics.pending_orders before
           - (if String.eqb st "pending" then 1 else 0)
      /\ Statistics.paid_orders after
         = Statistics.paid_orders before
           - (if String.eqb st "paid" then 1 else 0)
      /\ Statistics.shipping_orders after
         = Statistics.shipping_orders before
           - (if String.eqb st "shipping" then 1 else 0).
Proof.
  intros e orderId s d p s' d' o st a b Sch Hin Hid Hst I H.
  unfold updateOrderStatus in H.
  rewrite (update_order_status_Ok e orderId (status_text cancelled) d
             (orders_stored d Sch) (orders_keys d Sch) cancelled_in_statuses)
    in H.
  injection H as _ _ <-.
  destruct (map_one_row
              (fun r => Orders.set_updated_at (Some (NOW e))
                          (Orders.set_status (Some "cancelled") r))
              (orders d) o orderId (schema_ok_unique_ids d Sch) Hin Hid)
    as (l1 & l2 & E & M).
  destruct (stored_order_values d o Sch Hin) as (t & f & Ht & Hf).
  exists t, f. split; [exact Ht|]. split; [exact Hf|].
  set (o' := Orders.set_updated_at (Some (NOW e))
               (Orders.set_status (Some "cancelled") o)) in *.
  pose proof (statistics_row_replaced a b d
                (with_orders
                   (orders_with_status (NOW e) orderId "cancelled" (orders d))
                   d)
                l1 l2 o o' E M) as R.
  pose proof (statistics_one_row a b d o st t f I Hst Ht Hf) as O.
  pose proof (statistics_no_row a b d o'
                (in_statistics_cancelled a b o' eq_refl)) as O'.
  cbv zeta in *.
  change (status_text cancelled) with "cancelled".
  intuition lia.
Qed.

Lemma one_status (st : string) :
  (if String.eqb st "pending" then 1 else 0)
  + (if String.eqb st "paid" then 1 else 0)
  + (if String.eqb st "shipping" then 1 else 0) <= 1.
Proof.
  destruct (String.eqb st "pending") eqn:E1.
  - apply String.eqb_eq in E1. subst st. simpl. lia.
  - destruct (String.eqb st "paid") eqn:E2.
    + apply String.eqb_eq in E2. subst st. simpl. lia.
    + destruct (String.eqb st "shipping"); lia.
Qed.

Lemma count_status_cons st o rows :
  count_status st (o :: rows)
  = (match Orders.status o with
     | Some s => if String.eqb s st then 1 else 0
     | None => 0
     end) + count_status st rows.
Proof.
  unfold count_status. cbn [filter].
  destruct (Orders.status o) as [s|]; cbn.
  - destruct (String.eqb s st); cbn [List.length]; lia.
  - lia.
Qed.

Lemma counts_bounded rows :
  0 <= count_status "pending" rows
  /\ 0 <= count_status "paid" rows
  /\ 0 <= count_status "shipping" rows
  /\ count_status "pending" rows + count_status "paid" rows
     + count_status "shipping" rows <= Z.of_nat (List.length rows).
Proof.
  induction rows as [|o rows IH].
  - cbn. lia.
  - rewrite !count_status_cons. cbn [List.length].
    destruct (Orders.status o) as [s|].
    + pose proof (one_status s).
      destruct (String.eqb s "pending"), (String.eqb s "paid"),
        (String.eqb s "shipping"); lia.
    + lia.
Qed.

(** X5. The three figures by status are counts of distinct orders among
    those counted: none is negative, and together they do not exceed
    [total_orders]. *)
Theorem statistics_by_status_bounded :
  forall a b d,
    let s :=
      get_order_statistics numeric numeric_div numeric_of_integer a b d in
    0 <= Statistics.pending_orders s
    /\ 0 <= Statistics.paid_orders s
    /\ 0 <= Statistics.shipping_orders s
    /\ Statistics.pending_orders s + Statistics.paid_orders s
       + Statistics.shipping_orders s <= Statistics.total_orders s.
Proof.
  intros a b d. cbv zeta. unfold get_order_statistics.
  cbn [Statistics.pending_orders Statistics.paid_orders
       Statistics.shipping_orders Statistics.total_orders].
  apply counts_bounded.
Qed.

(** X6. With no order to count (none within the bounds, or only cancelled
    ones or ones without a status), every figure is 0. *)
Theorem statistics_of_no_order :
  forall a b d,
    (forall o, In o (orders d) -> in_statistics a b o = false) ->
    get_order_statistics numeric numeric_div numeric_of_integer a b d
    = {| Statistics.total_orders := 0;
         Statistics.total_revenue := 0;
         Statistics.avg_order_value := numeric_of_integer 0;
         Statistics.pending_orders := 0;
         Statistics.paid_orders := 0;
         Statistics.shipping_orders := 0 |}.
Proof.
  intros a b d H. unfold get_order_statistics.
  assert (E : filter (in_statistics a b) (orders d) = []).
  { induction (orders d) as [|o rows IH]; [reflexivity|].
    cbn [filter]. rewrite (H o) by (left; reflexivity).
    apply IH. intros x Hx. apply H. right. exact Hx. }
  rewrite E. reflexivity.
Qed.

End StatisticsProperties.

(** X2 at work: the order of the customer, placed at instant 1, in the
    statistics of the instants 0 to 10. *)
Lemma statistics_after_order_placed_witness :
  let before := get_order_statistics Z Z.div (fun z => z) (Some 0) (Some 10) shop in
  let after :=
    get_order_statistics Z Z.div (fun z => z) (Some 0) (Some 10)
      shop_with_order in
  exists t f,
    Some 24000 = Some t /\ Some 3000 = Some f
    /\ Statistics.total_orders after = Statistics.total_orders before + 1
    /\ Statistics.total_revenue after
       = Statistics.total_revenue before + (t + f)
    /\ Statistics.pending_orders after = Statistics.pending_orders before + 1
    /\ Statistics.paid_orders after = Statistics.paid_orders before
    /\ Statistics.shipping_orders after = Statistics.shipping_orders before.
Proof.
  apply (statistics_after_order_placed Z Z.div (fun z => z)
           (engine 1 "order-1") (Some "customer-1") (Some "12 Main Road") None
           (Some 24000) (Some 3000) two_teas None None shop
           (order_placed (engine 1 "order-1")) shop_with_order 0 10).
  - exact shop_with_order_placed.
  - reflexivity.
  - simpl. lia.
Defined.

(** X3 at work: the order of the customer is paid. *)
Lemma statistics_after_payment_verified_witness :
  let before :=
    get_order_statistics Z Z.div (fun z => z) (Some 0) (Some 10)
      shop_with_order in
  let after :=
    get_order_statistics Z Z.div (fun z => z) (Some 0) (Some 10)
      shop_with_paid_order in
  Statistics.total_orders after = Statistics.total_orders before
  /\ Statistics.total_revenue after = Statistics.total_revenue before
  /\ Statistics.pending_orders after = Statistics.pending_orders before - 1
  /\ Statistics.paid_orders after = Statistics.paid_orders before + 1
  /\ Statistics.shipping_orders after = Statistics.shipping_orders before.
Proof.
  apply (statistics_after_payment_verified Z Z.div (fun z => z)
           (engine 2 "") "order-1" (Some "TX-0001") (Some 27000)
           (Some "slip-1.png") shop_with_order
           (payment_verified (Some "order-1")) shop_with_paid_order
           first_order (Some 0) (Some 10)).
  - exact (reachable_schema_ok _ reachable_shop_with_order).
  - exact first_order_in_shop.
  - reflexivity.
  - reflexivity.
  - reflexivity.
  - exact shop_with_paid_order_verified.
  - reflexivity.
Defined.

(** X4 at work: the pending order of the customer is cancelled. *)
Lemma statistics_after_order_cancelled_witness :
  let d' :=
    snd (updateOrderStatus (engine 6 "") "order-1" cancelled empty_store
           shop_with_order) in
  let before :=
    get_order_statistics Z Z.div (fun z => z) (Some 0) (Some 10)
      shop_with_order in
  let after :=
    get_order_statistics Z Z.div (fun z => z) (Some 0) (Some 10) d' in
  exists t f,
    Orders.total_price first_order = Some t
    /\ Orders.shipping_fee first_order = Some f
    /\ Statistics.total_orders after = Statistics.total_orders before - 1
    /\ Statistics.total_revenue after
       = Statistics.total_revenue before - (t + f)
    /\ Statistics.pending_orders after
       = Statistics.pending_orders before
         - (if String.eqb "pending" "pending" then 1 else 0)
    /\ Statistics.paid_orders after
       = Statistics.paid_orders before
         - (if String.eqb "pending" "paid" then 1 else 0)
    /\ Statistics.shipping_orders after
       = Statistics.shipping_orders before
         - (if String.eqb "pending" "shipping" then 1 else 0).
Proof.
  cbv zeta.
  destruct (updateOrderStatus (engine 6 "") "order-1" cancelled empty_store
              shop_with_order) as [[p s'] d'] eqn:E.
  apply (statistics_after_order_cancelled Z Z.div (fun z => z)
           (engine 6 "") "order-1" empty_store shop_with_order p s' d'
           first_order "pending" (Some 0) (Some 10)).
  - exact (reachable_schema_ok _ reachable_shop_with_order).
  - exact first_order_in_shop.
  - reflexivity.
  - reflexivity.
  - reflexivity.
  - exact E.
Defined.

(** X6 at work: the order of the customer, placed at instant 1, is not
    within the instants 5 to 10. *)
Lemma statistics_of_no_order_witness :
  get_order_statistics Z Z.div (fun z => z) (Some 5) (Some 10) shop_with_order
  = {| Statistics.total_orders := 0;
       Statistics.total_revenue := 0;
       Statistics.avg_order_value := 0;
       Statistics.pending_orders := 0;
       Statistics.paid_orders := 0;
       Statistics.shipping_orders := 0 |}.
Proof.
  apply (statistics_of_no_order Z Z.div (fun z => z) (Some 5) (Some 10)
           shop_with_order).
  intros o [<-|[]]. reflexivity.
Defined.

(** ** Order numbers *)

Lemma stored_order_number d o n :
  schema_ok d -> In o (orders d) -> Orders.order_number o = Some n ->
  (String.length n <= 20)%nat.
Proof.
  intros Sch Hin Hn.
  pose proof (orders_stored d Sch) as St.
  rewrite Forall_forall in St. specialize (St o Hin).
  apply Orders_accept_Ok in St.
  destruct St as (_ & _ & V & _). rewrite Hn in V.
  apply (varchar_Ok_length 20 (Some n) n V).
Qed.

Lemma order_number_taken_raises e user address coordinates total fee items
    slip ref d o :
  schema_ok d ->
  In o (orders d) -> Orders.order_number o = Some (order_number_of e) ->
  exists err,
    place_order_block e user address coordinates total fee items slip ref d
    = Raise err.
Proof.
  intros Sch Hin Hn.
  destruct (place_order_block e user address coordinates total fee items slip
              ref d) as [[j d']|err] eqn:B; [|exists err; reflexivity].
  exfalso.
  apply place_order_block_Ok in B.
  destruct B as (_ & products' & orders' & items' & logs' & _ & I & _).
  unfold Orders.insert in I.
  destruct (Orders.accept _) as [r'|] eqn:A; [|discriminate].
  cbn [bind] in I.
  destruct (Orders.keys (profiles d) (orders d ++ [r'])) as [[]|] eqn:K;
    [|discriminate].
  apply Orders_keys_Ok in K. destruct K as (_ & U & _).
  apply Orders_accept_Ok in A. destruct A as (_ & _ & V & _).
  cbn in V.
  rewrite (varchar_fits 20 (order_number_of e)) in V
    by exact (stored_order_number d o _ Sch Hin Hn).
  injection V as V.
  apply unique_NoDup in U.
  rewrite map_app, non_null_app in U. cbn in U. rewrite <- V in U. cbn in U.
  apply NoDup_remove_2 in U. apply U. rewrite app_nil_r.
  apply In_non_null. apply in_map_iff. exists o. auto.
Qed.

(** X7. An order number already carried by an order is not drawn again:
    when the number [place_order_complete] has generated is taken, the call
    is refused with the message of the error, rolled back and logged. *)
Theorem order_number_taken_refused :
  forall e user address coordinates total fee items slip ref d o,
    schema_ok d ->
    references user (map Profiles.id (profiles d)) = true ->
    In o (orders d) ->
    Orders.order_number o = Some (order_number_of e) ->
    exists message,
      place_order_complete e user address coordinates total fee items slip
        ref d
      = Ok (failure (JString message), order_refused e user message d).
Proof.
  intros e user address coordinates total fee items slip ref d o Sch U Hin Hn.
  destruct (order_number_taken_raises e user address coordinates total fee
              items slip ref d o Sch Hin Hn) as (err & B).
  exists (SQLERRM err).
  apply place_order_complete_refuses; assumption.
Qed.

(** X7 at work: a second order on the day of the first, for which the
    engine draws the same five digits. *)
Lemma order_number_taken_refused_witness :
  exists message,
    place_order_complete (engine 1 "order-9") (Some "customer-1")
      (Some "12 Main Road") None (Some 12000) (Some 3000)
      [ {| Item.product_id := "tea"; Item.quantity := 1;
           Item.unit_price := 12000 |} ] None None shop_with_order
    = Ok (failure (JString message),
          order_refused (engine 1 "order-9") (Some "customer-1") message
            shop_with_order).
Proof.
  apply (order_number_taken_refused (engine 1 "order-9") (Some "customer-1")
           (Some "12 Main Road") None (Some 12000) (Some 3000)
           [ {| Item.product_id := "tea"; Item.quantity := 1;
                Item.unit_price := 12000 |} ] None None shop_with_order
           first_order).
  - exact (reachable_schema_ok _ reachable_shop_with_order).
  - reflexivity.
  - exact first_order_in_shop.
  - reflexivity.
Defined.

(** ** The trigger on updates *)

Lemma Products_update_inv now where_ set tbl tbl' :
  Products.update now where_ set tbl = Ok tbl' ->
  Forall2 (fun r r' =>
             if where_ r
             then Products.accept (Products.set_updated_at (Some now) (set r))
                  = Ok r'
             else r' = r) tbl tbl'.
Proof.
  unfold Products.update. intros H.
  destruct (update_rows Products.accept where_
              (fun r => Products.set_updated_at (Some now) (set r)) tbl)
    as [rows|] eqn:U; [|discriminate].
  cbn [bind] in H.
  destruct (Products.keys rows); [|discriminate].
  cbn [bind] in H. injection H as <-.
  apply update_rows_Ok in U. exact U.
Qed.

(** X8. Whatever an UPDATE on [orders] or on [products] assigns, the
    trigger of the table stamps every row the statement selects with
    [NOW()], and the other rows are left as they were. *)
Theorem update_stamps_updated_at :
  (forall profiles now where_ set tbl tbl',
      Orders.update profiles now where_ set tbl = Ok tbl' ->
      Forall2 (fun r r' => if where_ r
                           then Orders.updated_at r' = Some now
                           else r' = r) tbl tbl')
  /\ (forall now where_ set tbl tbl',
        Products.update now where_ set tbl = Ok tbl' ->
        Forall2 (fun r r' => if where_ r
                             then Products.updated_at r' = Some now
                             else r' = r) tbl tbl').
Proof.
  split.
  - intros profiles now where_ set tbl tbl' H.
    apply Orders_update_inv in H.
    induction H as [|r r' l l' H F IH]; constructor; [|exact IH].
    destruct (where_ r); [|exact H].
    apply Orders_accept_Ok in H.
    destruct H as (_ & _ & _ & _ & _ & _ & _ & _ & _ & _ & _ & _ & _ & W & _).
    exact W.
  - intros now where_ set tbl tbl' H.
    apply Products_update_inv in H.
    induction H as [|r r' l l' H F IH]; constructor; [|exact IH].
    destruct (where_ r); [|exact H].
    unfold Products.accept in H.
    destruct (not_null "products" "id" _); [|discriminate]. cbn [bind] in H.
    destruct (decimal_10_2 _); [|discriminate]. cbn [bind] in H.
    destruct (not_null "products" "price" _); [|discriminate]. cbn [bind] in H.
    destruct (not_null "products" "stock" _); [|discriminate]. cbn [bind] in H.
    destruct (check "products" "products_price_check" _); [|discriminate].
    cbn [bind] in H.
    destruct (check "products" "products_stock_check" _); [|discriminate].
    cbn [bind] in H. injection H as <-. reflexivity.
Qed.

(** X8 at work: the client sends [updated_at] with the status; the row
    carries the instant of the engine. *)
Lemma update_stamps_updated_at_witness :
  Forall2 (fun r r' => if has_id "order-1" r
                       then Orders.updated_at r' = Some 6
                       else r' = r)
    (orders shop_with_order)
    (orders_with_status 6 "order-1" "delivered" (orders shop_with_order)).
Proof.
  apply (proj1 update_stamps_updated_at (profiles shop_with_order) 6
           (has_id "order-1")
           (fun r => Orders.set_updated_at (Some 0)
                       (Orders.set_status (Some "delivered") r))
           (orders shop_with_order)).
  vm_compute. reflexivity.
Defined.

(** ** The amount of a payment *)

Lemma ActivityLogs_insert_new_data profiles r1 r2 tbl :
  ActivityLogs.user_id r1 = ActivityLogs.user_id r2 ->
  ActivityLogs.action_type r1 = ActivityLogs.action_type r2 ->
  ActivityLogs.table_name r1 = ActivityLogs.table_name r2 ->
  match ActivityLogs.insert profiles r1 tbl,
        ActivityLogs.insert profiles r2 tbl with
  | Ok _, Ok _ => True
  | Raise e1, Raise e2 => e1 = e2
  | _, _ => False
  end.
Proof.
  intros U A T. unfold ActivityLogs.insert, ActivityLogs.accept.
  rewrite U, A, T.
  destruct (varchar 50 (ActivityLogs.action_type r2)); cbn [bind]; [|reflexivity].
  destruct (varchar 50 (ActivityLogs.table_name r2)); cbn [bind]; [|reflexivity].
  destruct (not_null "activity_logs" "action_type" a); cbn [bind]; [|reflexivity].
  unfold ActivityLogs.keys. cbn.
  destruct (assert _ _); cbn [bind]; auto.
Qed.

(** X9. [verify_payment_slip] compares [p_expected_amount] with nothing:
    two calls that differ in the amount only give the same answer and
    leave the same [orders], [order_items] and [products]; they fail
    together, with the same error. *)
Theorem verify_payment_slip_ignores_amount :
  forall e order ref amount1 amount2 slip d,
    match verify_payment_slip e order ref amount1 slip d,
          verify_payment_slip e order ref amount2 slip d with
    | Ok (j1, d1), Ok (j2, d2) =>
        j1 = j2 /\ orders d1 = orders d2
        /\ order_items d1 = order_items d2 /\ products d1 = products d2
    | Raise e1, Raise e2 => e1 = e2
    | _, _ => False
    end.
Proof.
  intros e order ref amount1 amount2 slip d. unfold verify_payment_slip.
  destruct (negb (order_exists_unverified order d)); [auto|].
  destruct (trans_ref_exists ref d); [auto|].
  unfold thunder_response.
  destruct (invalid_trans_ref ref); cbn -[Orders.update ActivityLogs.insert].
  - destruct (ActivityLogs.insert _ _ _); cbn [bind]; auto.
  - destruct (Orders.update _ _ _ _ _) as [orders'|]; cbn [bind]; [|reflexivity].
    pose proof (ActivityLogs_insert_new_data (profiles d)
                  (payment_verified_log e order ref amount1)
                  (payment_verified_log e order ref amount2)
                  (activity_logs d) eq_refl eq_refl eq_refl) as L.
    destruct (ActivityLogs.insert (profiles d)
                (payment_verified_log e order ref amount1) (activity_logs d));
      destruct (ActivityLogs.insert (profiles d)
                  (payment_verified_log e order ref amount2) (activity_logs d));
      cbn [bind]; auto; contradiction.
Qed.

(** ** Rows of the reachable states *)

(** X10. In every state the statements reach, each row of [order_items]
    has a quantity above 0, a unit price of 0 or more, and carries as its
    subtotal the product of the two. *)
Theorem order_items_well_formed :
  forall d, reachable d ->
    forall i, In i (order_items d) ->
      exists q u,
        OrderItems.quantity i = Some q /\ OrderItems.unit_price i = Some u
        /\ 0 < q /\ 0 <= u /\ OrderItems.subtotal i = Some (q * u).
Proof.
  intros d R i Hin.
  pose proof (order_items_stored d (reachable_schema_ok d R)) as St.
  rewrite Forall_forall in St. specialize (St i Hin).
  apply OrderItems_accept_Ok in St.
  destruct St as (_ & _ & _ & _ & Sub & (q & Hq & Pq) & (u & Hu & Pu)).
  exists q, u. rewrite Hq, Hu in Sub. auto.
Qed.

(** X10 at work: the one item of the customer's order. *)
Lemma order_items_well_formed_witness :
  Forall (fun i =>
            exists q u,
              OrderItems.quantity i = Some q /\ OrderItems.unit_price i = Some u
              /\ 0 < q /\ 0 <= u /\ OrderItems.subtotal i = Some (q * u))
         (order_items shop_with_order).
Proof.
  apply Forall_forall.
  exact (order_items_well_formed shop_with_order reachable_shop_with_order).
Defined.

(** ** Placing an order from the client *)

Lemma insert_log_order_create_error created_at m d :
  insert_log (order_create_error_log created_at m) d
  = with_activity_logs
      (activity_logs d ++ [order_create_error_log created_at m])%list d.
Proof.
  unfold insert_log.
  rewrite (activity_logged (profiles d) (order_create_error_log created_at m)
             (activity_logs d)); reflexivity.
Qed.

Section ClientProperties.

Variable number : Type.
Variable zero : number.
Variable plus : number -> number -> number.
Variable times : number -> number -> number.
Variable falsy : number -> bool.
Variable toString : number -> string.
Variable decimal_of : number -> option decimal.
Variable number_of : decimal -> number.
Variable text_of_json_number : Z -> string.
Variable order_item_of : OrderItem number -> Item.t.

Local Abbreviation createOrder' :=
  (createOrder number zero plus times falsy toString decimal_of number_of
     text_of_json_number order_item_of).

(** The call of the procedure [createOrder] makes for a user. *)
Local Abbreviation rpc e user orderData d :=
  (place_order_complete e
     (User.id user)
     (Some (shipping_address number orderData))
     (option_map (point_of number toString)
        (shipping_coordinates number orderData))
     (decimal_of (total_price_of number zero plus times
                    (items number orderData)))
     (decimal_of (shipping_fee_of number zero falsy number_of
                    (shipping_method number orderData)
                    (single_store_settings d)))
     (map order_item_of (items number orderData))
     (payment_slip_url number orderData)
     (trans_ref number orderData) d).

(** X11. [createOrder] never leaves the store loading, and has one of two
    outcomes.  It reports success exactly when the procedure has answered
    success = true for the signed-in user and the cart has been emptied:
    the database is then the one the procedure has left.  Otherwise it
    reports a failure with a message, keeps the message in the store,
    leaves the cart as it was, and appends one ORDER_CREATE_ERROR row with
    the message to [activity_logs], upon what the procedure has left
    if it has been called. *)
Theorem createOrder_outcome :
  forall e created_at useUserStore useCartStore orderData s d r s' cart' d',
    createOrder' e created_at useUserStore useCartStore orderData s d
    = (r, s', cart', d') ->
    isLoading s' = false
    /\ ((CreateOrder.success r = true
         /\ CreateOrder.error r = None
         /\ error s' = None
         /\ cart' = Bound []
         /\ exists user data,
              useUserStore = Bound (Some user)
              /\ rpc e user orderData d = Ok (data, d')
              /\ truthy (json_get data "success") = true
              /\ CreateOrder.orderId r = json_get data "order_id")
        \/ (CreateOrder.success r = false
            /\ CreateOrder.orderId r = None
            /\ cart' = useCartStore
            /\ exists message d0,
                 CreateOrder.error r = Some message
                 /\ error s' = Some message
                 /\ (d0 = d
                     \/ exists user data,
                          useUserStore = Bound (Some user)
                          /\ rpc e user orderData d = Ok (data, d0))
                 /\ d' = with_activity_logs
                           (activity_logs d0
                            ++ [order_create_error_log created_at message])%list
                           d0)).
Proof.
  intros e created_at useUserStore useCartStore orderData s d r s' cart' d' H.
  unfold createOrder, createOrder_try in H.
  assert (failed : forall t d0,
            (d0 = d
             \/ exists user data,
                  useUserStore = Bound (Some user)
                  /\ rpc e user orderData d = Ok (data, d0)) ->
            ({| CreateOrder.success := false; CreateOrder.orderId := None;
                CreateOrder.error :=
                  Some (error_message_or t "Failed to create order") |},
             set_loaded
               (set_error (error_message_or t "Failed to create order")
                  (set_loading s)),
             useCartStore,
             insert_log
               (order_create_error_log created_at
                  (error_message_or t "Failed to create order")) d0)
            = (r, s', cart', d') ->
            isLoading s' = false
            /\ ((CreateOrder.success r = true
                 /\ CreateOrder.error r = None
                 /\ error s' = None
                 /\ cart' = Bound []
                 /\ exists user data,
                      useUserStore = Bound (Some user)
                      /\ rpc e user orderData d = Ok (data, d')
                      /\ truthy (json_get data "success") = true
                      /\ CreateOrder.orderId r = json_get data "order_id")
                \/ (CreateOrder.success r = false
                    /\ CreateOrder.orderId r = None
                    /\ cart' = useCartStore
                    /\ exists message d0,
                         CreateOrder.error r = Some message
                         /\ error s' = Some message
                         /\ (d0 = d
                             \/ exists user data,
                                  useUserStore = Bound (Some user)
                                  /\ rpc e user orderData d = Ok (data, d0))
                         /\ d' = with_activity_logs
                                   (activity_logs d0
                                    ++ [order_create_error_log created_at
                                          message])%list
                                   d0))).
  { intros t d0 Hd0 E. injection E as <- <- <- <-.
    split; [reflexivity|]. right.
    split; [reflexivity|]. split; [reflexivity|]. split; [reflexivity|].
    exists (error_message_or t "Failed to create order"), d0.
    split; [reflexivity|]. split; [reflexivity|]. split; [exact Hd0|].
    apply insert_log_order_create_error. }
  destruct useUserStore as [[user|]|]; cbn [read] in H.
  - destruct (place_order_complete _ _ _ _ _ _ _ _ _ _) as [[data d1]|err]
      eqn:P.
    + destruct (truthy (json_get data "success")) eqn:T; cbn [negb] in H.
      * destruct useCartStore as [cart|]; cbn [read] in H.
        -- injection H as <- <- <- <-.
           split; [reflexivity|]. left.
           split; [reflexivity|]. split; [reflexivity|].
           split; [reflexivity|]. split; [reflexivity|].
           exists user, data. auto.
        -- refine (failed _ d1 _ H). right. exists user, data. auto.
      * refine (failed _ d1 _ H). right. exists user, data. auto.
    + refine (failed _ d _ H). left. reflexivity.
  - refine (failed _ d _ H). left. reflexivity.
  - refine (failed _ d _ H). left. reflexivity.
Qed.

(** X12. [createOrder] as orderStore.ts has it places no order: the
    module reads [useUserStore] and imports no such name, so the [try]
    block ends there, before [store_settings] is read or the procedure is
    called.  Whatever the order, the cart and the database, the call
    reports the failure 'useUserStore is not defined', leaves the cart as
    it was, and leaves the database as it was but for one
    ORDER_CREATE_ERROR row with that message. *)
Theorem createOrder_store_not_imported :
  forall e created_at useCartStore orderData s d,
    let message := "useUserStore is not defined" in
    createOrder' e created_at Unbound useCartStore orderData s d
    = ({| CreateOrder.success := false;
          CreateOrder.orderId := None;
          CreateOrder.error := Some message |},
       set_loaded (set_error message (set_loading s)),
       useCartStore,
       with_activity_logs
         (activity_logs d ++ [order_create_error_log created_at message])%list
         d).
Proof.
  intros e created_at useCartStore orderData s d message.
  unfold createOrder, createOrder_try. cbn [read].
  change ("useUserStore" ++ " is not defined") with message.
  cbn [error_message_or instanceof_Error message_of].
  rewrite insert_log_order_create_error. reflexivity.
Qed.

End ClientProperties.

(** ** The payment slip form *)

Lemma orders_with_status_columns {A} (column : Orders.row -> A) now orderId
    status tbl :
  (forall r v, column (Orders.set_updated_at (Some now)
                         (Orders.set_status v r)) = column r) ->
  map column (orders_with_status now orderId status tbl) = map column tbl.
Proof.
  intros C. unfold orders_with_status. rewrite map_map.
  apply map_ext. intros r. destruct (has_id orderId r); [apply C|reflexivity].
Qed.

Lemma paid_in_statuses : In "paid" Orders.statuses.
Proof. unfold Orders.statuses. simpl. tauto. Qed.

Lemma verifyPayment_accepts e iso data d :
  (5 <= String.length (ThunderClient.Request.trans_ref data))%nat ->
  0 < ThunderClient.Request.amount data ->
  ThunderClient.Request.slip_url data <> "" ->
  exists r called,
    ThunderClient.verifyPayment e iso data d = (Resolved r, called, d)
    /\ ThunderClient.Response.success r = true
    /\ ThunderClient.Response.verified r = true.
Proof.
  intros L A U.
  unfold ThunderClient.verifyPayment, ThunderClient.verifyPayment_try,
    ThunderClient.validation_errors.
  destruct (ThunderClient.Request.trans_ref data) as [|c rest] eqn:T;
    [simpl in L; lia|].
  cbn [ThunderClient.falsy orb].
  destruct (Nat.ltb_spec (String.length (String c rest)) 5); [lia|].
  destruct (Z.leb_spec (ThunderClient.Request.amount data) 0); [lia|].
  destruct (ThunderClient.Request.slip_url data) as [|c' rest'] eqn:S;
    [contradiction U; reflexivity|].
  cbn. eexists. eexists. split; [reflexivity|]. split; reflexivity.
Qed.

(** X13. The form marks the order paid without storing the reference.
    With a file selected and uploaded, a reference of five characters or
    more once trimmed, and an amount above 0, [handleVerifyPayment] reports
    the payment verified and the database is as before but for the status
    of the orders with this id, set to 'paid': [trans_ref],
    [thunder_verified], [payment_slip_url] and [verified_at] of every
    order are as they were, and nothing is appended to [activity_logs]. *)
Theorem handleVerifyPayment_stores_no_reference :
  forall (File : Type) (uploadSlipImage : File -> promise string)
         e iso orderId totalAmount file transRef st s d st' s' d' slipUrl,
    schema_ok d ->
    uploadSlipImage file = Resolved slipUrl -> slipUrl <> "" ->
    (5 <= String.length (trim transRef))%nat ->
    0 < totalAmount ->
    PaymentSlipUploader.handleVerifyPayment File uploadSlipImage e iso orderId
      totalAmount (Some file) transRef st s d = (st', s', d') ->
    PaymentSlipUploader.completed st' = Some true
    /\ PaymentSlipUploader.verificationResult st'
       = Some {| PaymentSlipUploader.success := true;
                 PaymentSlipUploader.message :=
                   "Payment verified successfully!" |}
    /\ d' = with_orders
              (orders_with_status (NOW e) orderId "paid" (orders d)) d
    /\ map Orders.trans_ref (orders d') = map Orders.trans_ref (orders d)
    /\ map Orders.thunder_verified (orders d')
       = map Orders.thunder_verified (orders d)
    /\ map Orders.payment_slip_url (orders d')
       = map Orders.payment_slip_url (orders d)
    /\ map Orders.verified_at (orders d') = map Orders.verified_at (orders d).
Proof.
  intros File uploadSlipImage e iso orderId totalAmount file transRef st s d
    st' s' d' slipUrl Sch Up Url Len Amount H.
  unfold PaymentSlipUploader.handleVerifyPayment in H.
  destruct (trim transRef) as [|c rest] eqn:T; [simpl in Len; lia|].
  cbn [ThunderClient.falsy] in H. rewrite Up in H.
  match type of H with
  | context [ThunderClient.verifyPayment e iso ?data d] =>
      destruct (verifyPayment_accepts e iso data d Len Amount Url)
        as (r & called & V & S1 & S2)
  end.
  rewrite V, S1, S2 in H. cbn [andb] in H.
  unfold updateOrderStatus in H.
  rewrite (update_order_status_Ok e orderId (status_text paid) d
             (orders_stored d Sch) (orders_keys d Sch) paid_in_statuses) in H.
  injection H as <- _ <-.
  split; [reflexivity|]. split; [reflexivity|]. split; [reflexivity|].
  cbn [orders with_orders status_text].
  repeat split; apply orders_with_status_columns; reflexivity.
Qed.

(** X27. A reference of one to four characters once trimmed is turned
    down before anything is written: with a file uploaded and an amount
    above 0, [handleVerifyPayment] reports the verification failed with
    the text 'Invalid transaction reference', and leaves the order store
    and the database as they were; the slip has been uploaded all the
    same. *)
Theorem handleVerifyPayment_short_reference :
  forall (File : Type) (uploadSlipImage : File -> promise string)
         e iso orderId totalAmount file transRef st s d st' s' d' slipUrl,
    uploadSlipImage file = Resolved slipUrl -> slipUrl <> "" ->
    (1 <= String.length (trim transRef) < 5)%nat ->
    0 < totalAmount ->
    PaymentSlipUploader.handleVerifyPayment File uploadSlipImage e iso orderId
      totalAmount (Some file) transRef st s d = (st', s', d') ->
    PaymentSlipUploader.completed st' = Some false
    /\ PaymentSlipUploader.verificationResult st'
       = Some {| PaymentSlipUploader.success := false;
                 PaymentSlipUploader.message :=
                   "Invalid transaction reference" |}
    /\ s' = s /\ d' = d.
Proof.
  intros File uploadSlipImage e iso orderId totalAmount file transRef st s d
    st' s' d' slipUrl Up Url Len Amount H.
  unfold PaymentSlipUploader.handleVerifyPayment in H.
  destruct (trim transRef) as [|c rest] eqn:T; [simpl in Len; lia|].
  cbn [ThunderClient.falsy] in H. rewrite Up in H.
  unfold ThunderClient.verifyPayment, ThunderClient.verifyPayment_try,
    ThunderClient.validation_errors in H.
  cbn [ThunderClient.Request.trans_ref ThunderClient.Request.amount
       ThunderClient.Request.slip_url ThunderClient.Request.slip_image_base64
       ThunderClient.falsy orb] in H.
  destruct (Nat.ltb_spec (String.length (String c rest)) 5); [|lia].
  destruct (Z.leb_spec totalAmount 0); [lia|].
  destruct slipUrl as [|c' rest']; [contradiction Url; reflexivity|].
  cbn in H. injection H as <- <- <-. auto.
Qed.

(** ** The answers of the payment client *)

(** X14. [validateThunderResponse] accepts the answer [verifyPayment]
    resolves with exactly when the request carries a transaction reference
    that is not empty and an amount above 0, whether the answer reports the
    payment verified or not. *)
Theorem validateThunderResponse_of_verifyPayment :
  forall e iso data d,
    exists r called d',
      ThunderClient.verifyPayment e iso data d = (Resolved r, called, d')
      /\ validateThunderResponse r
         = negb (ThunderClient.falsy (ThunderClient.Request.trans_ref data))
           && (0 <? ThunderClient.Request.amount data).
Proof.
  intros e iso data d.
  unfold ThunderClient.verifyPayment, ThunderClient.verifyPayment_try,
    ThunderClient.validation_errors.
  destruct (ThunderClient.falsy (ThunderClient.Request.trans_ref data)
            || (String.length (ThunderClient.Request.trans_ref data) <? 5)%nat)
    eqn:R.
  - cbn. eexists. eexists. eexists. split; [reflexivity|].
    unfold validateThunderResponse. cbn. reflexivity.
  - destruct (Z.leb_spec (ThunderClient.Request.amount data) 0) as [A|A].
    + cbn. eexists. eexists. eexists. split; [reflexivity|].
      unfold validateThunderResponse. cbn. reflexivity.
    + destruct (ThunderClient.falsy (ThunderClient.Request.slip_url data)
                && ThunderClient.falsy_opt
                     (ThunderClient.Request.slip_image_base64 data)).
      * cbn. eexists. eexists. eexists. split; [reflexivity|].
        unfold validateThunderResponse. cbn. reflexivity.
      * cbn. eexists. eexists. eexists. split; [reflexivity|].
        unfold validateThunderResponse. cbn.
        apply orb_false_iff in R. destruct R as [R _]. rewrite R.
        destruct (Z.ltb_spec 0 (ThunderClient.Request.amount data)); [|lia].
        reflexivity.
Qed.

(** ** The client of the small shop *)

(** X11 at work: the customer orders two boxes of tea. *)
Lemma createOrder_outcome_witness :
  let run :=
    createOrder_of_whole_numbers (engine 1 "order-1") 1
      (Bound (Some signed_in)) (Bound []) (order_of_teas 2) empty_store shop in
  let r := fst (fst (fst run)) in
  let s' := snd (fst (fst run)) in
  let cart' := snd (fst run) in
  let d' := snd run in
  isLoading s' = false
  /\ ((CreateOrder.success r = true
       /\ CreateOrder.error r = None
       /\ error s' = None
       /\ cart' = Bound []
       /\ exists user data,
            Bound (Some signed_in) = Bound (Some user)
            /\ place_order_complete (engine 1 "order-1")
                 (User.id user) (Some "12 Main Road") None
                 (Some 24000) (Some 0)
                 (map item_of_whole_numbers (items Z (order_of_teas 2)))
                 None None shop
               = Ok (data, d')
            /\ truthy (json_get data "success") = true
            /\ CreateOrder.orderId r = json_get data "order_id")
      \/ (CreateOrder.success r = false
          /\ CreateOrder.orderId r = None
          /\ cart' = Bound []
          /\ exists message d0,
               CreateOrder.error r = Some message
               /\ error s' = Some message
               /\ (d0 = shop
                   \/ exists user data,
                        Bound (Some signed_in) = Bound (Some user)
                        /\ place_order_complete (engine 1 "order-1")
                             (User.id user) (Some "12 Main Road") None
                             (Some 24000) (Some 0)
                             (map item_of_whole_numbers
                                (items Z (order_of_teas 2)))
                             None None shop
                           = Ok (data, d0))
               /\ d' = with_activity_logs
                         (activity_logs d0
                          ++ [order_create_error_log 1 message])%list
                         d0)).
Proof.
  cbv zeta.
  apply (createOrder_outcome Z 0 Z.add Z.mul (Z.eqb 0) text_of_int (@Some Z)
           (fun z => z) text_of_int item_of_whole_numbers
           (engine 1 "order-1") 1 (Bound (Some signed_in)) (Bound [])
           (order_of_teas 2) empty_store shop).
  vm_compute. reflexivity.
Defined.

Lemma slip_url_not_empty : "slip-1.png" <> "".
Proof. discriminate. Qed.

(** X13 at work: the customer sends the slip of the order with the
    reference TX-0001; the order is marked paid and carries no
    reference. *)
Lemma handleVerifyPayment_stores_no_reference_witness :
  let run :=
    PaymentSlipUploader.handleVerifyPayment string
      (fun _ => Resolved "slip-1.png") (engine 2 "") "2026-11-02T00:00:00.000Z"
      "order-1" 27000 (Some "slip-1.png") " TX-0001 " empty_form empty_store
      shop_with_order in
  let st' := fst (fst run) in
  let d' := snd run in
  PaymentSlipUploader.completed st' = Some true
  /\ PaymentSlipUploader.verificationResult st'
     = Some {| PaymentSlipUploader.success := true;
               PaymentSlipUploader.message :=
                 "Payment verified successfully!" |}
  /\ d' = with_orders
            (orders_with_status (NOW (engine 2 "")) "order-1" "paid"
               (orders shop_with_order)) shop_with_order
  /\ map Orders.trans_ref (orders d')
     = map Orders.trans_ref (orders shop_with_order)
  /\ map Orders.thunder_verified (orders d')
     = map Orders.thunder_verified (orders shop_with_order)
  /\ map Orders.payment_slip_url (orders d')
     = map Orders.payment_slip_url (orders shop_with_order)
  /\ map Orders.verified_at (orders d')
     = map Orders.verified_at (orders shop_with_order).
Proof.
  cbv zeta.
  apply (handleVerifyPayment_stores_no_reference string
           (fun _ => Resolved "slip-1.png") (engine 2 "")
           "2026-11-02T00:00:00.000Z" "order-1" 27000 "slip-1.png"
           " TX-0001 " empty_form empty_store shop_with_order _
           (snd (fst (PaymentSlipUploader.handleVerifyPayment string
                        (fun _ => Resolved "slip-1.png") (engine 2 "")
                        "2026-11-02T00:00:00.000Z" "order-1" 27000
                        (Some "slip-1.png") " TX-0001 " empty_form empty_store
                        shop_with_order)))
           _ "slip-1.png").
  - exact (reachable_schema_ok _ reachable_shop_with_order).
  - reflexivity.
  - exact slip_url_not_empty.
  - vm_compute. lia.
  - lia.
  - vm_compute. reflexivity.
Defined.

(** X27 at work: the customer types a reference of three characters. *)
Lemma handleVerifyPayment_short_reference_witness :
  let run :=
    PaymentSlipUploader.handleVerifyPayment string
      (fun _ => Resolved "slip-1.png") (engine 2 "") "2026-11-02T00:00:00.000Z"
      "order-1" 27000 (Some "slip-1.png") " TX1 " empty_form empty_store
      shop_with_order in
  PaymentSlipUploader.completed (fst (fst run)) = Some false
  /\ PaymentSlipUploader.verificationResult (fst (fst run))
     = Some {| PaymentSlipUploader.success := false;
               PaymentSlipUploader.message :=
                 "Invalid transaction reference" |}
  /\ snd (fst run) = empty_store /\ snd run = shop_with_order.
Proof.
  cbv zeta.
  apply (handleVerifyPayment_short_reference string
           (fun _ => Resolved "slip-1.png") (engine 2 "")
           "2026-11-02T00:00:00.000Z" "order-1" 27000 "slip-1.png"
           " TX1 " empty_form empty_store shop_with_order _ _ _ "slip-1.png").
  - reflexivity.
  - exact slip_url_not_empty.
  - vm_compute. lia.
  - lia.
  - vm_compute. reflexivity.
Defined.

(** ** Sanitized input *)

Lemma zero_not_white_space : JsString.is_white_space 0 = false.
Proof. reflexivity. Qed.

Lemma trimStart_split s :
  exists p, s = (p ++ JsString.trimStart s)%list
            /\ Forall (fun c => JsString.is_white_space c = true) p.
Proof.
  induction s as [|c s IH]; simpl.
  - exists []. auto.
  - destruct (JsString.is_white_space c) eqn:W.
    + destruct IH as (p & E & F). exists (c :: p). split.
      * simpl. f_equal. exact E.
      * constructor; assumption.
    + exists []. auto.
Qed.

Lemma trimStart_hd s :
  JsString.is_white_space (hd 0%N (JsString.trimStart s)) = false.
Proof.
  induction s as [|c s IH]; simpl; [reflexivity|].
  destruct (JsString.is_white_space c) eqn:W; [exact IH|exact W].
Qed.

Lemma trimStart_fixed s :
  JsString.trimStart s = s <-> JsString.is_white_space (hd 0%N s) = false.
Proof.
  split.
  - intros E. rewrite <- E. apply trimStart_hd.
  - destruct s as [|c s]; simpl; [reflexivity|]. intros ->. reflexivity.
Qed.

Lemma trimStart_length s :
  (List.length (JsString.trimStart s) <= List.length s)%nat.
Proof.
  destruct (trimStart_split s) as (p & E & _).
  rewrite E at 2. rewrite length_app. lia.
Qed.

Lemma trimStart_same_length s :
  List.length (JsString.trimStart s) = List.length s ->
  JsString.trimStart s = s.
Proof.
  intros L. destruct (trimStart_split s) as (p & E & _).
  rewrite E in L at 2. rewrite length_app in L.
  destruct p; [exact (eq_sym E)|simpl in L; lia].
Qed.

Lemma hd_rev (s : list N) : hd 0%N (rev s) = last s 0%N.
Proof.
  induction s as [|c s IH] using rev_ind; [reflexivity|].
  rewrite rev_app_distr, last_last. reflexivity.
Qed.

Lemma trimEnd_split s :
  exists q, s = (JsString.trimEnd s ++ q)%list
            /\ Forall (fun c => JsString.is_white_space c = true) q.
Proof.
  unfold JsString.trimEnd.
  destruct (trimStart_split (rev s)) as (p & E & F).
  exists (rev p). split.
  - rewrite <- rev_app_distr, <- E, rev_involutive. reflexivity.
  - apply Forall_rev. exact F.
Qed.

Lemma trimEnd_last s :
  JsString.is_white_space (last (JsString.trimEnd s) 0%N) = false.
Proof.
  unfold JsString.trimEnd. rewrite <- hd_rev, rev_involutive.
  apply trimStart_hd.
Qed.

Lemma trimEnd_fixed s :
  JsString.trimEnd s = s <-> JsString.is_white_space (last s 0%N) = false.
Proof.
  unfold JsString.trimEnd. rewrite <- hd_rev, <- trimStart_fixed.
  split; intros E.
  - rewrite <- E at 2. rewrite rev_involutive. reflexivity.
  - rewrite E. apply rev_involutive.
Qed.

Lemma trimEnd_length s :
  (List.length (JsString.trimEnd s) <= List.length s)%nat.
Proof.
  destruct (trimEnd_split s) as (q & E & _).
  rewrite E at 2. rewrite length_app. lia.
Qed.

Lemma trimEnd_same_length s :
  List.length (JsString.trimEnd s) = List.length s ->
  JsString.trimEnd s = s.
Proof.
  intros L. destruct (trimEnd_split s) as (q & E & _).
  rewrite E in L at 2. rewrite length_app in L.
  destruct q; [rewrite app_nil_r in E; exact (eq_sym E)|simpl in L; lia].
Qed.

Lemma trimEnd_hd s :
  JsString.is_white_space (hd 0%N s) = false ->
  JsString.is_white_space (hd 0%N (JsString.trimEnd s)) = false.
Proof.
  intros H. destruct (trimEnd_split s) as (q & E & _).
  destruct (JsString.trimEnd s) as [|c t]; [reflexivity|].
  rewrite E in H. exact H.
Qed.

Lemma trim_split s :
  exists p q, s = (p ++ JsString.trim s ++ q)%list.
Proof.
  unfold JsString.trim.
  destruct (trimStart_split s) as (p & E & _).
  destruct (trimEnd_split (JsString.trimStart s)) as (q & E' & _).
  exists p, q. rewrite <- E'. exact E.
Qed.

Lemma trim_length s : (List.length (JsString.trim s) <= List.length s)%nat.
Proof.
  destruct (trim_split s) as (p & q & E). rewrite E at 2.
  rewrite !length_app. lia.
Qed.

Lemma trim_In s c : In c (JsString.trim s) -> In c s.
Proof.
  intros H. destruct (trim_split s) as (p & q & E). rewrite E.
  apply in_or_app. right. apply in_or_app. left. exact H.
Qed.

Lemma trim_fixed s :
  JsString.trim s = s
  <-> JsString.is_white_space (hd 0%N s) = false
      /\ JsString.is_white_space (last s 0%N) = false.
Proof.
  unfold JsString.trim. split.
  - intros E.
    assert (S : JsString.trimStart s = s).
    { apply trimStart_same_length.
      pose proof (trimStart_length s).
      pose proof (trimEnd_length (JsString.trimStart s)).
      rewrite E in H0. lia. }
    rewrite S in E. split.
    + apply trimStart_fixed. exact S.
    + apply trimEnd_fixed. exact E.
  - intros [H L].
    rewrite (proj2 (trimStart_fixed s) H). apply trimEnd_fixed. exact L.
Qed.

Lemma trim_hd s : JsString.is_white_space (hd 0%N (JsString.trim s)) = false.
Proof. apply trimEnd_hd. apply trimStart_hd. Qed.

Lemma remove_angle_brackets_In s c :
  In c (remove_angle_brackets s) -> In c s /\ c <> 60%N /\ c <> 62%N.
Proof.
  unfold remove_angle_brackets. intros H. apply filter_In in H.
  destruct H as [H B]. split; [exact H|].
  apply negb_true_iff, orb_false_iff in B. destruct B as [B1 B2].
  split; apply N.eqb_neq; assumption.
Qed.

Lemma remove_angle_brackets_fixed s :
  remove_angle_brackets s = s <-> ~ In 60%N s /\ ~ In 62%N s.
Proof.
  split.
  - intros E. split; intros H; rewrite <- E in H;
      apply remove_angle_brackets_In in H; tauto.
  - intros [A B]. unfold remove_angle_brackets.
    induction s as [|c s IH]; [reflexivity|]. simpl.
    destruct (N.eqb_spec c 60) as [->|N1]; [exfalso; apply A; left; reflexivity|].
    destruct (N.eqb_spec c 62) as [->|N2]; [exfalso; apply B; left; reflexivity|].
    simpl. f_equal. apply IH; intros H; [apply A|apply B]; right; exact H.
Qed.

Lemma firstn_In' {A} (n : nat) (l : list A) (c : A) :
  In c (firstn n l) -> In c l.
Proof.
  intros H. rewrite <- (firstn_skipn n l). apply in_or_app. left. exact H.
Qed.

Lemma firstn_hd (n : nat) (s : list N) :
  hd 0%N (firstn (S n) s) = hd 0%N s.
Proof. destruct s; reflexivity. Qed.

Lemma sanitizeInput_units input :
  (List.length (sanitizeInput input) <= 1000)%nat
  /\ ~ In 60%N (sanitizeInput input)
  /\ ~ In 62%N (sanitizeInput input)
  /\ JsString.is_white_space (hd 0%N (sanitizeInput input)) = false.
Proof.
  unfold sanitizeInput. split; [apply firstn_le_length|].
  assert (A : forall c, In c (firstn 1000
                                (JsString.trim (remove_angle_brackets input))) ->
                        c <> 60%N /\ c <> 62%N).
  { intros c H. apply firstn_In', trim_In, remove_angle_brackets_In in H.
    tauto. }
  split; [intros H; apply A in H; tauto|].
  split; [intros H; apply A in H; tauto|].
  rewrite firstn_hd. apply trim_hd.
Qed.

(** X15. What [sanitizeInput] returns has at most 1000 code units, holds
    neither [<] nor [>], and does not begin with white space. *)
Theorem sanitizeInput_clean :
  forall input,
    (List.length (sanitizeInput input) <= 1000)%nat
    /\ ~ In 60%N (sanitizeInput input)
    /\ ~ In 62%N (sanitizeInput input)
    /\ JsString.is_white_space (hd 0%N (sanitizeInput input)) = false.
Proof. exact sanitizeInput_units. Qed.

(** X16. [sanitizeInput] returns its input as it is exactly when the
    input has at most 1000 code units, holds neither [<] nor [>], and
    neither begins nor ends with white space. *)
Theorem sanitizeInput_fixed :
  forall input,
    sanitizeInput input = input
    <-> (List.length input <= 1000)%nat
        /\ ~ In 60%N input /\ ~ In 62%N input
        /\ JsString.is_white_space (hd 0%N input) = false
        /\ JsString.is_white_space (last input 0%N) = false.
Proof.
  intros input. split.
  - intros E.
    destruct (sanitizeInput_units input) as (L & A & B & H).
    rewrite E in L, A, B, H.
    split; [exact L|]. split; [exact A|]. split; [exact B|].
    split; [exact H|].
    unfold sanitizeInput in E.
    rewrite (proj2 (remove_angle_brackets_fixed input) (conj A B)) in E.
    assert (T : JsString.trim input = input).
    { pose proof (trim_length input) as TL.
      pose proof (length_firstn 1000 (JsString.trim input)) as FL.
      rewrite E in FL.
      assert (EL : List.length (JsString.trim input) = List.length input)
        by lia.
      rewrite firstn_all2 in E by lia. exact E. }
    apply trim_fixed in T. tauto.
  - intros (L & A & B & H & T). unfold sanitizeInput.
    rewrite (proj2 (remove_angle_brackets_fixed input) (conj A B)).
    rewrite (proj2 (trim_fixed input) (conj H T)).
    apply firstn_all2. exact L.
Qed.

(** ** What the cart computes *)

Section CartTotalsProperties.

Variable number : Type.
Variable zero one : number.
Variable plus times : number -> number -> number.
Variable le_zero : number -> bool.
Variable Math_min : number -> number -> number.

Local Abbreviation CartItem := (CartStore.CartItem number).
Local Abbreviation getItemQuantity := (CartTotals.getItemQuantity number zero).
Local Abbreviation getTotalItems := (CartTotals.getTotalItems number zero plus).
Local Abbreviation getTotalPrice :=
  (CartTotals.getTotalPrice number zero plus times).
Local Abbreviation addItem := (@CartStore.addItem number one plus).
Local Abbreviation updateQuantity :=
  (@CartStore.updateQuantity number le_zero Math_min).

Lemma find_filter_other (p q : string) (items : list CartItem) :
  q <> p ->
  find (fun item => String.eqb (CartStore.product_id item) q)
    (filter (fun item => negb (String.eqb (CartStore.product_id item) p)) items)
  = find (fun item => String.eqb (CartStore.product_id item) q) items.
Proof.
  intros N. induction items as [|x items IH]; [reflexivity|]. simpl.
  destruct (String.eqb_spec (CartStore.product_id x) p) as [E|E]; simpl.
  - destruct (String.eqb_spec (CartStore.product_id x) q) as [E'|E'];
      [congruence|exact IH].
  - destruct (String.eqb (CartStore.product_id x) q); [reflexivity|exact IH].
Qed.

Lemma find_filter_same (p : string) (items : list CartItem) :
  find (fun item => String.eqb (CartStore.product_id item) p)
    (filter (fun item => negb (String.eqb (CartStore.product_id item) p)) items)
  = None.
Proof.
  induction items as [|x items IH]; [reflexivity|]. simpl.
  destruct (String.eqb (CartStore.product_id x) p) eqn:E; simpl;
    [exact IH|]. rewrite E. exact IH.
Qed.

(** X17. Removing a product from the cart: the quantity
    [getItemQuantity] gives of it afterwards is 0, as after [clearCart],
    and the quantity of every other product is as before. *)
Theorem getItemQuantity_after_removeItem :
  forall (p q : string) (items : list CartItem),
    getItemQuantity p (CartStore.removeItem p items) = zero
    /\ getItemQuantity p (CartStore.clearCart items) = zero
    /\ (String.eqb q p = false ->
        getItemQuantity q (CartStore.removeItem p items)
        = getItemQuantity q items).
Proof.
  intros p q items. unfold CartTotals.getItemQuantity, CartStore.removeItem.
  split; [rewrite find_filter_same; reflexivity|].
  split; [reflexivity|].
  intros N. apply String.eqb_neq in N.
  rewrite (find_filter_other p q items N). reflexivity.
Qed.

Lemma find_map_quantity (p q : string) (f : CartItem -> number)
    (items : list CartItem) :
  find (fun item => String.eqb (CartStore.product_id item) q)
    (map (fun item => if String.eqb (CartStore.product_id item) p
                      then CartStore.with_quantity (f item) item
                      else item) items)
  = option_map (fun item => if String.eqb (CartStore.product_id item) p
                            then CartStore.with_quantity (f item) item
                            else item)
      (find (fun item => String.eqb (CartStore.product_id item) q) items).
Proof.
  induction items as [|x items IH]; [reflexivity|]. simpl.
  destruct (String.eqb (CartStore.product_id x) p) eqn:E;
    cbn [CartStore.product_id CartStore.with_quantity];
    destruct (String.eqb (CartStore.product_id x) q) eqn:E'; simpl;
    rewrite ?E; auto.
Qed.

Lemma find_snoc_none (q : string) (x : CartItem) (items : list CartItem) :
  find (fun item => String.eqb (CartStore.product_id item) q) items = None ->
  find (fun item => String.eqb (CartStore.product_id item) q)
    (items ++ [x])
  = if String.eqb (CartStore.product_id x) q then Some x else None.
Proof.
  induction items as [|y items IH]; simpl; [reflexivity|].
  destruct (String.eqb (CartStore.product_id y) q); [discriminate|exact IH].
Qed.

Lemma find_snoc_some (q : string) (x y : CartItem) (items : list CartItem) :
  find (fun item => String.eqb (CartStore.product_id item) q) items = Some y ->
  find (fun item => String.eqb (CartStore.product_id item) q)
    (items ++ [x]) = Some y.
Proof.
  induction items as [|z items IH]; simpl; [discriminate|].
  destruct (String.eqb (CartStore.product_id z) q); [auto|exact IH].
Qed.

Lemma find_product_id (q : string) (y : CartItem) (items : list CartItem) :
  find (fun item => String.eqb (CartStore.product_id item) q) items = Some y ->
  CartStore.product_id y = q.
Proof.
  intros H. apply find_some in H. destruct H as [_ H].
  apply String.eqb_eq. exact H.
Qed.

(** X18. Adding a product to the cart: the quantity [getItemQuantity]
    gives of it afterwards is the quantity added when the cart did not
    hold the product, and the sum of the quantity the cart held and the
    quantity added when it did; the quantity of every other product is as
    before. *)
Theorem getItemQuantity_after_addItem :
  forall (product : CartStore.Product number) (quantity_arg : option number)
         (q : string) (items : list CartItem),
    let quantity := match quantity_arg with Some n => n | None => one end in
    getItemQuantity (CartStore.id product)
      (addItem product quantity_arg items)
    = match find (fun item => String.eqb (CartStore.product_id item)
                                (CartStore.id product)) items with
      | Some item => plus (CartStore.quantity item) quantity
      | None => quantity
      end
    /\ (String.eqb q (CartStore.id product) = false ->
        getItemQuantity q (addItem product quantity_arg items)
        = getItemQuantity q items).
Proof.
  intros product quantity_arg q items quantity. subst quantity.
  unfold CartTotals.getItemQuantity, CartStore.addItem.
  destruct (find (fun item => String.eqb (CartStore.product_id item)
                                (CartStore.id product)) items)
    as [y|] eqn:F.
  - split.
    + rewrite find_map_quantity, F. simpl.
      rewrite (find_product_id _ _ _ F), String.eqb_refl. reflexivity.
    + intros N. rewrite find_map_quantity.
      destruct (find (fun item => String.eqb (CartStore.product_id item) q)
                  items) as [z|] eqn:G; [|reflexivity].
      simpl. rewrite (find_product_id _ _ _ G), N. reflexivity.
  - split.
    + rewrite (find_snoc_none _ _ _ F). simpl. rewrite String.eqb_refl.
      reflexivity.
    + intros N.
      destruct (find (fun item => String.eqb (CartStore.product_id item) q)
                  items) as [z|] eqn:G.
      * rewrite (find_snoc_some _ _ _ _ G). reflexivity.
      * rewrite (find_snoc_none _ _ _ G). simpl.
        rewrite String.eqb_sym, N. reflexivity.
Qed.

(** X19. Setting the quantity of a product the cart holds: with a
    quantity above 0, [getItemQuantity] gives afterwards the smaller of
    that quantity and the stock the product had when it was added; with a
    quantity of 0 or less, it gives 0, the product having been removed. *)
Theorem getItemQuantity_after_updateQuantity :
  forall (p : string) (quantity : number) (items : list CartItem),
    getItemQuantity p (updateQuantity p quantity items)
    = if le_zero quantity then zero
      else match find (fun item => String.eqb (CartStore.product_id item) p)
                   items with
           | Some item => Math_min quantity (CartStore.max_quantity item)
           | None => zero
           end.
Proof.
  intros p quantity items.
  unfold CartTotals.getItemQuantity, CartStore.updateQuantity.
  destruct (le_zero quantity).
  - unfold CartStore.removeItem. rewrite find_filter_same. reflexivity.
  - rewrite find_map_quantity.
    destruct (find (fun item => String.eqb (CartStore.product_id item) p)
                items) as [y|] eqn:F; [|reflexivity].
    simpl. rewrite (find_product_id _ _ _ F), String.eqb_refl. reflexivity.
Qed.

(** X20. Adding a product the cart does not hold adds exactly its
    quantity to [getTotalItems] and its price times its quantity to
    [getTotalPrice]: each total is the total before, plus the new term. *)
Theorem totals_after_addItem :
  forall (product : CartStore.Product number) (quantity_arg : option number)
         (items : list CartItem),
    find (fun item => String.eqb (CartStore.product_id item)
                        (CartStore.id product)) items = None ->
    let quantity := match quantity_arg with Some n => n | None => one end in
    getTotalItems (addItem product quantity_arg items)
    = plus (getTotalItems items) quantity
    /\ getTotalPrice (addItem product quantity_arg items)
       = plus (getTotalPrice items) (times (CartStore.price product) quantity).
Proof.
  intros product quantity_arg items F quantity. subst quantity.
  unfold CartTotals.getTotalItems, CartTotals.getTotalPrice, CartStore.addItem.
  rewrite F. rewrite !fold_left_app. split; reflexivity.
Qed.

End CartTotalsProperties.

(** X20 at work: a box of tea added to a cart that holds coffee. *)
Lemma totals_after_addItem_witness :
  let coffee :=
    {| CartStore.product_id := "coffee"; CartStore.product_name := "Coffee";
       CartStore.product_image := None; CartStore.unit_price := 9000;
       CartStore.quantity := 2; CartStore.max_quantity := 10 |} in
  let tea_product :=
    {| CartStore.id := "tea"; CartStore.name := "Tea";
       CartStore.image_url := None; CartStore.price := 12000;
       CartStore.stock := 5 |} in
  CartTotals.getTotalItems Z 0 Z.add
    (CartStore.addItem 1 Z.add tea_product (Some 3) [coffee])
  = CartTotals.getTotalItems Z 0 Z.add [coffee] + 3
  /\ CartTotals.getTotalPrice Z 0 Z.add Z.mul
       (CartStore.addItem 1 Z.add tea_product (Some 3) [coffee])
     = CartTotals.getTotalPrice Z 0 Z.add Z.mul [coffee] + 12000 * 3.
Proof.
  cbv zeta.
  apply (totals_after_addItem Z 0 1 Z.add Z.mul
           {| CartStore.id := "tea"; CartStore.name := "Tea";
              CartStore.image_url := None; CartStore.price := 12000;
              CartStore.stock := 5 |} (Some 3)).
  reflexivity.
Defined.

(** ** The cart hook *)

Section UseCartProperties.

Variable number : Type.

Local Abbreviation CartItem := (CartStore.CartItem number).

Lemma filter_filter {A} (f g : A -> bool) (l : list A) :
  filter f (filter g l) = filter (fun x => g x && f x) l.
Proof.
  induction l as [|x l IH]; [reflexivity|]. simpl.
  destruct (g x); simpl; [destruct (f x)|]; rewrite IH; reflexivity.
Qed.

(** The cart after the loop of [validateCartItems] over [l]. *)
Lemma validate_loop (ok : string -> bool) (l cart : list CartItem) :
  fold_left
    (fun cart item =>
       if negb (ok (CartStore.product_id item))
       then CartStore.removeItem (CartStore.product_id item) cart
       else cart) l cart
  = filter (fun c =>
              forallb (fun item =>
                         ok (CartStore.product_id item)
                         || negb (String.eqb (CartStore.product_id c)
                                    (CartStore.product_id item))) l)
           cart.
Proof.
  revert cart. induction l as [|item l IH]; intros cart; simpl.
  - induction cart as [|c cart IHc]; [reflexivity|]. simpl.
    f_equal. exact IHc.
  - rewrite IH. destruct (ok (CartStore.product_id item)); simpl.
    + reflexivity.
    + unfold CartStore.removeItem. rewrite filter_filter. reflexivity.
Qed.

Lemma available_on_sale (productIds : list string) (d : db) (p : string) :
  In p productIds ->
  existsb (String.eqb p)
    (non_null (map Products.id
                 (filter available_with_stock
                    (select_products_in productIds d))))
  = on_sale d p.
Proof.
  intros Hin. unfold on_sale, select_products_in.
  induction (products d) as [|r rows IH]; [reflexivity|]. simpl.
  destruct (Products.id r) as [i|] eqn:I; simpl.
  - destruct (String.eqb_spec i p) as [->|N].
    + assert (E : existsb (String.eqb p) productIds = true).
      { apply existsb_exists. exists p. split; [exact Hin|].
        apply String.eqb_refl. }
      rewrite E. simpl.
      destruct (available_with_stock r); simpl.
      * rewrite I. simpl. rewrite String.eqb_refl. reflexivity.
      * exact IH.
    + destruct (existsb (String.eqb i) productIds); simpl; [|exact IH].
      destruct (available_with_stock r); simpl; [|exact IH].
      rewrite I. simpl. rewrite String.eqb_sym.
      apply String.eqb_neq in N. rewrite N. exact IH.
  - exact IH.
Qed.

(** X21. After [validateCartItems] the cart holds, in their order,
    exactly the items whose product is on sale in [products] with a stock
    above 0; the items of a product that is missing, withdrawn or out of
    stock are removed. *)
Theorem validateCartItems_keeps_on_sale :
  forall (items : list CartItem) (d : db),
    validateCartItems number items d
    = filter (fun item => on_sale d (CartStore.product_id item)) items.
Proof.
  intros items d. unfold validateCartItems.
  destruct (map (@CartStore.product_id number) items) as [|i ids] eqn:M.
  - destruct items; [reflexivity|discriminate].
  - rewrite <- M.
    rewrite (validate_loop
               (fun p => existsb (String.eqb p)
                           (non_null
                              (map Products.id
                                 (filter available_with_stock
                                    (select_products_in
                                       (map (@CartStore.product_id number)
                                          items) d)))))).
    apply filter_ext_in. intros c Hc.
    assert (Hp : forall x, In x items ->
                   In (CartStore.product_id x)
                      (map (@CartStore.product_id number) items)).
    { intros x Hx. apply in_map. exact Hx. }
    destruct (on_sale d (CartStore.product_id c)) eqn:S.
    + apply forallb_forall. intros item Hitem.
      destruct (String.eqb_spec (CartStore.product_id c)
                  (CartStore.product_id item)) as [E|E]; simpl.
      * rewrite <- E, (available_on_sale _ d _ (Hp c Hc)), S. reflexivity.
      * apply orb_true_r.
    + apply not_true_is_false. intros F.
      rewrite forallb_forall in F. specialize (F c Hc).
      rewrite (available_on_sale _ d _ (Hp c Hc)), S, String.eqb_refl in F.
      discriminate F.
Qed.

End UseCartProperties.

(** ** Signing in *)

Lemma newProfile_refused users lineUserId displayName date tbl :
  exists err,
    UserProfiles.insert users (newProfile lineUserId displayName date) tbl
    = Raise err.
Proof.
  unfold UserProfiles.insert, UserProfiles.accept. cbn [newProfile
    UserProfiles.line_user_id UserProfiles.display_name UserProfiles.id].
  destruct (varchar 50 (Some lineUserId)) as [line|err]; cbn [bind];
    [|eexists; reflexivity].
  destruct (varchar 100 (Some displayName)) as [name|err]; cbn [bind];
    [|eexists; reflexivity].
  eexists; reflexivity.
Qed.

Lemma no_profile_selected lineUserId tbl :
  (forall p, In p tbl -> UserProfiles.line_user_id p <> Some lineUserId) ->
  filter (fun p => is_true (sql_eq_text (UserProfiles.line_user_id p)
                              (Some lineUserId))) tbl = [].
Proof.
  intros H. induction tbl as [|p tbl IH]; [reflexivity|]. simpl.
  destruct (UserProfiles.line_user_id p) as [l|] eqn:L; simpl.
  - destruct (String.eqb_spec l lineUserId) as [->|N].
    + exfalso. apply (H p); [left; reflexivity|exact L].
    + apply IH. intros q Hq. apply H. right. exact Hq.
  - apply IH. intros q Hq. apply H. right. exact Hq.
Qed.

(** X22. A LINE user no row of [profiles] knows cannot sign in: the row
    [login] inserts has no [id], a column that is the primary key of the
    table and has no default, so the insertion is refused; [login] rejects,
    keeps 'Login failed' as the error of the store, leaves the user and the
    profile of the store as they were, and the table unchanged. *)
Theorem login_unknown_user_rejected :
  forall e date users lineUserId displayName s tbl,
    (forall p, In p tbl -> UserProfiles.line_user_id p <> Some lineUserId) ->
    exists message,
      login e date users lineUserId displayName s tbl
      = (Rejected (PostgrestError message),
         {| user := user s; profile := profile s; user_isLoading := false;
            user_error := Some "Login failed" |},
         tbl).
Proof.
  intros e date users lineUserId displayName s tbl H.
  unfold login. rewrite (no_profile_selected lineUserId tbl H).
  destruct (newProfile_refused users lineUserId displayName date tbl)
    as (err & ->).
  exists (SQLERRM err). reflexivity.
Qed.

Lemma one_profile_selected lineUserId tbl existing :
  unique (map UserProfiles.line_user_id tbl) = true ->
  In existing tbl ->
  UserProfiles.line_user_id existing = Some lineUserId ->
  filter (fun p => is_true (sql_eq_text (UserProfiles.line_user_id p)
                              (Some lineUserId))) tbl = [existing].
Proof.
  intros U Hin L. apply unique_NoDup in U.
  induction tbl as [|p tbl IH]; [contradiction|].
  simpl in U. simpl.
  destruct Hin as [->|Hin].
  - rewrite L in *. simpl. rewrite String.eqb_refl. f_equal.
    simpl in U. apply NoDup_cons_iff in U. destruct U as [U _].
    apply no_profile_selected. intros q Hq Lq. apply U.
    apply In_non_null. apply in_map_iff. exists q. auto.
  - destruct (UserProfiles.line_user_id p) as [l|] eqn:Lp; simpl.
    + simpl in U. apply NoDup_cons_iff in U. destruct U as [U1 U2].
      destruct (String.eqb_spec l lineUserId) as [->|N].
      * exfalso. apply U1. apply In_non_null. apply in_map_iff.
        exists existing. auto.
      * apply IH; assumption.
    + apply IH; assumption.
Qed.

Lemma UserProfiles_update_length users now where_ set tbl tbl' :
  UserProfiles.update users now where_ set tbl = Ok tbl' ->
  List.length tbl' = List.length tbl.
Proof.
  unfold UserProfiles.update. intros H.
  destruct (update_rows UserProfiles.accept where_
              (fun r => UserProfiles.set_updated_at (Some now) (set r)) tbl)
    as [rows|] eqn:U; [|discriminate].
  cbn [bind] in H.
  destruct (UserProfiles.keys users rows); [|discriminate].
  cbn [bind] in H. injection H as <-.
  apply update_rows_Ok in U. symmetry. exact (Forall2_length U).
Qed.

(** X23. A LINE user that one row of [profiles] knows signs in: [login]
    resolves, the store holds that row as it was read and a user made of
    its [id], and the table keeps its number of rows; the display name
    given to [login] is not used. *)
Theorem login_known_user :
  forall e date users lineUserId displayName s tbl existing,
    unique (map UserProfiles.line_user_id tbl) = true ->
    In existing tbl ->
    UserProfiles.line_user_id existing = Some lineUserId ->
    exists tbl',
      login e date users lineUserId displayName s tbl
      = (Resolved tt,
         {| user := Some {| User.id := UserProfiles.id existing;
                            User.line_user_id := lineUserId |};
            profile := Some existing;
            user_isLoading := false;
            user_error := None |},
         tbl')
      /\ List.length tbl' = List.length tbl.
Proof.
  intros e date users lineUserId displayName s tbl existing U Hin L.
  unfold login. rewrite (one_profile_selected lineUserId tbl existing U Hin L).
  destruct (UserProfiles.update users (NOW e) _ _ tbl) as [tbl'|] eqn:Up.
  - exists tbl'. split; [reflexivity|].
    exact (UserProfiles_update_length _ _ _ _ _ _ Up).
  - exists tbl. split; reflexivity.
Qed.

(** X22 at work: a LINE user that has no profile. *)
Lemma login_unknown_user_rejected_witness :
  exists message,
    login (engine 1 "") 1 [Some "customer-1"] "U-0002" "Newcomer" signed_out
      [customer_profile]
    = (Rejected (PostgrestError message),
       {| user := None; profile := None; user_isLoading := false;
          user_error := Some "Login failed" |},
       [customer_profile]).
Proof.
  apply (login_unknown_user_rejected (engine 1 "") 1 [Some "customer-1"]
           "U-0002" "Newcomer" signed_out [customer_profile]).
  intros p [<-|[]]. discriminate.
Defined.

(** X23 at work: the customer signs in under another display name. *)
Lemma login_known_user_witness :
  exists tbl',
    login (engine 1 "") 1 [Some "customer-1"] "U-0001" "Renamed" signed_out
      [customer_profile]
    = (Resolved tt,
       {| user := Some {| User.id := UserProfiles.id customer_profile;
                          User.line_user_id := "U-0001" |};
          profile := Some customer_profile;
          user_isLoading := false;
          user_error := None |},
       tbl')
    /\ List.length tbl' = List.length [customer_profile].
Proof.
  apply (login_known_user (engine 1 "") 1 [Some "customer-1"] "U-0001"
           "Renamed" signed_out [customer_profile] customer_profile).
  - reflexivity.
  - left. reflexivity.
  - reflexivity.
Defined.

(** ** The total at checkout *)

Lemma total_price_of_cart (number : Type) (plus times : number -> number -> number)
    (items : list (CartStore.CartItem number)) (sum : number) :
  fold_left (fun sum item =>
               plus sum (times (item_unit_price number item)
                           (item_quantity number item)))
    (CheckoutPage.order_items_of number items) sum
  = fold_left (fun total item =>
                 plus total (times (CartStore.unit_price item)
                               (CartStore.quantity item)))
      items sum.
Proof.
  revert sum. induction items as [|item items IH]; intros sum;
    [reflexivity|]. simpl. apply IH.
Qed.

(** X25. The total [createOrder] computes for the order the checkout page
    hands it is the total [getTotalPrice] gives of the cart: the same
    terms, added in the same order. *)
Theorem checkout_total_is_cart_total :
  forall (number : Type) (zero : number)
         (plus times : number -> number -> number)
         (items : list (CartStore.CartItem number)),
    total_price_of number zero plus times
      (CheckoutPage.order_items_of number items)
    = CartTotals.getTotalPrice number zero plus times items.
Proof.
  intros number zero plus times items.
  unfold total_price_of, CartTotals.getTotalPrice.
  apply total_price_of_cart.
Qed.
